(** * Order creation and delivery-slot assignment

    A shallow embedding of the order-creation service:
    - [validateSlotAvailability] (services/delivery/validateSlotAvailability.ts),
    - [createOrder] (the order-creation orchestrator),
    - [formatDeliveryTime] and [notifyUser] (the notification dispatcher).

    The asynchronous functions of the source are embedded as programs over a
    signature of store and collaborator operations ([Op]); every [await] on
    such an operation is one node of the program.  The programs are run
    sequentially by [run] and interleaved, one operation at a time, by
    [sched]. *)

From Stdlib Require Import ZArith Ascii String List Lia Bool.
From stdpp Require Import base gmap strings list pretty.

Local Open Scope Z_scope.

(** ** JavaScript strings and values *)

Module Js.

(** The integers every one of which is a number of its own: up to
    [Number.MAX_SAFE_INTEGER] in absolute value. *)
Definition safe_integer (n : Z) : Prop :=
  -9007199254740991 <= n <= 9007199254740991.

(** [`${n}`] and [n.toString()] for an integral number: its decimal digits.
    This is the text of the source for a safe integer; a larger number is
    printed with its significant digits only, and from 10^21 on in exponent
    notation, which the definition does not follow. *)
Definition num_to_string (n : Z) : string := pretty n.

(** [Array.prototype.join]. *)
Fixpoint join (sep : string) (l : list string) : string :=
  match l with
  | [] => ""
  | [x] => x
  | x :: rest => x +:+ sep +:+ join sep rest
  end.

(** [strip_prefix p s] is the rest of [s] after its prefix [p]. *)
Fixpoint strip_prefix (p s : string) : option string :=
  match p, s with
  | EmptyString, _ => Some s
  | String a p', String b s' =>
      if Ascii.eqb a b then strip_prefix p' s' else None
  | String _ _, EmptyString => None
  end.

(** The text before and after the first occurrence of [pat] in [s]. *)
Fixpoint split_first (pat s : string) : option (string * string) :=
  match strip_prefix pat s with
  | Some rest => Some (EmptyString, rest)
  | None =>
      match s with
      | EmptyString => None
      | String c s' =>
          match split_first pat s' with
          | Some (before, after) => Some (String c before, after)
          | None => None
          end
      end
  end.

Definition includes (s pat : string) : bool :=
  match split_first pat s with Some _ => true | None => false end.

(** GetSubstitution of ECMA-262 for a string pattern: there are no captures,
    so only [$$], [$&], [$`] and [$'] are expanded in the replacement text;
    every other character, a [$] before a digit included, is copied. *)
Fixpoint get_substitution (matched before after repl : string) : string :=
  match repl with
  | EmptyString => EmptyString
  | String c r =>
      if Ascii.eqb c "$" then
        match r with
        | EmptyString => String c EmptyString
        | String d r' =>
            if Ascii.eqb d "$" then
              String "$" (get_substitution matched before after r')
            else if Ascii.eqb d "&" then
              matched +:+ get_substitution matched before after r'
            else if Ascii.eqb d "`" then
              before +:+ get_substitution matched before after r'
            else if Ascii.eqb d "'" then
              after +:+ get_substitution matched before after r'
            else String c (get_substitution matched before after r)
        end
      else String c (get_substitution matched before after r)
  end.

(** [s.replace(pat, repl)] with a string pattern: the first occurrence only. *)
Definition replace (s pat repl : string) : string :=
  match split_first pat s with
  | None => s
  | Some (before, after) =>
      before +:+ get_substitution pat before after repl +:+ after
  end.

(** The window of a delivery slot as it is passed to the notifier:
    [{ id, startTime, endTime }], the times as epoch milliseconds. *)
Record SlotWindow := mkSlotWindow {
  sw_id : Z;
  sw_startTime : Z;
  sw_endTime : Z
}.

(** The values a context bag ([Record<string, any>]) holds.  Numbers are
    integral; [JSlot] is an object with [startTime] and [endTime] dates;
    [JObject] and [JArray] stand for any other object or array, without
    such properties. *)
Inductive Value :=
  | JUndefined
  | JNull
  | JBool (b : bool)
  | JNum (n : Z)
  | JStr (s : string)
  | JSlot (w : SlotWindow)
  | JObject
  | JArray.

(** ToBoolean. *)
Definition truthy (v : Value) : bool :=
  match v with
  | JUndefined | JNull => false
  | JBool b => b
  | JNum n => negb (n =? 0)
  | JStr s => negb (String.eqb s "")
  | JSlot _ | JObject | JArray => true
  end.

(** [typeof v === 'string' || typeof v === 'number'], with [v.toString()]. *)
Definition scalar_string (v : Value) : option string :=
  match v with
  | JStr s => Some s
  | JNum n => Some (num_to_string n)
  | _ => None
  end.

(** An ordinary object, as the list of its own properties in the order
    [Object.entries] enumerates them: array-index keys first, ascending,
    then the other keys in insertion order. *)
Definition Obj := list (string * Value).

Definition get (o : Obj) (k : string) : Value :=
  match List.find (fun kv => String.eqb (fst kv) k) o with
  | Some kv => snd kv
  | None => JUndefined
  end.

Definition is_digit (c : ascii) : bool :=
  let n := Ascii.N_of_ascii c in ((48 <=? n) && (n <=? 57))%N.

Fixpoint digits_value (s : string) (acc : N) : option N :=
  match s with
  | EmptyString => Some acc
  | String c s' =>
      if is_digit c
      then digits_value s' (10 * acc + (Ascii.N_of_ascii c - 48))%N
      else None
  end.

(** The array index a property key denotes, if it is a canonical numeric
    string below 2^32 - 1. *)
Definition array_index (k : string) : option N :=
  match k with
  | EmptyString => None
  | String c rest =>
      if Ascii.eqb c "0" && negb (String.eqb rest "") then None
      else
        match digits_value k 0 with
        | Some n => if (n <? 4294967295)%N then Some n else None
        | None => None
        end
  end.

Fixpoint has_key (o : Obj) (k : string) : bool :=
  match o with
  | [] => false
  | (k', _) :: o' => String.eqb k' k || has_key o' k
  end.

Fixpoint overwrite (o : Obj) (k : string) (v : Value) : Obj :=
  match o with
  | [] => []
  | (k', v') :: o' =>
      if String.eqb k' k then (k', v) :: o' else (k', v') :: overwrite o' k v
  end.

(** Insert a new array-index key [k] (index [n]) at its numeric position. *)
Fixpoint insert_index (o : Obj) (n : N) (k : string) (v : Value) : Obj :=
  match o with
  | [] => [(k, v)]
  | (k', v') :: o' =>
      match array_index k' with
      | Some n' =>
          if (n' <? n)%N then (k', v') :: insert_index o' n k v
          else (k, v) :: o
      | None => (k, v) :: o
      end
  end.

(** [o[k] = v] on an ordinary object. *)
Definition set (o : Obj) (k : string) (v : Value) : Obj :=
  if has_key o k then overwrite o k v
  else
    match array_index k with
    | Some n => insert_index o n k v
    | None => o ++ [(k, v)]
    end.

(** [{ ...base, ...extra }]: the properties of [extra] are set on [base] in
    their enumeration order. *)
Definition spread (base extra : Obj) : Obj :=
  fold_left (fun o kv => set o (fst kv) (snd kv)) extra base.

End Js.

(** ** Entities, requests and the store *)

(** Modelled from the spec: the entity classes of [models/entities]
    (DeliverySlot, User, Order, OrderItem, Notification) are not among the
    sources; the records carry the fields of the data model that the
    functions read and write.  Amounts and counters are integers. *)

Record DeliverySlot := mkDeliverySlot {
  slot_id : Z;
  startTime : Z;          (* epoch milliseconds *)
  endTime : Z;
  isActive : bool;
  currentUsage : Z;
  maxCapacity : Z
}.

Record User := mkUser {
  user_id : Z;
  user_email : string
}.

Record Order := mkOrder {
  order_id : Z;           (* assigned by the store on save *)
  order_userId : Z;
  order_addressId : Z;
  order_deliverySlotId : option Z;
  order_totalAmount : Z;
  order_status : string
}.

(** The property names an object literal inherits from [Object.prototype].
    A look-up [object[name]] finds a value for them although the object has
    no such entry of its own.  [NOTIFICATION_TEMPLATES[type]] does, so
    [lookup_template] stands for the look-up of the source on every other
    type only; the price maps that [createOrder] indexes by [skuId] do too,
    which [entry_or_zero] follows. *)
Definition inherited_keys : list string :=
  ["constructor"; "__defineGetter__"; "__defineSetter__"; "hasOwnProperty";
   "__lookupGetter__"; "__lookupSetter__"; "isPrototypeOf";
   "propertyIsEnumerable"; "toString"; "valueOf"; "__proto__";
   "toLocaleString"].

(** What [createOrder] puts into an amount of an order item.  The data
    model has a number there; a look-up in a price map under an inherited
    name gives the inherited function or object instead, and arithmetic on
    it gives NaN. *)
Inductive Amount : Type :=
  | ANum (n : Z)
  | AInherited (name : string)
  | ANaN.

Coercion ANum : Z >-> Amount.

(** [a - b] and [a * q]: an operand that is not a number converts to NaN. *)
Definition amount_sub (a b : Amount) : Amount :=
  match a, b with
  | ANum x, ANum y => ANum (x - y)
  | _, _ => ANaN
  end.

Definition amount_mul (a : Amount) (q : Z) : Amount :=
  match a with
  | ANum x => ANum (x * q)
  | _ => ANaN
  end.

Record OrderItem := mkOrderItem {
  item_id : Z;            (* assigned by the store on save *)
  item_orderId : Z;
  item_skuId : string;
  item_quantity : Z;
  item_unitPrice : Amount;
  item_discount : Amount;
  item_subtotal : Amount
}.

Record Notification := mkNotification {
  notif_id : Z;           (* assigned by the store on save *)
  notif_userId : Z;
  notif_orderId : Z;
  notif_type : string;
  notif_title : string;
  notif_content : string;
  notif_isRead : bool
}.

(** Modelled from the spec: [IOrderItemInput] and [IOrderInput] of
    [types/schema], the request
    [{userId, addressId, items: [{skuId, qty}], preferredSlotId?}]. *)
Record IOrderItemInput := mkItemInput {
  skuId : string;
  qty : Z
}.

Record IOrderInput := mkOrderInput {
  userId : Z;
  addressId : Z;
  items : list IOrderItemInput;
  preferredSlotId : option Z
}.

(** Modelled from the spec: what the collaborators [validateInventory]
    ([{valid, errors}]) and [calculatePrice]
    ([{totalAmount, itemPrices, itemDiscounts}]) return. *)
Record InventoryValidation := mkInventoryValidation {
  valid : bool;
  errors : list string
}.

Record PriceDetails := mkPriceDetails {
  totalAmount : Z;
  itemPrices : gmap string Z;      (* the entries of the object itself *)
  itemDiscounts : gmap string Z
}.

(** [map[key] || 0] on a plain object with the entries [map]: the entry of
    the object itself (a 0 stays 0); without one, the value inherited under
    that name, which is truthy; and else [undefined], which gives 0. *)
Definition entry_or_zero (map : gmap string Z) (key : string) : Amount :=
  match map !! key with
  | Some n => ANum n
  | None =>
      if existsb (String.eqb key) inherited_keys then AInherited key
      else ANum 0
  end.

(** The order as [findOne] returns it with the relations
    ["items", "deliverySlot", "user"]. *)
Record CompleteOrder := mkCompleteOrder {
  co_order : Order;
  co_items : list OrderItem;
  co_deliverySlot : option DeliverySlot;
  co_user : option User
}.

(** The payload published on the ["user:notification"] topic. *)
Record Published := mkPublished {
  pub_topic : string;
  pub_userId : Z;
  pub_orderId : Z;
  pub_type : string;
  pub_title : string;
  pub_content : string;
  pub_notificationId : Z
}.

Inductive SlotAssignmentMethod := user_selected | auto_assigned | fallback.

Definition method_string (m : SlotAssignmentMethod) : string :=
  match m with
  | user_selected => "user_selected"
  | auto_assigned => "auto_assigned"
  | fallback => "fallback"
  end.

(** A thrown [Error], with its name and its message. *)
Record Error := mkError {
  err_name : string;
  err_message : string
}.

Definition new_Error (msg : string) : Error := mkError "Error" msg.

(** [`${error}`], that is [Error.prototype.toString]: the message alone for
    an empty name, the name alone for an empty message, and otherwise the
    name, a colon and the message. *)
Definition error_to_string (e : Error) : string :=
  if String.eqb (err_name e) "" then err_message e
  else if String.eqb (err_message e) "" then err_name e
  else err_name e +:+ ": " +:+ err_message e.

Inductive Result (A : Type) : Type :=
  | Ok (a : A)
  | Err (e : Error).
Arguments Ok {A} a.
Arguments Err {A} e.

(** The committed tables. *)
Record Store := mkStore {
  users : gmap Z User;
  slots : gmap Z DeliverySlot;
  orders : list Order;
  orderItems : list OrderItem;
  notifications : list Notification
}.

(** A write a program issued, whether or not it was committed later:
    [WSlot true] through the query runner's manager, the others through
    the repositories of the data source. *)
Inductive Write :=
  | WSlot (transactional : bool) (s : DeliverySlot)
  | WOrder (o : Order)
  | WItems (l : list OrderItem)
  | WNotification (n : Notification).

(** What all requests share: the store, the broadcast channel, the console
    and the history of issued writes. *)
Record World := mkWorld {
  store : Store;
  channel : list Published;
  console : list string;
  writes : list Write
}.

(** The state of one query runner: the uncommitted slot rows of its open
    transaction, if it has one. *)
Definition Tx := option (gmap Z DeliverySlot).

(** ** Operations and programs *)

(** The operations the source performs on its environment, indexed by what
    they return.  All are awaited except the clock, the publication and the
    console. *)
Inductive Op : Type -> Type :=
  | Initialize : Op unit                                  (* AppDataSource.initialize() *)
  | Connect : Op unit                                     (* queryRunner.connect() *)
  | StartTransaction : Op unit
  | CommitTransaction : Op unit
  | RollbackTransaction : Op unit
  | Release : Op unit
  | ValidateInventory (l : list IOrderItemInput) : Op InventoryValidation
  | CalculatePrice (l : list IOrderItemInput) : Op PriceDetails
  | AssignDefaultSlot : Op (option DeliverySlot)
  | FindUser (id : Z) : Op (option User)                  (* userRepository.findOneBy *)
  | FindSlot (id : Z) : Op (option DeliverySlot)          (* slotRepository.findOneBy *)
  | GetNow : Op Z                                         (* new Date() *)
  | ManagerSaveSlot (s : DeliverySlot) : Op DeliverySlot  (* queryRunner.manager.save *)
  | SaveOrder (o : Order) : Op Order                      (* orderRepository.save *)
  | SaveOrderItems (l : list OrderItem) : Op (list OrderItem)
  | FindOrderWithSlot (id : Z) : Op (option (Order * option DeliverySlot))
  | FindCompleteOrder (id : Z) : Op (option CompleteOrder)
  | SaveNotification (n : Notification) : Op Notification
  | Publish (p : Published) : Op unit                     (* pubsub.publish *)
  | ConsoleWarn (s : string) : Op unit
  | ConsoleError (s : string) : Op unit.

(** The operations that can fail, for the fault oracle of the
    environment. *)
Inductive OpTag :=
  | TInitialize | TConnect | TStartTransaction | TCommitTransaction
  | TRollbackTransaction | TRelease | TValidateInventory | TCalculatePrice
  | TAssignDefaultSlot | TFindUser | TFindSlot | TManagerSaveSlot
  | TSaveOrder | TSaveOrderItems | TFindOrder | TSaveNotification | TPublish.

Definition op_tag {R} (op : Op R) : option OpTag :=
  match op with
  | Initialize => Some TInitialize
  | Connect => Some TConnect
  | StartTransaction => Some TStartTransaction
  | CommitTransaction => Some TCommitTransaction
  | RollbackTransaction => Some TRollbackTransaction
  | Release => Some TRelease
  | ValidateInventory _ => Some TValidateInventory
  | CalculatePrice _ => Some TCalculatePrice
  | AssignDefaultSlot => Some TAssignDefaultSlot
  | FindUser _ => Some TFindUser
  | FindSlot _ => Some TFindSlot
  | GetNow => None
  | ManagerSaveSlot _ => Some TManagerSaveSlot
  | SaveOrder _ => Some TSaveOrder
  | SaveOrderItems _ => Some TSaveOrderItems
  | FindOrderWithSlot _ => Some TFindOrder
  | FindCompleteOrder _ => Some TFindOrder
  | SaveNotification _ => Some TSaveNotification
  | Publish _ => Some TPublish
  | ConsoleWarn _ | ConsoleError _ => None
  end.

(** A program: it returns, throws, or performs an operation and goes on
    with the operation's outcome. *)
Inductive Prog (A : Type) : Type :=
  | Ret (a : A)
  | Throw (e : Error)
  | Act {R : Type} (op : Op R) (k : Result R -> Prog A).
Arguments Ret {A} a.
Arguments Throw {A} e.
Arguments Act {A R} op k.

(** [await op]: an operation that fails throws at the await. *)
Definition call {R} (op : Op R) : Prog R :=
  Act op (fun r => match r with Ok v => Ret v | Err e => Throw e end).

Fixpoint bind {A B} (p : Prog A) (f : A -> Prog B) : Prog B :=
  match p with
  | Ret a => f a
  | Throw e => Throw e
  | Act op k => Act op (fun r => bind (k r) f)
  end.

(** [try { p } catch (error) { h error }]. *)
Fixpoint try_catch {A} (p : Prog A) (h : Error -> Prog A) : Prog A :=
  match p with
  | Ret a => Ret a
  | Throw e => h e
  | Act op k => Act op (fun r => try_catch (k r) h)
  end.

(** [try { p } finally { f }]: [f] runs on both exits, and an error of [f]
    replaces the outcome of [p]. *)
Fixpoint try_finally {A} (p : Prog A) (f : Prog unit) : Prog A :=
  match p with
  | Ret a => bind f (fun _ => Ret a)
  | Throw e => bind f (fun _ => Throw e)
  | Act op k => Act op (fun r => try_finally (k r) f)
  end.

Declare Scope prog_scope.
Delimit Scope prog_scope with prog.
Notation "x <- c1 ;; c2" := (bind c1 (fun x => c2))
  (at level 100, c1 at next level, right associativity) : prog_scope.
Notation "c1 ;;; c2" := (bind c1 (fun _ => c2))
  (at level 100, right associativity) : prog_scope.
Local Open Scope prog_scope.

(** ** services/delivery/validateSlotAvailability.ts *)

Record SlotValidation := mkSlotValidation {
  isAvailable : bool;
  slot : option DeliverySlot;
  message : option string
}.

Definition validateSlotAvailability (slotId : Z) : Prog SlotValidation :=
  dataSource <- call Initialize ;;
  try_catch
    (slot <- call (FindSlot slotId) ;;
     match slot with
     | None =>
         Ret (mkSlotValidation false None
                (Some ("Delivery slot with ID " +:+ Js.num_to_string slotId
                       +:+ " not found")))
     | Some slot =>
         (* active flag check *)
         if negb (isActive slot) then
           Ret (mkSlotValidation false (Some slot)
                  (Some "Selected delivery slot is inactive"))
         (* Check if slot has available capacity *)
         else if currentUsage slot >=? maxCapacity slot then
           Ret (mkSlotValidation false (Some slot)
                  (Some ("Selected delivery slot is full ("
                         +:+ Js.num_to_string (currentUsage slot) +:+ "/"
                         +:+ Js.num_to_string (maxCapacity slot) +:+ ")")))
         else
           (* Check if slot is in the future *)
           now <- call GetNow ;;
           if startTime slot <=? now then
             Ret (mkSlotValidation false (Some slot)
                    (Some "Selected delivery slot has already passed"))
           else Ret (mkSlotValidation true (Some slot) None)
     end)
    (fun error =>
       Throw (new_Error ("Error validating slot availability: "
                         +:+ error_to_string error))).

(** ** The notification dispatcher: formatDeliveryTime and notifyUser *)

Record Template := mkTemplate {
  tpl_title : string;
  tpl_template : string
}.

(** Message templates for different notification types *)
Definition NOTIFICATION_TEMPLATES : list (string * Template) :=
  [ ("order_created",
     mkTemplate "Order Confirmation"
       "Your order #{orderId} has been received and is being processed. {deliveryInfo}");
    ("order_confirmed",
     mkTemplate "Order Confirmed"
       "Good news! Your order #{orderId} has been confirmed. {deliveryInfo}");
    ("order_shipped",
     mkTemplate "Order Shipped"
       "Your order #{orderId} is on its way to you! {deliveryInfo}");
    ("order_delivered",
     mkTemplate "Order Delivered"
       "Your order #{orderId} has been delivered. Enjoy!");
    ("order_cancelled",
     mkTemplate "Order Cancelled"
       "Your order #{orderId} has been cancelled. {reason}");
    ("order_refunded",
     mkTemplate "Order Refunded"
       "Your refund for order #{orderId} has been processed. {reason}") ].

Definition lookup_template (type : string) : option Template :=
  match List.find (fun kv => String.eqb (fst kv) type) NOTIFICATION_TEMPLATES with
  | Some kv => Some (snd kv)
  | None => None
  end.

(** A [Date]: its time value, or [None] for an Invalid Date. *)
Definition Date := option Z.

(** [new Date(slot.startTime)] and [new Date(slot.endTime)] for the value
    found under [deliverySlot]: only a slot window has these properties. *)
Definition date_of_startTime (slot : Js.Value) : Date :=
  match slot with Js.JSlot w => Some (Js.sw_startTime w) | _ => None end.

Definition date_of_endTime (slot : Js.Value) : Date :=
  match slot with Js.JSlot w => Some (Js.sw_endTime w) | _ => None end.

Definition dayNames : list string :=
  ["Sunday"; "Monday"; "Tuesday"; "Wednesday"; "Thursday"; "Friday"; "Saturday"].

Section LocalTime.

(** The time zone of the process, in minutes east of UTC. *)
Variable tzOffset : Z.

Definition local_ms (t : Z) : Z := t + tzOffset * 60000.

(** [date.getDay()]: 1 January 1970 was a Thursday. *)
Definition getDay (d : Date) : option Z :=
  match d with
  | Some t => Some ((local_ms t / 86400000 + 4) mod 7)
  | None => None
  end.

(** [date.getHours()]. *)
Definition getHours (d : Date) : option Z :=
  match d with
  | Some t => Some ((local_ms t mod 86400000) / 3600000)
  | None => None
  end.

(** [`${dayNames[date.getDay()]}`]: an index that is not a number finds no
    entry, which prints as [undefined]. *)
Definition dayName (d : Date) : string :=
  match getDay d with
  | Some i => nth (Z.to_nat i) dayNames "undefined"
  | None => "undefined"
  end.

(** Format time (e.g., "2:00 PM - 5:00 PM") *)
Definition formatTime (date : Date) : string :=
  match getHours date with
  | Some hours =>
      let ampm := if hours >=? 12 then "PM" else "AM" in
      let hours := hours mod 12 in
      let hours := if hours =? 0 then 12 else hours in  (* convert 0 to 12 *)
      Js.num_to_string hours +:+ ":00 " +:+ ampm
  | None =>
      (* NaN >= 12 is false, NaN % 12 is NaN, and NaN is falsy *)
      Js.num_to_string 12 +:+ ":00 " +:+ "AM"
  end.

Definition timeSlotString (startTime endTime : Date) : string :=
  dayName startTime +:+ " " +:+ formatTime startTime +:+ " - "
  +:+ formatTime endTime.

(** The method-specific phrase: the [switch (method)] of the source, which
    compares with [===]. *)
Definition methodPhrase (method : Js.Value) (timeSlot : string) : string :=
  match method with
  | Js.JStr m =>
      if String.eqb m "user_selected" then
        "Your selected delivery time: " +:+ timeSlot
      else if String.eqb m "fallback" then
        "Your preferred time slot was unavailable, so we assigned the next available slot: "
        +:+ timeSlot
      else "Scheduled for " +:+ timeSlot
  | _ => "Scheduled for " +:+ timeSlot
  end.

(** Format a delivery slot into a human-readable string with assignment
    method info *)
Definition formatDeliveryTime (orderId : Z) (additionalData : Js.Obj)
  : Prog string :=
  dataSource <- call Initialize ;;
  (* Check if delivery slot info is provided in additionalData *)
  if Js.truthy (Js.get additionalData "deliverySlot")
     && Js.truthy (Js.get additionalData "slotAssignmentMethod")
  then
    let slot := Js.get additionalData "deliverySlot" in
    let method := Js.get additionalData "slotAssignmentMethod" in
    let startTime := date_of_startTime slot in
    let endTime := date_of_endTime slot in
    Ret (methodPhrase method (timeSlotString startTime endTime))
  else
    (* Fallback to database lookup if not provided in additionalData *)
    order <- call (FindOrderWithSlot orderId) ;;
    match order with
    | None | Some (_, None) => Ret "Delivery details will be provided soon."
    | Some (_, Some slot) =>
        Ret ("Scheduled for "
             +:+ timeSlotString (Some (startTime slot)) (Some (endTime slot)))
    end.

(** One round of the placeholder loop: scalars are substituted, anything
    else is skipped. *)
Definition interpolate_entry (content : string) (kv : string * Js.Value)
  : string :=
  match Js.scalar_string (snd kv) with
  | Some s => Js.replace content ("{" +:+ fst kv +:+ "}") s
  | None => content
  end.

Definition interpolate (template : string) (messageData : Js.Obj) : string :=
  fold_left interpolate_entry messageData template.

(** Sends a notification to a user about an order *)
Definition notifyUser (orderId : Z) (type : string) (userId : Z)
    (additionalData : Js.Obj) : Prog Notification :=
  dataSource <- call Initialize ;;
  try_catch
    ((* Get the notification template *)
     match lookup_template type with
     | None =>
         Throw (new_Error ("Notification template for type '" +:+ type
                           +:+ "' not found"))
     | Some template =>
         deliveryInfo <- formatDeliveryTime orderId additionalData ;;
         (* Prepare data for message interpolation *)
         let messageData :=
           Js.spread [("orderId", Js.JNum orderId);
                      ("deliveryInfo", Js.JStr deliveryInfo)]
                     additionalData in
         (* Replace placeholders in the template *)
         let content := interpolate (tpl_template template) messageData in
         (* Create and save the notification record *)
         savedNotification <-
           call (SaveNotification
                   (mkNotification 0 userId orderId type (tpl_title template)
                      content false)) ;;
         (* Publish notification to pubsub for external delivery *)
         call (Publish
                 (mkPublished "user:notification" userId orderId type
                    (tpl_title template) content
                    (notif_id savedNotification))) ;;;
         Ret savedNotification
     end)
    (fun error =>
       call (ConsoleError ("Error sending notification to user "
                           +:+ Js.num_to_string userId +:+ ": "
                           +:+ error_to_string error)) ;;;
       Throw error).

(** ** The order-creation orchestrator: createOrder *)

(** [if (orderInput.preferredSlotId)]: an absent identifier and the number 0
    are both falsy. *)
Definition truthy_id (id : option Z) : bool :=
  match id with
  | Some n => negb (n =? 0)
  | None => false
  end.

(** [deliverySlot.currentUsage += 1]. *)
Definition incrementUsage (s : DeliverySlot) : DeliverySlot :=
  mkDeliverySlot (slot_id s) (startTime s) (endTime s) (isActive s)
    (currentUsage s + 1) (maxCapacity s).

(** Step 4, up to the check for a missing slot: the values of
    [deliverySlot] and [slotAssignmentMethod] when the branches join. *)
Definition assignDeliverySlot (orderInput : IOrderInput)
  : Prog (option DeliverySlot * SlotAssignmentMethod) :=
  (* Check if user provided a preferred slot *)
  if truthy_id (preferredSlotId orderInput) then
    (* Validate the user-selected slot *)
    slotValidation <-
      validateSlotAvailability (default 0 (preferredSlotId orderInput)) ;;
    match isAvailable slotValidation, slot slotValidation with
    | true, Some deliverySlot =>
        (* Use the user-selected slot and update slot capacity *)
        let deliverySlot := incrementUsage deliverySlot in
        call (ManagerSaveSlot deliverySlot) ;;;
        Ret (Some deliverySlot, user_selected)
    | _, _ =>
        (* Auto-fallback when selected slot is unavailable *)
        call (ConsoleWarn ("User selected unavailable slot: "
                           +:+ default "undefined" (message slotValidation))) ;;;
        deliverySlot <- call AssignDefaultSlot ;;
        Ret (deliverySlot, fallback)
    end
  else
    (* Use default strategy when no preference provided *)
    deliverySlot <- call AssignDefaultSlot ;;
    Ret (deliverySlot, auto_assigned).

(** The callback of [orderInput.items.map]. *)
Definition buildOrderItem (savedOrderId : Z) (priceDetails : PriceDetails)
    (item : IOrderItemInput) : OrderItem :=
  let unitPrice := entry_or_zero (itemPrices priceDetails) (skuId item) in
  let discount := entry_or_zero (itemDiscounts priceDetails) (skuId item) in
  mkOrderItem 0 savedOrderId (skuId item) (qty item) unitPrice discount
    (amount_mul (amount_sub unitPrice discount) (qty item)).

(** The transactional sequence, steps 1 to 8. *)
Definition createOrderSteps (orderInput : IOrderInput) : Prog CompleteOrder :=
  (* Step 1: Validate inventory *)
  inventoryValidation <- call (ValidateInventory (items orderInput)) ;;
  if negb (valid inventoryValidation) then
    Throw (new_Error ("Inventory validation failed: "
                      +:+ Js.join ", " (errors inventoryValidation)))
  else
  (* Step 2: Check if user exists *)
  user <- call (FindUser (userId orderInput)) ;;
  match user with
  | None =>
      Throw (new_Error ("User with ID " +:+ Js.num_to_string (userId orderInput)
                        +:+ " not found"))
  | Some user =>
  (* Step 3: Calculate price *)
  priceDetails <- call (CalculatePrice (items orderInput)) ;;
  (* Step 4: Assign delivery slot *)
  assigned <- assignDeliverySlot orderInput ;;
  let slotAssignmentMethod := snd assigned in
  (* Handle case where no slot could be assigned *)
  match fst assigned with
  | None => Throw (new_Error "No delivery slots available")
  | Some deliverySlot =>
  (* Step 5: Create order *)
  let newOrder :=
    mkOrder 0 (userId orderInput) (addressId orderInput)
      (Some (slot_id deliverySlot)) (totalAmount priceDetails) "pending" in
  savedOrder <- call (SaveOrder newOrder) ;;
  (* Step 6: Create order items *)
  let orderItems :=
    map (buildOrderItem (order_id savedOrder) priceDetails) (items orderInput) in
  call (SaveOrderItems orderItems) ;;;
  (* Step 7: Notify user about order creation *)
  notifyUser (order_id savedOrder) "order_created" (user_id user)
    [("slotAssignmentMethod", Js.JStr (method_string slotAssignmentMethod));
     ("deliverySlot",
      Js.JSlot (Js.mkSlotWindow (slot_id deliverySlot) (startTime deliverySlot)
                  (endTime deliverySlot)))] ;;;
  (* Commit transaction *)
  call CommitTransaction ;;;
  (* Return the complete order with items *)
  completeOrder <- call (FindCompleteOrder (order_id savedOrder)) ;;
  match completeOrder with
  | None =>
      Throw (new_Error ("Failed to retrieve the created order with ID "
                        +:+ Js.num_to_string (order_id savedOrder)))
  | Some completeOrder => Ret completeOrder
  end
  end
  end.

(** Creates a new order with the provided details *)
Definition createOrder (orderInput : IOrderInput) : Prog CompleteOrder :=
  (* Initialize database connection *)
  dataSource <- call Initialize ;;
  try_catch
    ((* Begin transaction *)
     call Connect ;;;
     call StartTransaction ;;;
     try_finally
       (try_catch
          (createOrderSteps orderInput)
          (fun error =>
             (* Rollback transaction in case of error *)
             call RollbackTransaction ;;;
             Throw error))
       ((* Release query runner *)
        call Release))
    (fun error =>
       (* Re-throw the error for handling by the API layer *)
       Throw error).

End LocalTime.

(** ** The environment and the meaning of the operations *)

(** Modelled from the spec: the collaborators [validateInventory],
    [calculatePrice] and [assignDefaultSlot] are not among the sources.
    They are parameters with the interface the functions above use: an
    inventory verdict, a price breakdown, and a default slot or none, which
    the assigner chooses by reading the store.  [env_now] is the clock,
    and [env_fault] tells which operations fail, and with which error. *)
Record Env := mkEnv {
  env_now : Z;
  env_validateInventory : list IOrderItemInput -> InventoryValidation;
  env_calculatePrice : list IOrderItemInput -> PriceDetails;
  env_assignDefaultSlot : Store -> option DeliverySlot;
  env_fault : OpTag -> option Error
}.

(** The identifier a generated primary key takes: above every identifier
    of the table. *)
Definition fresh_id (ids : list Z) : Z := 1 + foldr Z.max 0 ids.

Definition with_order_id (id : Z) (o : Order) : Order :=
  mkOrder id (order_userId o) (order_addressId o) (order_deliverySlotId o)
    (order_totalAmount o) (order_status o).

Definition with_item_id (id : Z) (i : OrderItem) : OrderItem :=
  mkOrderItem id (item_orderId i) (item_skuId i) (item_quantity i)
    (item_unitPrice i) (item_discount i) (item_subtotal i).

Definition with_notif_id (id : Z) (n : Notification) : Notification :=
  mkNotification id (notif_userId n) (notif_orderId n) (notif_type n)
    (notif_title n) (notif_content n) (notif_isRead n).

Fixpoint assign_item_ids (next : Z) (l : list OrderItem) : list OrderItem :=
  match l with
  | [] => []
  | i :: rest => with_item_id next i :: assign_item_ids (next + 1) rest
  end.

Definition set_slots (st : Store) (m : gmap Z DeliverySlot) : Store :=
  mkStore (users st) m (orders st) (orderItems st) (notifications st).

Definition add_order (st : Store) (o : Order) : Store :=
  mkStore (users st) (slots st) (orders st ++ [o]) (orderItems st)
    (notifications st).

Definition add_items (st : Store) (l : list OrderItem) : Store :=
  mkStore (users st) (slots st) (orders st) (orderItems st ++ l)
    (notifications st).

Definition add_notification (st : Store) (n : Notification) : Store :=
  mkStore (users st) (slots st) (orders st) (orderItems st)
    (notifications st ++ [n]).

Definition set_store (w : World) (st : Store) : World :=
  mkWorld st (channel w) (console w) (writes w).

Definition log_write (w : World) (x : Write) : World :=
  mkWorld (store w) (channel w) (console w) (writes w ++ [x]).

Definition find_order (st : Store) (id : Z) : option Order :=
  List.find (fun o => order_id o =? id) (orders st).

Definition slot_of_order (st : Store) (o : Order) : option DeliverySlot :=
  match order_deliverySlotId o with
  | Some sid => slots st !! sid
  | None => None
  end.

Definition complete_order (st : Store) (o : Order) : CompleteOrder :=
  mkCompleteOrder o
    (List.filter (fun i => item_orderId i =? order_id o) (orderItems st))
    (slot_of_order st o)
    (users st !! order_userId o).

(** An operation that does not fail.  The store is a TypeORM data source
    with a pool of connections: a repository obtained from the data source
    ([dataSource.getRepository]) runs each call on a connection of its own
    and commits it at once, so it reads and writes the committed tables;
    only [queryRunner.manager] works on the connection of the query runner,
    inside the transaction the runner has opened, whose writes reach the
    tables on commit and are dropped on rollback.  [AppDataSource] itself
    (models/typeorm) is not among the sources: after the spec it is a
    process-wide handle initialised on first use, so [initialize] may be
    called by every function. *)
Definition exec_ok (env : Env) {R} (op : Op R) (w : World) (tx : Tx)
  : Result R * World * Tx :=
  match op in Op R return Result R * World * Tx with
  | Initialize => (Ok tt, w, tx)
  | Connect => (Ok tt, w, tx)
  | StartTransaction =>
      match tx with
      | None => (Ok tt, w, Some ∅)
      | Some _ =>
          (Err (mkError "TransactionAlreadyStartedError"
                  "Transaction already started for the given connection, commit current transaction before starting a new one."),
           w, tx)
      end
  | CommitTransaction =>
      match tx with
      | Some pending =>
          (Ok tt, set_store w (set_slots (store w) (pending ∪ slots (store w))),
           None)
      | None =>
          (Err (mkError "TransactionNotStartedError"
                  "Transaction is not started yet, start transaction before committing or rolling it back."),
           w, tx)
      end
  | RollbackTransaction =>
      match tx with
      | Some _ => (Ok tt, w, None)
      | None =>
          (Err (mkError "TransactionNotStartedError"
                  "Transaction is not started yet, start transaction before committing or rolling it back."),
           w, tx)
      end
  | Release => (Ok tt, w, tx)
  | ValidateInventory l => (Ok (env_validateInventory env l), w, tx)
  | CalculatePrice l => (Ok (env_calculatePrice env l), w, tx)
  | AssignDefaultSlot => (Ok (env_assignDefaultSlot env (store w)), w, tx)
  | FindUser id => (Ok (users (store w) !! id), w, tx)
  | FindSlot id => (Ok (slots (store w) !! id), w, tx)
  | GetNow => (Ok (env_now env), w, tx)
  | ManagerSaveSlot s =>
      match tx with
      | Some pending =>
          (Ok s, log_write w (WSlot true s), Some (<[slot_id s := s]> pending))
      | None =>
          (Ok s,
           log_write
             (set_store w (set_slots (store w) (<[slot_id s := s]> (slots (store w)))))
             (WSlot false s),
           tx)
      end
  | SaveOrder o =>
      let o' := with_order_id (fresh_id (map order_id (orders (store w)))) o in
      (Ok o', log_write (set_store w (add_order (store w) o')) (WOrder o'), tx)
  | SaveOrderItems l =>
      let l' := assign_item_ids (fresh_id (map item_id (orderItems (store w)))) l in
      (Ok l', log_write (set_store w (add_items (store w) l')) (WItems l'), tx)
  | FindOrderWithSlot id =>
      (Ok (match find_order (store w) id with
           | Some o => Some (o, slot_of_order (store w) o)
           | None => None
           end), w, tx)
  | FindCompleteOrder id =>
      (Ok (match find_order (store w) id with
           | Some o => Some (complete_order (store w) o)
           | None => None
           end), w, tx)
  | SaveNotification n =>
      let n' := with_notif_id (fresh_id (map notif_id (notifications (store w)))) n in
      (Ok n', log_write (set_store w (add_notification (store w) n'))
                (WNotification n'), tx)
  | Publish p => (Ok tt, mkWorld (store w) (channel w ++ [p]) (console w) (writes w), tx)
  | ConsoleWarn s => (Ok tt, mkWorld (store w) (channel w) (console w ++ [s]) (writes w), tx)
  | ConsoleError s => (Ok tt, mkWorld (store w) (channel w) (console w ++ [s]) (writes w), tx)
  end.

Definition fault_of (env : Env) {R} (op : Op R) : option Error :=
  match op_tag op with
  | Some t => env_fault env t
  | None => None
  end.

Definition exec (env : Env) {R} (op : Op R) (w : World) (tx : Tx)
  : Result R * World * Tx :=
  match fault_of env op with
  | Some e => (Err e, w, tx)
  | None => exec_ok env op w tx
  end.

(** Running one program to its end, alone. *)
Fixpoint run (env : Env) {A} (p : Prog A) (w : World) (tx : Tx)
  : Result A * World * Tx :=
  match p with
  | Ret a => (Ok a, w, tx)
  | Throw e => (Err e, w, tx)
  | Act op k =>
      let '(r, w', tx') := exec env op w tx in
      run env (k r) w' tx'
  end.

(** A call of [createOrder] creates its own query runner. *)
Definition run_createOrder (env : Env) (tzOffset : Z) (orderInput : IOrderInput)
    (w : World) : Result CompleteOrder * World :=
  fst (run env (createOrder tzOffset orderInput) w None).

(** ** Concurrent requests *)

(** A request in flight: what is left of its program, and its own query
    runner. *)
Record Thread (A : Type) := mkThread {
  th_prog : Prog A;
  th_tx : Tx
}.
Arguments mkThread {A} th_prog th_tx.
Arguments th_prog {A} t.
Arguments th_tx {A} t.

(** One operation of one request. *)
Definition step_thread (env : Env) {A} (t : Thread A) (w : World)
  : Thread A * World :=
  match th_prog t with
  | Act op k =>
      let '(r, w', tx') := exec env op w (th_tx t) in
      (mkThread (k r) tx', w')
  | _ => (t, w)
  end.

(** The requests of [pool] under a schedule: each entry names the request
    that performs its next operation. *)
Fixpoint sched (env : Env) {A} (schedule : list nat) (pool : list (Thread A))
    (w : World) : list (Thread A) * World :=
  match schedule with
  | [] => (pool, w)
  | i :: rest =>
      match pool !! i with
      | Some t =>
          let '(t', w') := step_thread env t w in
          sched env rest (<[i := t']> pool) w'
      | None => sched env rest pool w
      end
  end.

Definition finished {A} (t : Thread A) : option (Result A) :=
  match th_prog t with
  | Ret a => Some (Ok a)
  | Throw e => Some (Err e)
  | Act _ _ => None
  end.

(** ** Vocabulary of the statements *)

(** The slot rows a program asked the store to write. *)
Definition slot_writes (l : list Write) : list DeliverySlot :=
  omap (fun x => match x with WSlot _ s => Some s | _ => None end) l.

(** A slot that is active, has capacity left and starts after [now]. *)
Definition slot_open (now : Z) (s : DeliverySlot) : bool :=
  isActive s && (currentUsage s <? maxCapacity s) && (now <? startTime s).

Definition is_err {A} (r : Result A) : Prop := exists e, r = Err e.

(** Two stores that differ at most in the notification table. *)
Definition same_tables_but_notifications (st st' : Store) : Prop :=
  users st' = users st /\ slots st' = slots st /\ orders st' = orders st /\
  orderItems st' = orderItems st.

(** No operation with a tag in [l] fails. *)
Definition faultless (env : Env) (l : list OpTag) : Prop :=
  forall t, In t l -> env_fault env t = None.

(** The operations of the wrapper of createOrder, of its steps, and of
    notifyUser. *)
Definition wrapper_tags : list OpTag :=
  [TInitialize; TConnect; TStartTransaction; TRelease].

Definition steps_tags : list OpTag :=
  [TValidateInventory; TFindUser; TCalculatePrice; TSaveOrder; TSaveOrderItems;
   TInitialize; TSaveNotification; TPublish; TCommitTransaction; TFindOrder].

Definition notify_tags : list OpTag := [TInitialize; TSaveNotification; TPublish].

(** What the Availability Checker reports for a slot identifier. *)
Definition reports (env : Env) (w : World) (slotId : Z) : Result SlotValidation :=
  fst (fst (run env (validateSlotAvailability slotId) w None)).

(** The condition under which step 4 reaches the user-selected branch with
    the slot row [s]. *)
Definition selects (env : Env) (req : IOrderInput) (w : World)
    (s : DeliverySlot) : Prop :=
  exists id, preferredSlotId req = Some id /\ id <> 0 /\
    env_fault env TInitialize = None /\ env_fault env TFindSlot = None /\
    slots (store w) !! id = Some s /\ slot_open (env_now env) s = true.

(** What step 4 leaves behind when it starts in a transaction with the
    uncommitted rows [pending]: the committed tables and the channel are as
    before, and either nothing was written, or the user-selected branch
    wrote the incremented row of the preferred slot into the transaction. *)
Definition assign_outcome (env : Env) (req : IOrderInput) (w : World)
    (pending : gmap Z DeliverySlot)
    (r : Result (option DeliverySlot * SlotAssignmentMethod))
    (w' : World) (tx' : Tx) : Prop :=
    store w' = store w /\ channel w' = channel w /\
    ( (tx' = Some pending /\ slot_writes (writes w') = slot_writes (writes w) /\
       (forall d, r <> Ok (d, user_selected)) /\
       (forall s, selects env req w s -> is_err r))
    \/ (exists s, selects env req w s /\
          env_fault env TManagerSaveSlot = None /\
          r = Ok (Some (incrementUsage s), user_selected) /\
          tx' = Some (<[slot_id s := incrementUsage s]> pending) /\
          writes w' = writes w ++ [WSlot true (incrementUsage s)]) ).

(** What the steps of createOrder leave behind: they fail before step 4
    and change nothing, or they fail later with the transaction still open
    and the slot table untouched, or they commit the rows of step 4. *)
Definition steps_outcome (env : Env) (req : IOrderInput) (w : World)
    (r : Result CompleteOrder) (w' : World) (tx' : Tx) : Prop :=
( (is_err r /\ w' = w /\ tx' = Some ∅)
    \/ (exists ra wa p,
          run env (assignDeliverySlot req) w (Some ∅) = (ra, wa, Some p) /\
          slot_writes (writes w') = slot_writes (writes wa) /\
          ( (is_err r /\ tx' = Some p /\ slots (store w') = slots (store w))
          \/ (tx' = None /\ slots (store w') = p ∪ slots (store w) /\
              exists d m, ra = Ok (Some d, m)) )) ).

(** The order row and the item rows that steps 5 and 6 write. *)
Definition order_row (env : Env) (req : IOrderInput) (w : World)
    (d : DeliverySlot) : Order :=
  mkOrder (fresh_id (map order_id (orders (store w)))) (userId req)
    (addressId req) (Some (slot_id d))
    (totalAmount (env_calculatePrice env (items req))) "pending".

Definition item_rows (env : Env) (req : IOrderInput) (w : World)
  : list OrderItem :=
  assign_item_ids (fresh_id (map item_id (orderItems (store w))))
    (map (buildOrderItem (fresh_id (map order_id (orders (store w))))
            (env_calculatePrice env (items req)))
         (items req)).

(** The context bag step 7 passes to notifyUser. *)
Definition order_payload (m : SlotAssignmentMethod) (d : DeliverySlot) : Js.Obj :=
  [("slotAssignmentMethod", Js.JStr (method_string m));
   ("deliverySlot",
    Js.JSlot (Js.mkSlotWindow (slot_id d) (startTime d) (endTime d)))].

(** [h]:00 [m] is the twelve-hour reading of the local hour of [t]. *)
Definition twelve_hour (tz t h : Z) (m : string) : Prop :=
  exists H, getHours tz (Some t) = Some H /\ 0 <= H < 24 /\
    1 <= h <= 12 /\ (h - H) mod 12 = 0 /\
    ((H < 12 /\ m = "AM") \/ (12 <= H /\ m = "PM")).

(** A text without a dollar sign. *)
Fixpoint no_dollar (s : string) : Prop :=
  match s with
  | EmptyString => True
  | String c s' => c <> "$"%char /\ no_dollar s'
  end.

(** ** Scenarios *)

Definition hour : Z := 3600000.

(** A slot on Sunday 4 January 1970, 14:00 to 17:00 UTC. *)
Definition sunday_slot (id usage capacity : Z) : DeliverySlot :=
  mkDeliverySlot id (86 * hour) (89 * hour) true usage capacity.

Definition monday_slot (id usage capacity : Z) : DeliverySlot :=
  mkDeliverySlot id (110 * hour) (113 * hour) true usage capacity.

Definition alice : User := mkUser 7 "alice@example.org".

(** One user, and slot 5 with one place left. *)
Definition demo_store : Store :=
  mkStore {[ 7 := alice ]} {[ 5 := sunday_slot 5 0 1 ]} [] [] [].

Definition demo_world : World := mkWorld demo_store [] [] [].

Definition price_A : PriceDetails := mkPriceDetails 20 {[ "A" := 10 ]} ∅.

(** It is Sunday 13:00, one hour before slot 5 starts; the inventory is
    valid, the price map is [{A: 10}] with no discounts, the default slot is
    slot 9 if the store has it, and [fault] tells which operations fail. *)
Definition demo_env (fault : OpTag -> option Error) : Env :=
  mkEnv (85 * hour) (fun _ => mkInventoryValidation true []) (fun _ => price_A)
    (fun st => slots st !! 9) fault.

Definition no_fault : OpTag -> option Error := fun _ => None.

Definition db_error : Error := mkError "QueryFailedError" "the statement failed".

Definition items_fail (t : OpTag) : option Error :=
  match t with TSaveOrderItems => Some db_error | _ => None end.

Definition notification_fails (t : OpTag) : option Error :=
  match t with TSaveNotification => Some db_error | _ => None end.

(** Two units of item A, for user 7, with slot [p] preferred. *)
Definition demo_request (p : option Z) : IOrderInput :=
  mkOrderInput 7 1 [mkItemInput "A" 2] p.


(** Slot 5 is full, slot 9 has room. *)
Definition busy_store : Store :=
  mkStore {[ 7 := alice ]}
    (<[ 9 := monday_slot 9 0 3 ]> {[ 5 := sunday_slot 5 1 1 ]}) [] [] [].

Definition busy_world : World := mkWorld busy_store [] [] [].

(** A slot with identifier 0 is open, and so is slot 9. *)
Definition zero_store : Store :=
  mkStore {[ 7 := alice ]}
    (<[ 9 := monday_slot 9 0 3 ]> {[ 0 := sunday_slot 0 0 1 ]}) [] [] [].

Definition zero_world : World := mkWorld zero_store [] [] [].

(** Two requests for slot 5 in flight, and a schedule: both requests run up
    to the read of the slot row, then each one finishes. *)
Definition race_pool : list (Thread CompleteOrder) :=
  [mkThread (createOrder 0 (demo_request (Some 5))) None;
   mkThread (createOrder 0 (demo_request (Some 5))) None].

Definition race_schedule : list nat :=
  repeat 0%nat 8 ++ repeat 1%nat 8 ++ repeat 0%nat 11 ++ repeat 1%nat 11.

(** ** Vocabulary of the further properties *)

(** The operations createOrder performs before step 4, with those of its
    wrapper and of the rollback. *)
Definition early_tags : list OpTag :=
  [TInitialize; TConnect; TStartTransaction; TRelease; TRollbackTransaction;
   TValidateInventory; TFindUser; TCalculatePrice].

(** The operations of the steps up to and including the commit. *)
Definition before_commit_tags : list OpTag :=
  [TValidateInventory; TFindUser; TCalculatePrice; TSaveOrder; TSaveOrderItems;
   TInitialize; TSaveNotification; TPublish; TCommitTransaction].

(** The error of a rollback or commit on a query runner that has no open
    transaction. *)
Definition transaction_not_started : Error :=
  mkError "TransactionNotStartedError"
    "Transaction is not started yet, start transaction before committing or rolling it back.".

(** The notification types with a template. *)
Definition template_types : list string :=
  ["order_created"; "order_confirmed"; "order_shipped"; "order_delivered";
   "order_cancelled"; "order_refunded"].

(** What notifyUser leaves behind.  When it returns the notification [n]:
    the type has a template, [n] is the one new row, unread, and exactly
    one event was published, which carries the content and the id of [n].
    When it throws: nothing was published, and the table has no new row
    unless the publication itself threw after the insert. *)
Definition notify_outcome (env : Env) (orderId : Z) (type : string) (userId : Z)
    (w : World) (r : Result Notification) (w' : World) : Prop :=
  match r with
  | Ok n =>
      exists tpl content,
        lookup_template type = Some tpl /\
        n = mkNotification (fresh_id (map notif_id (notifications (store w))))
              userId orderId type (tpl_title tpl) content false /\
        notifications (store w') = notifications (store w) ++ [n] /\
        channel w' = channel w ++
          [mkPublished "user:notification" userId orderId type (tpl_title tpl)
             content (notif_id n)]
  | Err e =>
      channel w' = channel w /\
      (notifications (store w') = notifications (store w) \/
       (is_Some (env_fault env TPublish) /\
        exists n, notifications (store w') = notifications (store w) ++ [n]))
  end.

(** The rows one run of the steps of createOrder adds: at most one order,
    at most one item row per line item, at most one notification, none of
    the latter two without the order row, all of them when the steps return
    an order; and steps that committed return an order unless the re-read
    fails. *)
Definition steps_rows (env : Env) (req : IOrderInput) (w : World)
    (r : Result CompleteOrder) (w' : World) (tx' : Tx) : Prop :=
  users (store w') = users (store w) /\
  exists lo li ln,
    orders (store w') = orders (store w) ++ lo /\
    orderItems (store w') = orderItems (store w) ++ li /\
    notifications (store w') = notifications (store w) ++ ln /\
    (length lo <= 1)%nat /\ (length li <= length (items req))%nat /\
    (length ln <= 1)%nat /\
    (lo = [] -> li = [] /\ ln = []) /\
    ((exists co, r = Ok co) ->
     length lo = 1%nat /\ length li = length (items req) /\ length ln = 1%nat) /\
    (tx' = None -> env_fault env TFindOrder = None -> exists co, r = Ok co).

(** An entry of the message data that the placeholder loop substitutes. *)
Definition is_scalar (kv : string * Js.Value) : bool :=
  match Js.scalar_string (snd kv) with Some _ => true | None => false end.

(** The slot row an operation asks the store to write. *)
Definition saved_slot {R} (op : Op R) : option DeliverySlot :=
  match op with
  | ManagerSaveSlot s => Some s
  | _ => None
  end.

Definition within_capacity (s : DeliverySlot) : Prop :=
  currentUsage s <= maxCapacity s.

Definition rows_within_capacity (m : gmap Z DeliverySlot) : Prop :=
  map_Forall (fun _ s => within_capacity s) m.

Definition tx_within_capacity (tx : Tx) : Prop :=
  match tx with
  | Some pending => rows_within_capacity pending
  | None => True
  end.

(** A program that, whatever the operations answer, asks only for slot rows
    within capacity to be written, and whose results satisfy [Q]. *)
Fixpoint saves_within_capacity {A} (Q : A -> Prop) (p : Prog A) : Prop :=
  match p with
  | Ret a => Q a
  | Throw _ => True
  | Act op k =>
      (forall s, saved_slot op = Some s -> within_capacity s) /\
      forall r, saves_within_capacity Q (k r)
  end.

Definition any_result {A} : A -> Prop := fun _ => True.

Definition thread_within_capacity {A} (t : Thread A) : Prop :=
  saves_within_capacity any_result (th_prog t) /\ tx_within_capacity (th_tx t).

(** The character [c] does not occur in [s]. *)
Fixpoint lacks (c : ascii) (s : string) : Prop :=
  match s with
  | EmptyString => True
  | String c' s' => c' <> c /\ lacks c s'
  end.

(** The two characters the placeholder loop is sensitive to. *)
Definition special (c : ascii) : Prop := c = "$"%char \/ c = "{"%char.

(** ** Further scenarios *)

(** The error of a refused connection: a name and no message. *)
Definition connection_refused : Error := mkError "AggregateError" "".

Definition slot_read_fails (t : OpTag) : option Error :=
  match t with TFindSlot => Some connection_refused | _ => None end.

Definition order_insert_fails (t : OpTag) : option Error :=
  match t with TSaveOrder => Some db_error | _ => None end.

Definition reread_fails (t : OpTag) : option Error :=
  match t with TFindOrder => Some db_error | _ => None end.

(** The inventory validator rejects the items. *)
Definition out_of_stock_env : Env :=
  mkEnv (85 * hour) (fun _ => mkInventoryValidation false ["A out of stock"])
    (fun _ => price_A) (fun st => slots st !! 9) no_fault.

(** A request of user 8, whom the store does not know. *)
Definition stranger_request : IOrderInput :=
  mkOrderInput 8 1 [mkItemInput "A" 2] (Some 5).

(** A context bag whose deliverySlot is not a slot window. *)
Definition windowless_data : Js.Obj :=
  [("deliverySlot", Js.JBool true); ("slotAssignmentMethod", Js.JStr "fallback")].

(** ** Running programs *)

Section RunLemmas.
Context (env : Env).

Lemma run_bind {A B} (p : Prog A) (f : A -> Prog B) w tx :
  run env (bind p f) w tx =
  let '(r, w', tx') := run env p w tx in
  match r with
  | Ok a => run env (f a) w' tx'
  | Err e => (Err e, w', tx')
  end.
Proof.
  revert w tx. induction p as [a | e | R op k IH]; intros w tx; simpl; try reflexivity.
  destruct (exec env op w tx) as [[r w'] tx']. apply IH.
Qed.

Lemma run_try_catch {A} (p : Prog A) (h : Error -> Prog A) w tx :
  run env (try_catch p h) w tx =
  let '(r, w', tx') := run env p w tx in
  match r with
  | Ok a => (Ok a, w', tx')
  | Err e => run env (h e) w' tx'
  end.
Proof.
  revert w tx. induction p as [a | e | R op k IH]; intros w tx; simpl; try reflexivity.
  destruct (exec env op w tx) as [[r w'] tx']. apply IH.
Qed.

Lemma run_try_finally {A} (p : Prog A) (f : Prog unit) w tx :
  run env (try_finally p f) w tx =
  let '(r, w', tx') := run env p w tx in
  let '(rf, w'', tx'') := run env f w' tx' in
  match rf with
  | Ok _ => (r, w'', tx'')
  | Err e => (Err e, w'', tx'')
  end.
Proof.
  revert w tx. induction p as [a | e | R op k IH]; intros w tx; simpl.
  - rewrite run_bind. destruct (run env f w tx) as [[[]]]; reflexivity.
  - rewrite run_bind. destruct (run env f w tx) as [[[]]]; reflexivity.
  - destruct (exec env op w tx) as [[r w'] tx']. apply IH.
Qed.

Lemma run_call {R} (op : Op R) w tx :
  run env (call op) w tx = exec env op w tx.
Proof.
  simpl. destruct (exec env op w tx) as [[[v | e] w'] tx']; reflexivity.
Qed.

End RunLemmas.


Lemma slot_writes_app l1 l2 : slot_writes (l1 ++ l2) = slot_writes l1 ++ slot_writes l2.
Proof. unfold slot_writes. apply omap_app. Qed.

(** One step of symbolic execution: expose the fault oracle of the next
    operation. *)
Ltac exec_op :=
  rewrite ?run_bind, ?run_call; unfold exec, fault_of, op_tag.

(** ** The notifier changes no slot *)

Lemma run_formatDeliveryTime_payload env tz orderId data w tx :
  env_fault env TInitialize = None ->
  Js.truthy (Js.get data "deliverySlot") = true ->
  Js.truthy (Js.get data "slotAssignmentMethod") = true ->
  run env (formatDeliveryTime tz orderId data) w tx =
  (Ok (methodPhrase (Js.get data "slotAssignmentMethod")
         (timeSlotString tz (date_of_startTime (Js.get data "deliverySlot"))
            (date_of_endTime (Js.get data "deliverySlot")))), w, tx).
Proof.
  intros HI Hs Hm. unfold formatDeliveryTime.
  exec_op. rewrite HI. cbn [exec_ok]. rewrite Hs, Hm. reflexivity.
Qed.

Lemma run_formatDeliveryTime_frame env tz orderId data w tx :
  exists r, run env (formatDeliveryTime tz orderId data) w tx = (r, w, tx).
Proof.
  unfold formatDeliveryTime. exec_op.
  destruct (env_fault env TInitialize); [eexists; reflexivity|]. cbn [exec_ok].
  destruct (_ && _).
  - eexists; reflexivity.
  - exec_op. destruct (env_fault env TFindOrder); [eexists; reflexivity|]. cbn [exec_ok].
    destruct (find_order _ _) as [o|]; [|eexists; reflexivity].
    destruct (slot_of_order _ _); eexists; reflexivity.
Qed.

Lemma run_notifyUser_frame env tz orderId type uid data w tx :
  exists r w', run env (notifyUser tz orderId type uid data) w tx = (r, w', tx) /\
    same_tables_but_notifications (store w) (store w') /\
    slot_writes (writes w') = slot_writes (writes w).
Proof.
  unfold notifyUser. exec_op.
  destruct (env_fault env TInitialize).
  { do 2 eexists. split; [reflexivity|]. repeat split. }
  cbn [exec_ok]. rewrite run_try_catch.
  destruct (lookup_template type) as [tpl|].
  2:{ cbn [run]. exec_op. cbn [exec_ok]. do 2 eexists. split; [reflexivity|]. repeat split. }
  rewrite run_bind.
  destruct (run_formatDeliveryTime_frame env tz orderId data w tx) as [r ->].
  destruct r as [info|e].
  2:{ exec_op. cbn [exec_ok]. do 2 eexists. split; [reflexivity|]. repeat split. }
  exec_op. destruct (env_fault env TSaveNotification).
  { exec_op. cbn [exec_ok]. do 2 eexists. split; [reflexivity|]. repeat split. }
  cbn [exec_ok]. exec_op. destruct (env_fault env TPublish).
  { exec_op. cbn [exec_ok]. do 2 eexists. split; [reflexivity|]. repeat split.
    cbn. rewrite slot_writes_app. cbn. apply app_nil_r. }
  cbn [exec_ok]. do 2 eexists. split; [reflexivity|]. repeat split.
  cbn. rewrite slot_writes_app. cbn. apply app_nil_r.
Qed.


Lemma is_err_Err {A} (e : Error) : is_err (@Err A e).
Proof. eexists; reflexivity. Qed.
#[local] Hint Resolve is_err_Err : core.

(** validateSlotAvailability: it changes nothing, and what it returns. *)
Lemma run_validateSlotAvailability env slotId w tx :
  exists r, run env (validateSlotAvailability slotId) w tx = (r, w, tx) /\
    (env_fault env TInitialize = None -> env_fault env TFindSlot = None ->
     exists v, r = Ok v) /\
    (forall v, r = Ok v ->
       env_fault env TInitialize = None /\ env_fault env TFindSlot = None /\
       match slots (store w) !! slotId with
       | Some s => slot v = Some s /\ isAvailable v = slot_open (env_now env) s
       | None => slot v = None /\ isAvailable v = false
       end).
Proof.
  unfold validateSlotAvailability. exec_op.
  destruct (env_fault env TInitialize) eqn:HI.
  { eexists. split; [reflexivity|]. split; [discriminate|]. discriminate. }
  cbn [exec_ok]. rewrite run_try_catch. exec_op.
  destruct (env_fault env TFindSlot) eqn:HF.
  { eexists. split; [reflexivity|]. split; [discriminate|]. discriminate. }
  cbn [exec_ok]. unfold slot_open.
  destruct (slots (store w) !! slotId) as [s|] eqn:Hs.
  2:{ eexists. split; [reflexivity|]. split; [eauto|]. intros v [= <-]. auto. }
  destruct (isActive s) eqn:Ha; cbn [negb andb].
  2:{ eexists. split; [reflexivity|]. split; [eauto|]. intros v [= <-]. auto. }
  rewrite Z.geb_leb.
  destruct (maxCapacity s <=? currentUsage s) eqn:Hc.
  { eexists. split; [reflexivity|]. split; [eauto|]. intros v [= <-]. cbn.
    apply Z.leb_le in Hc. replace (currentUsage s <? maxCapacity s) with false; auto.
    symmetry. apply Z.ltb_ge. lia. }
  exec_op. cbn [exec_ok].
  apply Z.leb_gt in Hc. apply Z.ltb_lt in Hc. rewrite Hc. cbn [andb].
  destruct (startTime s <=? env_now env) eqn:Hp.
  { eexists. split; [reflexivity|]. split; [eauto|]. intros v [= <-]. cbn.
    apply Z.leb_le in Hp. replace (env_now env <? startTime s) with false; auto.
    symmetry. apply Z.ltb_ge. lia. }
  eexists. split; [reflexivity|]. split; [eauto|]. intros v [= <-]. cbn.
  apply Z.leb_gt in Hp. apply Z.ltb_lt in Hp. auto.
Qed.

Lemma selects_inv env req w s id :
  preferredSlotId req = Some id -> selects env req w s ->
  id <> 0 /\ env_fault env TInitialize = None /\ env_fault env TFindSlot = None /\
  slots (store w) !! id = Some s /\ slot_open (env_now env) s = true.
Proof. intros Hp (id' & Hp' & H). rewrite Hp in Hp'. injection Hp' as <-. exact H. Qed.

Lemma selects_none env req w s :
  preferredSlotId req = None -> ~ selects env req w s.
Proof. intros Hp (id' & Hp' & _). congruence. Qed.

(** The default branch of step 4, under either method tag. *)
Lemma run_default_branch env (m : SlotAssignmentMethod) w tx :
  m <> user_selected ->
  exists r, run env (deliverySlot <- call AssignDefaultSlot ;; Ret (deliverySlot, m)) w tx
            = (r, w, tx) /\
    (forall d, r <> Ok (d, user_selected)).
Proof.
  intros Hm. exec_op. destruct (env_fault env TAssignDefaultSlot); cbn [exec_ok].
  - eexists. split; [reflexivity|]. discriminate.
  - eexists. split; [reflexivity|]. intros d [= _ ->]. contradiction.
Qed.

Lemma run_assignDeliverySlot env req w pending :
  exists r w' tx',
    run env (assignDeliverySlot req) w (Some pending) = (r, w', tx') /\
    assign_outcome env req w pending r w' tx'.
Proof.
  unfold assign_outcome, assignDeliverySlot.
  destruct (preferredSlotId req) as [sid|] eqn:Hpref; cbn [truthy_id from_option id].
  2:{ destruct (run_default_branch env auto_assigned w (Some pending)) as (r & -> & Hr);
        [discriminate|].
      do 3 eexists. split; [reflexivity|]. repeat split. left. repeat split; auto.
      intros s Hs. exfalso. eapply selects_none; eauto. }
  destruct (sid =? 0) eqn:Hz; cbn [negb].
  { apply Z.eqb_eq in Hz.
    destruct (run_default_branch env auto_assigned w (Some pending)) as (r & -> & Hr);
        [discriminate|].
    do 3 eexists. split; [reflexivity|]. repeat split. left. repeat split; auto.
    intros s Hs. eapply selects_inv in Hs; eauto. tauto. }
  apply Z.eqb_neq in Hz. rewrite run_bind.
  destruct (run_validateSlotAvailability env sid w (Some pending)) as (rv & -> & Htot & Hv).
  destruct rv as [v|e].
  2:{ do 3 eexists. split; [reflexivity|]. repeat split. left. repeat split; try discriminate.
      auto. }
  destruct (Hv v eq_refl) as (HI & HF & Hcase).
  assert (Hno : (forall s, ~ selects env req w s) ->
    exists r w' tx',
    run env
     (call (ConsoleWarn ("User selected unavailable slot: " +:+ default "undefined" (message v))) ;;;
      deliverySlot <- call AssignDefaultSlot ;; Ret (deliverySlot, fallback)) w (Some pending)
      = (r, w', tx') /\
    assign_outcome env req w pending r w' tx').
  { intros Hn. unfold assign_outcome.
    rewrite run_bind, run_call. unfold exec, fault_of, op_tag. cbn [exec_ok].
    match goal with |- context [run env ?p ?w1 ?t] =>
      destruct (run_default_branch env fallback w1 t) as (r & -> & Hr) end; [discriminate|].
    do 3 eexists. split; [reflexivity|]. repeat split. left. repeat split; auto.
    intros s Hs. exfalso. eapply Hn; eauto. }
  destruct (slots (store w) !! sid) as [s|] eqn:Hs.
  - destruct Hcase as [Hslot Hav]. rewrite Hslot, Hav.
    destruct (slot_open (env_now env) s) eqn:Hopen.
    + exec_op. destruct (env_fault env TManagerSaveSlot) eqn:HM.
      * do 3 eexists. split; [reflexivity|]. repeat split. left. repeat split; try discriminate.
        auto.
      * cbn [exec_ok]. do 3 eexists. split; [reflexivity|]. repeat split. right.
        exists s. repeat split; auto. exists sid. repeat split; auto.
    + apply Hno. intros s' Hsel. eapply selects_inv in Hsel; eauto.
      destruct Hsel as (_ & _ & _ & Hs' & Ho). congruence.
  - destruct Hcase as [Hslot Hav]. rewrite Hslot, Hav.
    apply Hno. intros s' Hsel. eapply selects_inv in Hsel; eauto.
    destruct Hsel as (_ & _ & _ & Hs' & Ho). congruence.
Qed.


Lemma run_createOrderSteps_frame env tz req w :
  exists r w' tx',
    run env (createOrderSteps tz req) w (Some ∅) = (r, w', tx') /\
    steps_outcome env req w r w' tx'.
Proof.
  unfold steps_outcome, createOrderSteps. exec_op.
  destruct (env_fault env TValidateInventory).
  { do 3 eexists. split; [reflexivity|]. left. auto. }
  cbn [exec_ok]. destruct (valid _); cbn [negb].
  2:{ do 3 eexists. split; [reflexivity|]. left. auto. }
  exec_op. destruct (env_fault env TFindUser).
  { do 3 eexists. split; [reflexivity|]. left. auto. }
  cbn [exec_ok]. destruct (users (store w) !! userId req) as [user|].
  2:{ do 3 eexists. split; [reflexivity|]. left. auto. }
  exec_op. destruct (env_fault env TCalculatePrice).
  { do 3 eexists. split; [reflexivity|]. left. auto. }
  cbn [exec_ok]. rewrite run_bind.
  destruct (run_assignDeliverySlot env req w ∅) as (ra & wa & txa & Hra & Hst & _ & Htx).
  assert (exists p, txa = Some p) as [p ->].
  { destruct Htx as [(-> & _)|(s & _ & _ & _ & -> & _)]; eauto. }
  rewrite Hra.
  destruct ra as [[od m]|e].
  2:{ do 3 eexists. split; [reflexivity|]. right. exists (Err e), wa, p.
      repeat split; auto. left. rewrite Hst. auto. }
  cbn [fst snd]. destruct od as [d|].
  2:{ do 3 eexists. split; [reflexivity|]. right. do 3 eexists.
      repeat split; eauto. left. rewrite Hst. auto. }
  exec_op. destruct (env_fault env TSaveOrder).
  { do 3 eexists. split; [reflexivity|]. right. do 3 eexists.
    repeat split; eauto. left. rewrite Hst. auto. }
  cbn [exec_ok]. exec_op. destruct (env_fault env TSaveOrderItems).
  { do 3 eexists. split; [reflexivity|]. right. do 3 eexists.
    split; [reflexivity|]. split.
    - cbn. rewrite slot_writes_app. cbn. apply app_nil_r.
    - left. cbn. rewrite Hst. auto. }
  cbn [exec_ok]. rewrite run_bind.
  match goal with |- context [run env (notifyUser ?a ?b ?c ?d0 ?e) ?w1 ?t] =>
    destruct (run_notifyUser_frame env a b c d0 e w1 t) as (rn & wn & -> & Hfr & Hsw) end.
  destruct Hfr as (Hu & Hsl & Ho & Hi). cbn in Hsl, Hsw.
  rewrite !slot_writes_app in Hsw. cbn in Hsw. rewrite !app_nil_r in Hsw.
  destruct rn as [n|e].
  2:{ do 3 eexists. split; [reflexivity|]. right. do 3 eexists.
      split; [reflexivity|]. split; [exact Hsw|]. left. rewrite Hsl, Hst. auto. }
  exec_op. destruct (env_fault env TCommitTransaction).
  { do 3 eexists. split; [reflexivity|]. right. do 3 eexists.
    split; [reflexivity|]. split; [exact Hsw|]. left. rewrite Hsl, Hst. auto. }
  cbn [exec_ok]. exec_op.
  assert (Hfin : forall r0 : Result CompleteOrder,
    exists r w' tx',
      (r0, set_store wn (set_slots (store wn) (p ∪ slots (store wn))),
       @None (gmap Z DeliverySlot)) = (r, w', tx') /\
      ( (is_err r /\ w' = w /\ tx' = Some ∅)
      \/ (exists ra wa0 p0,
            (@Ok (option DeliverySlot * SlotAssignmentMethod) (Some d, m), wa, Some p)
            = (ra, wa0, Some p0) /\
            slot_writes (writes w') = slot_writes (writes wa0) /\
            ( (is_err r /\ tx' = Some p0 /\ slots (store w') = slots (store w))
            \/ (tx' = None /\ slots (store w') = p0 ∪ slots (store w) /\
                exists d m, ra = Ok (Some d, m)) )) )).
  { intros r0. do 3 eexists. split; [reflexivity|]. right. do 3 eexists.
    split; [reflexivity|]. split; [exact Hsw|]. right. cbn. rewrite Hsl, Hst. eauto. }
  destruct (env_fault env TFindOrder); [apply Hfin|].
  cbn [exec_ok]. destruct (find_order _ _); apply Hfin.
Qed.


(** The wrapper of createOrder: the transaction is opened, the steps run,
    and rollback and release leave the world as the steps left it. *)
Lemma run_createOrder_wrap env tz req w :
  exists r w', run_createOrder env tz req w = (r, w') /\
    ( (is_err r /\ w' = w)
    \/ (exists r1 tx1,
          run env (createOrderSteps tz req) w (Some ∅) = (r1, w', tx1) /\
          (is_err r \/ (r = r1 /\ env_fault env TRelease = None)) /\
          env_fault env TInitialize = None /\ env_fault env TConnect = None /\
          env_fault env TStartTransaction = None) ).
Proof.
  unfold run_createOrder, createOrder. exec_op.
  destruct (env_fault env TInitialize) eqn:HI.
  { do 2 eexists. split; [reflexivity|]. left. auto. }
  cbn [exec_ok]. rewrite run_try_catch. exec_op.
  destruct (env_fault env TConnect) eqn:HC.
  { do 2 eexists. split; [reflexivity|]. left. auto. }
  cbn [exec_ok]. exec_op.
  destruct (env_fault env TStartTransaction) eqn:HS.
  { do 2 eexists. split; [reflexivity|]. left. auto. }
  cbn [exec_ok]. rewrite run_try_finally, run_try_catch.
  destruct (run env (createOrderSteps tz req) w (Some ∅)) as [[r1 w1] tx1] eqn:Hsteps.
  assert (Hrel : forall (r0 : Result CompleteOrder) t,
            exists r, (let '(rf, w'', tx'') := run env (call Release) w1 t in
                       match rf with Ok _ => (r0, w'', tx'') | Err e => (Err e, w'', tx'') end)
                      = (r, w1, t) /\ (is_err r \/ (r = r0 /\ env_fault env TRelease = None))).
  { intros r0 t. rewrite run_call. unfold exec, fault_of, op_tag.
    destruct (env_fault env TRelease); cbn [exec_ok]; eexists; (split; [reflexivity|]); auto. }
  destruct r1 as [co|e].
  - destruct (Hrel (Ok co) tx1) as (r & -> & Hr).
    destruct r; cbn [run fst]; do 2 eexists; (split; [reflexivity|]); right;
      do 2 eexists; (split; [reflexivity|]); auto.
  - assert (Hrb : exists e' t, run env (call RollbackTransaction ;;; @Throw CompleteOrder e) w1 tx1
                               = (Err e', w1, t)).
    { exec_op. destruct (env_fault env TRollbackTransaction); [eauto|].
      destruct tx1; cbn [exec_ok run]; eauto. }
    destruct Hrb as (e' & t & ->).
    destruct (Hrel (Err e') t) as (r & -> & Hr).
    assert (is_err r) as [e'' ->] by (destruct Hr as [|[-> _]]; auto).
    cbn [run fst]. do 2 eexists. split; [reflexivity|]. right.
    do 2 eexists. split; [reflexivity|]. auto.
Qed.


(** What a call of createOrder does to the slot table, on every path. *)
Lemma run_createOrder_slots env tz req w :
  exists r w' ra wa txa,
    run_createOrder env tz req w = (r, w') /\
    run env (assignDeliverySlot req) w (Some ∅) = (ra, wa, txa) /\
    ( (slot_writes (writes w') = slot_writes (writes w) /\
       slots (store w') = slots (store w) /\
       (is_err r \/ forall d, ra <> Ok (d, user_selected)))
    \/ (exists s, selects env req w s /\
          ra = Ok (Some (incrementUsage s), user_selected) /\
          slot_writes (writes w') = slot_writes (writes w) ++ [incrementUsage s] /\
          ( (is_err r /\ slots (store w') = slots (store w))
          \/ slots (store w') = <[slot_id s := incrementUsage s]> (slots (store w)) )) ).
Proof.
  destruct (run_createOrder_wrap env tz req w) as (r & w' & Hrun & Hwrap).
  destruct (run_assignDeliverySlot env req w ∅) as (ra & wa & txa & Hra & Hst & _ & Hcases).
  exists r, w', ra, wa, txa. split; [exact Hrun|]. split; [exact Hra|].
  destruct Hwrap as [(He & ->)|(r1 & tx1 & Hsteps & Hr & _)].
  { left. auto. }
  destruct (run_createOrderSteps_frame env tz req w) as (r1' & w1' & tx1' & Hsteps' & Hfr).
  rewrite Hsteps in Hsteps'. injection Hsteps' as <- <- <-.
  destruct Hfr as [(He & -> & _)|(ra' & wa' & p & Hra' & Hsw & Hfin)].
  { left. repeat split. left. destruct Hr as [|[-> _]]; auto. }
  rewrite Hra in Hra'. injection Hra' as <- <- ->.
  destruct Hcases as [([= ->] & Hsw' & Hnot & _)|(s & Hsel & _ & -> & [= ->] & Hw)].
  - left. rewrite Hsw, Hsw'. split; [reflexivity|].
    destruct Hfin as [(_ & _ & ->)|(_ & -> & _)].
    + auto.
    + split; [apply (left_id_L ∅ (∪))|auto].
  - right. exists s. split; [exact Hsel|]. split; [reflexivity|].
    rewrite Hsw, Hw, slot_writes_app. split; [reflexivity|].
    destruct Hfin as [(He & _ & ->)|(_ & -> & _)].
    + left. split; [|reflexivity]. destruct Hr as [|[-> _]]; auto.
    + right. rewrite <- insert_union_l. f_equal. apply (left_id_L ∅ (∪)).
Qed.

(** C10.  When step 4 does not end in the user-selected branch (the slot,
    if any, comes from the Default Slot Assigner, with method auto_assigned
    or fallback), a call of createOrder asks for no slot row to be written
    and leaves the slot table as it was.  On every path the call issues at
    most one slot write, the incremented row of the preferred slot on the
    user-selected branch. *)
Theorem createOrder_writes_slot_only_when_user_selected env tz req w ra wa txa :
  run env (assignDeliverySlot req) w (Some ∅) = (ra, wa, txa) ->
  let w' := snd (run_createOrder env tz req w) in
  ((forall d, ra <> Ok (d, user_selected)) ->
   slot_writes (writes w') = slot_writes (writes w) /\
   slots (store w') = slots (store w)) /\
  (slot_writes (writes w') = slot_writes (writes w)
   \/ exists s, ra = Ok (Some (incrementUsage s), user_selected) /\
        slots (store w) !! default 0 (preferredSlotId req) = Some s /\
        slot_writes (writes w') = slot_writes (writes w) ++ [incrementUsage s]).
Proof.
  intros Hra.
  destruct (run_createOrder_slots env tz req w)
    as (r & w1 & ra' & wa' & txa' & Hrun & Hra' & Hcases).
  rewrite Hra in Hra'. injection Hra' as <- <- <-.
  rewrite Hrun. cbn [snd].
  destruct Hcases as [(Hsw & Hsl & _)|(s & Hsel & -> & Hsw & Hsl)].
  - split; [auto|]. left. exact Hsw.
  - split.
    + intros Hno. exfalso. eapply Hno. reflexivity.
    + right. exists s. split; [reflexivity|]. split; [|exact Hsw].
      destruct Hsel as (id & -> & _ & _ & _ & Hs & _). exact Hs.
Qed.

(** C6.  A slot row with 0 <= currentUsage <= maxCapacity before a call of
    createOrder satisfies the same bounds after the call, whether the call
    returns an order or an error; and when the call succeeds on the
    user-selected branch, the row of the reserved slot has its currentUsage
    increased by exactly 1, not above maxCapacity. *)
Theorem createOrder_capacity_invariant env tz req w id s :
  (forall k x, slots (store w) !! k = Some x -> slot_id x = k) ->
  slots (store w) !! id = Some s ->
  0 <= currentUsage s <= maxCapacity s ->
  let r := fst (run_createOrder env tz req w) in
  let w' := snd (run_createOrder env tz req w) in
  (exists s', slots (store w') !! id = Some s' /\
     0 <= currentUsage s' <= maxCapacity s' /\ maxCapacity s' = maxCapacity s) /\
  (forall co d wa txa,
     r = Ok co ->
     run env (assignDeliverySlot req) w (Some ∅) = (Ok (Some d, user_selected), wa, txa) ->
     slot_id d = id ->
     slots (store w') !! id = Some d /\
     currentUsage d = currentUsage s + 1 /\
     currentUsage d <= maxCapacity d).
Proof.
  intros Hkey Hs Hinv.
  destruct (run_createOrder_slots env tz req w)
    as (r & w1 & ra & wa & txa & Hrun & Hra & Hcases).
  rewrite Hrun. cbn [fst snd].
  assert (Hopen : forall s0, selects env req w s0 ->
            slots (store w) !! slot_id s0 = Some s0 /\ currentUsage s0 < maxCapacity s0).
  { intros s0 (k & _ & _ & _ & _ & Hk & Ho). rewrite (Hkey _ _ Hk). split; [exact Hk|].
    unfold slot_open in Ho. apply andb_prop in Ho as [Ho _]. apply andb_prop in Ho as [_ Ho].
    apply Z.ltb_lt in Ho. exact Ho. }
  split.
  - destruct Hcases as [(_ & -> & _)|(s0 & Hsel & _ & _ & [(_ & ->)| ->])].
    + exists s. auto.
    + exists s. auto.
    + destruct (Hopen _ Hsel) as [Hk Hlt].
      destruct (decide (slot_id s0 = id)) as [Heq|Hne].
      * rewrite Heq in *. rewrite Hs in Hk. injection Hk as <-.
        exists (incrementUsage s). rewrite lookup_insert_eq. cbn. split; [reflexivity|]. lia.
      * exists s. rewrite lookup_insert_ne by exact Hne. auto.
  - intros co d wa' txa' -> Hra' Hid.
    rewrite Hra in Hra'. injection Hra' as -> <- <-.
    destruct Hcases as [(_ & _ & [[e [=]]|Hno])|(s0 & Hsel & [= ->] & _ & Hsl)].
    { exfalso. eapply Hno. reflexivity. }
    destruct (Hopen _ Hsel) as [Hk Hlt]. cbn in Hid. rewrite Hid in *.
    rewrite Hs in Hk. injection Hk as <-.
    destruct Hsl as [([e [=]] & _)| ->].
    rewrite lookup_insert_eq. cbn. split; [reflexivity|]. lia.
Qed.


Lemma faultless_In env l t : faultless env l -> In t l -> env_fault env t = None.
Proof. intros H. apply H. Qed.

Lemma fresh_id_gt ids x : In x ids -> x < fresh_id ids.
Proof.
  unfold fresh_id. induction ids as [|y ids IH]; cbn; [tauto|].
  intros [->|Hin]; [lia|]. specialize (IH Hin). lia.
Qed.

Lemma find_fresh_order l o :
  order_id o = fresh_id (map order_id l) ->
  List.find (fun x => order_id x =? order_id o) (l ++ [o]) = Some o.
Proof.
  intros Hid.
  assert (Hl : forall x, In x l -> (order_id x =? order_id o) = false).
  { intros x Hx. apply Z.eqb_neq. rewrite Hid.
    pose proof (fresh_id_gt (map order_id l) (order_id x) (in_map _ _ _ Hx)). lia. }
  clear Hid. induction l as [|y l IH]; cbn.
  - rewrite Z.eqb_refl. reflexivity.
  - rewrite (Hl y) by (left; reflexivity). apply IH. intros x Hx. apply Hl. right. exact Hx.
Qed.

Lemma order_payload_truthy m d :
  Js.truthy (Js.get (order_payload m d) "deliverySlot") = true /\
  Js.truthy (Js.get (order_payload m d) "slotAssignmentMethod") = true.
Proof. split; [reflexivity|]. destruct m; reflexivity. Qed.

(** notifyUser on a payload that names the method and the slot window. *)
Lemma run_notifyUser_payload env tz oid type uid data tpl w tx :
  lookup_template type = Some tpl ->
  Js.truthy (Js.get data "deliverySlot") = true ->
  Js.truthy (Js.get data "slotAssignmentMethod") = true ->
  let info :=
    methodPhrase (Js.get data "slotAssignmentMethod")
      (timeSlotString tz (date_of_startTime (Js.get data "deliverySlot"))
         (date_of_endTime (Js.get data "deliverySlot"))) in
  let content :=
    interpolate (tpl_template tpl)
      (Js.spread [("orderId", Js.JNum oid); ("deliveryInfo", Js.JStr info)] data) in
  let n :=
    with_notif_id (fresh_id (map notif_id (notifications (store w))))
      (mkNotification 0 uid oid type (tpl_title tpl) content false) in
  exists r w', run env (notifyUser tz oid type uid data) w tx = (r, w', tx) /\
    (faultless env notify_tags -> r = Ok n) /\
    (forall n', r = Ok n' ->
       faultless env notify_tags /\ n' = n /\
       store w' = add_notification (store w) n /\
       channel w' = channel w ++
         [mkPublished "user:notification" uid oid type (tpl_title tpl) content (notif_id n)]).
Proof.
  intros Htpl Hs Hm info content n. unfold notifyUser. exec_op.
  destruct (env_fault env TInitialize) eqn:HI.
  { do 2 eexists. split; [reflexivity|]. split; [|discriminate].
    intros Hf. rewrite (Hf TInitialize) in HI by (cbn; tauto). discriminate. }
  cbn [exec_ok]. rewrite run_try_catch, Htpl, run_bind.
  rewrite run_formatDeliveryTime_payload by assumption.
  fold info. fold content. exec_op.
  destruct (env_fault env TSaveNotification) eqn:HS.
  { exec_op. cbn [exec_ok]. do 2 eexists. split; [reflexivity|]. split; [|discriminate].
    intros Hf. rewrite (Hf TSaveNotification) in HS by (cbn; tauto). discriminate. }
  cbn [exec_ok]. fold n. exec_op.
  destruct (env_fault env TPublish) eqn:HP.
  { exec_op. cbn [exec_ok]. do 2 eexists. split; [reflexivity|]. split; [|discriminate].
    intros Hf. rewrite (Hf TPublish) in HP by (cbn; tauto). discriminate. }
  cbn [exec_ok]. do 2 eexists. split; [reflexivity|]. split; [reflexivity|].
  intros n' [= <-]. split.
  { intros t [<-|[<-|[<-|[]]]]; assumption. }
  repeat split.
Qed.


Ltac dead_branch H t :=
  do 3 eexists; split; [reflexivity|]; split;
  [ intros _ _ d0 m0 wa0 p0 _ Hf; rewrite (Hf t) in H by (cbn; tauto); discriminate
  | discriminate ].

Lemma run_createOrderSteps_ok env tz req w :
  exists r w' tx',
    run env (createOrderSteps tz req) w (Some ∅) = (r, w', tx') /\
    (valid (env_validateInventory env (items req)) = true ->
     is_Some (users (store w) !! userId req) ->
     forall d m wa p,
       run env (assignDeliverySlot req) w (Some ∅) = (Ok (Some d, m), wa, Some p) ->
       faultless env steps_tags ->
       exists co, r = Ok co) /\
    (forall co, r = Ok co ->
       valid (env_validateInventory env (items req)) = true /\
       is_Some (users (store w) !! userId req) /\
       faultless env steps_tags /\
       exists d m wa p,
         run env (assignDeliverySlot req) w (Some ∅) = (Ok (Some d, m), wa, Some p) /\
         users (store w') = users (store w) /\
         slots (store w') = p ∪ slots (store w) /\
         orders (store w') = orders (store w) ++ [order_row env req w d] /\
         orderItems (store w') = orderItems (store w) ++ item_rows env req w /\
         co = complete_order (store w') (order_row env req w d)).
Proof.
  unfold createOrderSteps. exec_op.
  destruct (env_fault env TValidateInventory) eqn:H1; [dead_branch H1 TValidateInventory|].
  cbn [exec_ok]. destruct (valid _) eqn:Hvalid; cbn [negb].
  2:{ do 3 eexists. split; [reflexivity|]. split; [discriminate|discriminate]. }
  exec_op. destruct (env_fault env TFindUser) eqn:H2; [dead_branch H2 TFindUser|].
  cbn [exec_ok]. destruct (users (store w) !! userId req) as [user|] eqn:Huser.
  2:{ do 3 eexists. split; [reflexivity|]. split; [|discriminate].
      intros _ [? [=]]. }
  exec_op. destruct (env_fault env TCalculatePrice) eqn:H3; [dead_branch H3 TCalculatePrice|].
  cbn [exec_ok]. rewrite run_bind.
  destruct (run_assignDeliverySlot env req w ∅) as (ra & wa & txa & Hra & Hst & _ & Htx).
  assert (exists p, txa = Some p) as [p ->].
  { destruct Htx as [(-> & _)|(s & _ & _ & _ & -> & _)]; eauto. }
  clear Htx. rewrite Hra.
  destruct ra as [[od m]|e].
  2:{ do 3 eexists. split; [reflexivity|]. split; [|discriminate]. intros _ _ ? ? ? ? [=]. }
  cbn [fst snd]. destruct od as [d|].
  2:{ do 3 eexists. split; [reflexivity|]. split; [|discriminate]. intros _ _ ? ? ? ? [=]. }
  exec_op. destruct (env_fault env TSaveOrder) eqn:H4; [dead_branch H4 TSaveOrder|].
  cbn [exec_ok]. exec_op.
  destruct (env_fault env TSaveOrderItems) eqn:H5; [dead_branch H5 TSaveOrderItems|].
  cbn [exec_ok]. rewrite run_bind.
  match goal with |- context [run env (notifyUser ?a ?b ?c ?d0 ?e) ?w1 ?t] =>
    destruct (run_notifyUser_payload env a b c d0 e
                (mkTemplate "Order Confirmation"
                   "Your order #{orderId} has been received and is being processed. {deliveryInfo}")
                w1 t eq_refl
                (proj1 (order_payload_truthy m d)) (proj2 (order_payload_truthy m d)))
      as (rn & wn & -> & Htot & Hinv) end.
  destruct rn as [n|e].
  2:{ do 3 eexists. split; [reflexivity|]. split; [|discriminate].
      intros _ _ d0 m0 wa0 p0 _ Hf. exfalso.
      assert (Hn : faultless env notify_tags).
      { intros t Ht. apply Hf. cbn in Ht |- *. tauto. }
      specialize (Htot Hn). discriminate. }
  destruct (Hinv n eq_refl) as (Hnf & _ & Hstore & _). clear Htot Hinv.
  exec_op. destruct (env_fault env TCommitTransaction) eqn:H6; [dead_branch H6 TCommitTransaction|].
  cbn [exec_ok]. exec_op.
  destruct (env_fault env TFindOrder) eqn:H7; [dead_branch H7 TFindOrder|].
  cbn [exec_ok].
  assert (Hfind : find_order (store (set_store wn (set_slots (store wn) (p ∪ slots (store wn)))))
                    (fresh_id (map order_id (orders (store wa))))
                  = Some (order_row env req w d)).
  { unfold find_order. cbn. rewrite Hstore. cbn. rewrite Hst.
    apply (find_fresh_order (orders (store w)) (order_row env req w d)). reflexivity. }
  cbn [order_id with_order_id]. rewrite Hfind.
  do 3 eexists. split; [reflexivity|]. split; [eauto|].
  intros co [= <-]. split; [reflexivity|]. split; [eauto|]. split.
  { intros t [<-|[<-|[<-|[<-|[<-|Ht]]]]]; try assumption.
    destruct Ht as [<-|[<-|[<-|[<-|[<-|[]]]]]]; try assumption; apply Hnf; cbn; tauto. }
  exists d, m, wa, p. split; [reflexivity|].
  cbn. rewrite Hstore. cbn. rewrite Hst.
  repeat split.
Qed.


Lemma run_createOrder_of_steps env tz req w r1 w1 tx1 :
  faultless env wrapper_tags ->
  run env (createOrderSteps tz req) w (Some ∅) = (r1, w1, tx1) ->
  match r1 with
  | Ok co => run_createOrder env tz req w = (Ok co, w1)
  | Err e =>
      env_fault env TRollbackTransaction = None -> tx1 <> None ->
      run_createOrder env tz req w = (Err e, w1)
  end.
Proof.
  intros Hf Hsteps. unfold run_createOrder, createOrder. exec_op.
  rewrite (Hf TInitialize) by (cbn; tauto). cbn [exec_ok].
  rewrite run_try_catch. exec_op.
  rewrite (Hf TConnect) by (cbn; tauto). cbn [exec_ok]. exec_op.
  rewrite (Hf TStartTransaction) by (cbn; tauto). cbn [exec_ok].
  rewrite run_try_finally, run_try_catch, Hsteps.
  destruct r1 as [co|e].
  - rewrite run_call. unfold exec, fault_of, op_tag.
    rewrite (Hf TRelease) by (cbn; tauto). reflexivity.
  - intros Hrb Htx. destruct tx1 as [p|]; [|contradiction].
    exec_op. rewrite Hrb. cbn [exec_ok run].
    rewrite run_call. unfold exec, fault_of, op_tag.
    rewrite (Hf TRelease) by (cbn; tauto). reflexivity.
Qed.

Lemma run_createOrder_Ok_inv env tz req w co w' :
  run_createOrder env tz req w = (Ok co, w') ->
  faultless env wrapper_tags /\
  exists tx1, run env (createOrderSteps tz req) w (Some ∅) = (Ok co, w', tx1).
Proof.
  intros Hrun.
  destruct (run_createOrder_wrap env tz req w) as (r & w1 & Hrun' & Hwrap).
  rewrite Hrun in Hrun'. injection Hrun' as <- <-.
  destruct Hwrap as [([e [=]] & _)|(r1 & tx1 & Hsteps & Hr & HI & HC & HS)].
  destruct Hr as [[e [=]]|[<- HR]].
  split; [|eauto].
  intros t [<-|[<-|[<-|[<-|[]]]]]; assumption.
Qed.

Lemma reports_inv env w slotId v :
  reports env w slotId = Ok v ->
  env_fault env TInitialize = None /\ env_fault env TFindSlot = None /\
  match slots (store w) !! slotId with
  | Some s => slot v = Some s /\ isAvailable v = slot_open (env_now env) s
  | None => slot v = None /\ isAvailable v = false
  end.
Proof.
  unfold reports.
  destruct (run_validateSlotAvailability env slotId w None) as (r & -> & _ & Hinv).
  cbn [fst]. intros ->. apply Hinv. reflexivity.
Qed.

(** The checker's answer does not depend on the transaction at hand. *)
Lemma run_validate_reports env slotId w tx :
  run env (validateSlotAvailability slotId) w tx = (reports env w slotId, w, tx).
Proof.
  unfold reports, validateSlotAvailability.
  rewrite !run_bind, !run_call. unfold exec, fault_of, op_tag.
  destruct (env_fault env TInitialize); [reflexivity|]. cbn [exec_ok].
  rewrite !run_try_catch, !run_bind, !run_call. unfold exec, fault_of, op_tag.
  destruct (env_fault env TFindSlot); [reflexivity|]. cbn [exec_ok].
  destruct (slots (store w) !! slotId) as [s|]; [|reflexivity].
  destruct (negb (isActive s)); [reflexivity|].
  destruct (currentUsage s >=? maxCapacity s); [reflexivity|].
  rewrite !run_bind, !run_call. unfold exec, fault_of, op_tag. cbn [exec_ok].
  destruct (startTime s <=? env_now env); reflexivity.
Qed.

Lemma reports_run env w slotId v tx :
  reports env w slotId = Ok v ->
  run env (validateSlotAvailability slotId) w tx = (Ok v, w, tx).
Proof. intros Hrep. rewrite run_validate_reports, Hrep. reflexivity. Qed.


Lemma selects_of_reports env req w id v :
  preferredSlotId req = Some id -> id <> 0 ->
  reports env w id = Ok v -> isAvailable v = true ->
  exists s, selects env req w s /\ slots (store w) !! id = Some s.
Proof.
  intros Hp Hz Hrep Hav. destruct (reports_inv _ _ _ _ Hrep) as (HI & HF & Hcase).
  destruct (slots (store w) !! id) as [s|] eqn:Hs.
  - destruct Hcase as [_ Ho]. exists s. split; [|reflexivity].
    exists id. repeat split; auto. congruence.
  - destruct Hcase as [_ Ho]. congruence.
Qed.

(** C3, amended.  When the request carries a preferred slot identifier
    other than 0 that the Availability Checker reports available, and the
    store accepts the write, step 4 ends with method user_selected and the
    slot row with currentUsage increased by exactly 1, written inside the
    open transaction (the committed table is untouched until commit); when
    the rest of the creation goes through, the order references that slot
    and the committed row carries the increment. *)
Theorem createOrder_user_selected_reservation env tz req w id v :
  preferredSlotId req = Some id ->
  id <> 0 ->
  reports env w id = Ok v ->
  isAvailable v = true ->
  env_fault env TManagerSaveSlot = None ->
  exists s,
    slots (store w) !! id = Some s /\
    currentUsage (incrementUsage s) = currentUsage s + 1 /\
    (exists wa,
       run env (assignDeliverySlot req) w (Some ∅)
       = (Ok (Some (incrementUsage s), user_selected), wa,
          Some {[slot_id s := incrementUsage s]}) /\
       store wa = store w /\
       writes wa = writes w ++ [WSlot true (incrementUsage s)]) /\
    (valid (env_validateInventory env (items req)) = true ->
     is_Some (users (store w) !! userId req) ->
     faultless env (wrapper_tags ++ steps_tags) ->
     exists co w',
       run_createOrder env tz req w = (Ok co, w') /\
       order_deliverySlotId (co_order co) = Some (slot_id s) /\
       co_deliverySlot co = Some (incrementUsage s) /\
       slots (store w') = <[slot_id s := incrementUsage s]> (slots (store w))).
Proof.
  intros Hp Hz Hrep Hav HM.
  destruct (selects_of_reports _ _ _ _ _ Hp Hz Hrep Hav) as (s & Hsel & Hs).
  exists s. split; [exact Hs|]. split; [reflexivity|].
  destruct (run_assignDeliverySlot env req w ∅) as (ra & wa & txa & Hra & Hst & _ & Hcases).
  assert (Hsel_fun : forall s', selects env req w s' -> s' = s).
  { intros s' Hs'. eapply selects_inv in Hs'; eauto.
    destruct Hs' as (_ & _ & _ & Hs' & _). congruence. }
  assert (Hra' : ra = Ok (Some (incrementUsage s), user_selected) /\
                 txa = Some {[slot_id s := incrementUsage s]} /\
                 writes wa = writes w ++ [WSlot true (incrementUsage s)]).
  { destruct Hcases as [(_ & _ & Hno & Herr)|(s' & Hs' & _ & -> & -> & Hw)].
    - destruct (Herr s Hsel) as [e ->].
      exfalso. revert Hra. unfold assignDeliverySlot. rewrite Hp. cbn [truthy_id from_option Datatypes.id].
      apply Z.eqb_neq in Hz. rewrite Hz. cbn [negb].
      rewrite run_bind, (reports_run _ _ _ _ _ Hrep).
      destruct (reports_inv _ _ _ _ Hrep) as (_ & _ & Hcase). rewrite Hs in Hcase.
      destruct Hcase as [-> _]. rewrite Hav.
      exec_op. rewrite HM. cbn [exec_ok run]. discriminate.
    - rewrite (Hsel_fun s' Hs') in *. rewrite insert_empty. auto. }
  destruct Hra' as (-> & -> & Hw).
  split; [exists wa; auto|].
  intros Hvalid Huser Hf.
  destruct (run_createOrderSteps_ok env tz req w) as (r & w' & tx' & Hsteps & Htot & Hinv).
  destruct (Htot Hvalid Huser _ _ _ _ Hra) as [co ->].
  { intros t Ht. apply Hf. apply in_or_app. right. exact Ht. }
  destruct (Hinv co eq_refl) as (_ & _ & _ & d & m & wa' & p & Hra2 & _ & Hsl & _ & _ & Hco).
  rewrite Hra in Hra2. injection Hra2 as <- <- <- <-.
  pose proof (run_createOrder_of_steps env tz req w _ _ _
                (fun t Ht => Hf t (in_or_app _ _ _ (or_introl Ht))) Hsteps) as Hrun.
  cbn in Hrun. exists co, w'. split; [exact Hrun|]. rewrite Hco.
  assert (Hsl' : slots (store w') = <[slot_id s := incrementUsage s]> (slots (store w))).
  { rewrite Hsl, <- insert_empty, <- insert_union_l. f_equal. apply (left_id_L ∅ (∪)). }
  split; [reflexivity|]. split; [|exact Hsl'].
  unfold complete_order, slot_of_order. cbn. rewrite Hsl'. apply lookup_insert_eq.
Qed.

Lemma run_createOrderSteps_no_slot env tz req w m wa txa :
  valid (env_validateInventory env (items req)) = true ->
  is_Some (users (store w) !! userId req) ->
  faultless env [TValidateInventory; TFindUser; TCalculatePrice] ->
  run env (assignDeliverySlot req) w (Some ∅) = (Ok (None, m), wa, txa) ->
  run env (createOrderSteps tz req) w (Some ∅)
  = (Err (new_Error "No delivery slots available"), wa, txa).
Proof.
  intros Hvalid [user Huser] Hf Hra. unfold createOrderSteps. exec_op.
  rewrite (Hf TValidateInventory) by (cbn; tauto). cbn [exec_ok]. rewrite Hvalid. cbn [negb].
  exec_op. rewrite (Hf TFindUser) by (cbn; tauto). cbn [exec_ok]. rewrite Huser.
  exec_op. rewrite (Hf TCalculatePrice) by (cbn; tauto). cbn [exec_ok].
  rewrite run_bind, Hra. reflexivity.
Qed.

(** C4, amended.  Without a preferred slot identifier, or with the
    identifier 0, step 4 takes the slot of the Default Slot Assigner with
    method auto_assigned; with an identifier other than 0 that the
    Availability Checker reports unavailable it logs the reason and takes
    the default slot with method fallback; and when step 4 ends without a
    slot, createOrder fails with "No delivery slots available" and the
    tables are as before. *)
Theorem createOrder_default_assignment env tz req w :
  env_fault env TAssignDefaultSlot = None ->
  (truthy_id (preferredSlotId req) = false ->
   forall tx,
     run env (assignDeliverySlot req) w tx
     = (Ok (env_assignDefaultSlot env (store w), auto_assigned), w, tx)) /\
  (forall id v,
     preferredSlotId req = Some id -> id <> 0 ->
     reports env w id = Ok v -> isAvailable v = false ->
     forall tx, exists w1,
       run env (assignDeliverySlot req) w tx
       = (Ok (env_assignDefaultSlot env (store w), fallback), w1, tx) /\
       store w1 = store w /\ writes w1 = writes w /\
       console w1 = console w ++
         ["User selected unavailable slot: " +:+ default "undefined" (message v)]) /\
  (forall m wa txa,
     run env (assignDeliverySlot req) w (Some ∅) = (Ok (None, m), wa, txa) ->
     valid (env_validateInventory env (items req)) = true ->
     is_Some (users (store w) !! userId req) ->
     faultless env (TRollbackTransaction :: TValidateInventory :: TFindUser
                    :: TCalculatePrice :: wrapper_tags) ->
     exists w',
       run_createOrder env tz req w
       = (Err (new_Error "No delivery slots available"), w') /\
       store w' = store w).
Proof.
  intros HD. split; [|split].
  - intros Hp tx. unfold assignDeliverySlot. rewrite Hp. exec_op. rewrite HD. reflexivity.
  - intros id v Hp Hz Hrep Hav tx. unfold assignDeliverySlot. rewrite Hp.
    cbn [truthy_id from_option Datatypes.id]. apply Z.eqb_neq in Hz. rewrite Hz. cbn [negb].
    rewrite run_bind, (reports_run _ _ _ _ _ Hrep). rewrite Hav.
    exec_op. cbn [exec_ok]. exec_op. rewrite HD. cbn [exec_ok run].
    eexists. split; [reflexivity|]. repeat split.
  - intros m wa txa Hra Hvalid Huser Hf.
    destruct (run_assignDeliverySlot env req w ∅) as (ra & wa' & txa' & Hra' & Hst & _ & Hcases).
    rewrite Hra in Hra'. injection Hra' as <- <- <-.
    assert (txa = Some ∅) as ->.
    { destruct Hcases as [(-> & _)|(s & _ & _ & [=] & _)]. reflexivity. }
    pose proof (run_createOrderSteps_no_slot env tz req w m wa (Some ∅) Hvalid Huser
                  (fun t Ht => Hf t ltac:(cbn in Ht |- *; tauto)) Hra) as Hsteps.
    pose proof (run_createOrder_of_steps env tz req w _ _ _
                  (fun t Ht => Hf t ltac:(cbn in Ht |- *; tauto)) Hsteps) as Hrun.
    cbn in Hrun. exists wa. split; [|exact Hst].
    apply Hrun; [apply Hf; cbn; tauto|discriminate].
Qed.




Lemma formatTime_twelve_hour tz t :
  exists h m, formatTime tz (Some t) = Js.num_to_string h +:+ ":00 " +:+ m /\
    twelve_hour tz t h m.
Proof.
  unfold formatTime, twelve_hour, getHours.
  set (H := (local_ms tz t `mod` 86400000) `div` 3600000).
  assert (HH : 0 <= H < 24).
  { unfold H. pose proof (Z.mod_pos_bound (local_ms tz t) 86400000 eq_refl).
    split; [apply Z.div_pos; lia|apply Z.div_lt_upper_bound; lia]. }
  pose proof (Z.mod_pos_bound H 12 eq_refl) as Hm.
  pose proof (Z.div_mod H 12 ltac:(lia)) as Hdm.
  exists (if H mod 12 =? 0 then 12 else H mod 12), (if H >=? 12 then "PM" else "AM").
  split; [reflexivity|]. exists H. split; [reflexivity|]. split; [exact HH|].
  rewrite Z.geb_leb.
  destruct (H mod 12 =? 0) eqn:H0; [apply Z.eqb_eq in H0|apply Z.eqb_neq in H0].
  - split; [lia|]. split.
    + replace (12 - H) with ((1 - H / 12) * 12) by lia. apply Z.mod_mul. lia.
    + destruct (12 <=? H) eqn:Hc; [apply Z.leb_le in Hc|apply Z.leb_gt in Hc]; auto.
  - split; [lia|]. split.
    + replace (H mod 12 - H) with ((- (H / 12)) * 12) by lia. apply Z.mod_mul. lia.
    + destruct (12 <=? H) eqn:Hc; [apply Z.leb_le in Hc|apply Z.leb_gt in Hc]; auto.
Qed.

Lemma dayName_weekday tz t :
  exists i, getDay tz (Some t) = Some i /\ dayNames !! Z.to_nat i = Some (dayName tz (Some t)).
Proof.
  unfold dayName, getDay.
  set (i := ((local_ms tz t `div` 86400000) + 4) `mod` 7).
  exists i. split; [reflexivity|].
  pose proof (Z.mod_pos_bound (local_ms tz t `div` 86400000 + 4) 7 eq_refl) as Hi.
  fold i in Hi. rewrite nth_lookup.
  destruct (dayNames !! Z.to_nat i) as [d|] eqn:Hd; [reflexivity|].
  apply lookup_ge_None in Hd. cbn in Hd. lia.
Qed.

(** C8.  For a context bag with a (truthy) assignment method and a slot
    window, formatDeliveryTime returns the phrase of the method followed by
    the window: the weekday of the start, then start and end as
    [h]:00 AM or PM on the twelve-hour clock, minutes never shown. *)
Theorem formatDeliveryTime_method_phrase env tz orderId data w tx method win :
  env_fault env TInitialize = None ->
  Js.get data "slotAssignmentMethod" = method ->
  Js.truthy method = true ->
  Js.get data "deliverySlot" = Js.JSlot win ->
  exists info day h1 m1 h2 m2,
    run env (formatDeliveryTime tz orderId data) w tx = (Ok info, w, tx) /\
    let window :=
      day +:+ " " +:+ (Js.num_to_string h1 +:+ ":00 " +:+ m1) +:+ " - "
      +:+ (Js.num_to_string h2 +:+ ":00 " +:+ m2) in
    (method = Js.JStr "user_selected" ->
     info = "Your selected delivery time: " +:+ window) /\
    (method = Js.JStr "fallback" ->
     info = "Your preferred time slot was unavailable, so we assigned the next available slot: "
            +:+ window) /\
    (method <> Js.JStr "user_selected" -> method <> Js.JStr "fallback" ->
     info = "Scheduled for " +:+ window) /\
    (exists i, getDay tz (Some (Js.sw_startTime win)) = Some i /\
               dayNames !! Z.to_nat i = Some day) /\
    twelve_hour tz (Js.sw_startTime win) h1 m1 /\
    twelve_hour tz (Js.sw_endTime win) h2 m2.
Proof.
  intros HI Hm Ht Hs.
  destruct (formatTime_twelve_hour tz (Js.sw_startTime win)) as (h1 & m1 & Hf1 & Hc1).
  destruct (formatTime_twelve_hour tz (Js.sw_endTime win)) as (h2 & m2 & Hf2 & Hc2).
  eexists _, (dayName tz (Some (Js.sw_startTime win))), h1, m1, h2, m2.
  split.
  { apply run_formatDeliveryTime_payload; [exact HI| |]; rewrite ?Hs, ?Hm; auto. }
  rewrite Hm, Hs. cbn [date_of_startTime date_of_endTime]. unfold timeSlotString.
  rewrite Hf1, Hf2. cbv zeta.
  split; [intros ->; reflexivity|]. split; [intros ->; reflexivity|].
  split; [|split; [apply dayName_weekday|auto]].
  intros Hn1 Hn2. unfold methodPhrase. destruct method as [| | | |m| | |]; try reflexivity.
  destruct (String.eqb m "user_selected") eqn:E1.
  { apply String.eqb_eq in E1. congruence. }
  destruct (String.eqb m "fallback") eqn:E2.
  { apply String.eqb_eq in E2. congruence. }
  reflexivity.
Qed.

(** C5.  validateSlotAvailability returns one of five outcomes, decided in
    this order: not found when the store has no such slot, inactive when
    isActive is false (whatever the capacity and the time), full when
    currentUsage >= maxCapacity, past when the start time is at or before
    the evaluation instant (whatever the capacity), and available
    otherwise; the world and the transaction are left as they were. *)
Theorem validateSlotAvailability_outcomes env w tx slotId :
  env_fault env TInitialize = None ->
  env_fault env TFindSlot = None ->
  exists r,
    run env (validateSlotAvailability slotId) w tx = (Ok r, w, tx) /\
    match slots (store w) !! slotId with
    | None =>
        r = mkSlotValidation false None
              (Some ("Delivery slot with ID " +:+ Js.num_to_string slotId
                     +:+ " not found"))
    | Some s =>
        (isActive s = false ->
         r = mkSlotValidation false (Some s)
               (Some "Selected delivery slot is inactive")) /\
        (isActive s = true -> maxCapacity s <= currentUsage s ->
         r = mkSlotValidation false (Some s)
               (Some ("Selected delivery slot is full ("
                      +:+ Js.num_to_string (currentUsage s) +:+ "/"
                      +:+ Js.num_to_string (maxCapacity s) +:+ ")"))) /\
        (isActive s = true -> currentUsage s < maxCapacity s ->
         startTime s <= env_now env ->
         r = mkSlotValidation false (Some s)
               (Some "Selected delivery slot has already passed")) /\
        (isActive s = true -> currentUsage s < maxCapacity s ->
         env_now env < startTime s ->
         r = mkSlotValidation true (Some s) None) /\
        (startTime s <= env_now env -> isAvailable r = false)
    end.
Proof.
  intros HI HF. unfold validateSlotAvailability.
  exec_op. rewrite HI. cbn [exec_ok].
  rewrite run_try_catch. exec_op. rewrite HF. cbn [exec_ok].
  destruct (slots (store w) !! slotId) as [s|] eqn:Hs.
  2:{ eexists. split; reflexivity. }
  destruct (isActive s) eqn:Ha; cbn [negb].
  2:{ eexists. split; [reflexivity|]. cbn. intuition congruence. }
  rewrite Z.geb_leb.
  destruct (maxCapacity s <=? currentUsage s) eqn:Hc.
  { eexists. split; [reflexivity|]. cbn. apply Z.leb_le in Hc.
    intuition (try congruence; try lia). }
  exec_op. cbn [exec_ok]. apply Z.leb_gt in Hc.
  destruct (startTime s <=? env_now env) eqn:Hp.
  { eexists. split; [reflexivity|]. cbn. apply Z.leb_le in Hp.
    intuition (try congruence; try lia). }
  eexists. split; [reflexivity|]. cbn. apply Z.leb_gt in Hp.
  intuition (try congruence; try lia).
Qed.

(** ** Scenarios, run *)

(** C1.  createOrder is not atomic: the order, its items and the
    notification are saved through the repositories of the data source,
    outside the transaction of the query runner, so the rollback after a
    later failure undoes the slot increment only.  When the item insert
    fails the order row stays; when the notification insert fails the order
    row and the item rows stay. *)
Theorem createOrder_failure_keeps_rows :
  let '(r1, w1) :=
    run_createOrder (demo_env items_fail) 0 (demo_request (Some 5)) demo_world in
  let '(r2, w2) :=
    run_createOrder (demo_env notification_fails) 0 (demo_request (Some 5))
      demo_world in
  orders (store demo_world) = [] /\ orderItems (store demo_world) = [] /\
  r1 = Err db_error /\
  orders (store w1) = [mkOrder 1 7 1 (Some 5) 20 "pending"] /\
  orderItems (store w1) = [] /\
  slots (store w1) !! 5 = Some (sunday_slot 5 0 1) /\
  r2 = Err db_error /\
  orders (store w2) = [mkOrder 1 7 1 (Some 5) 20 "pending"] /\
  orderItems (store w2) = [mkOrderItem 1 1 "A" 2 10 0 20] /\
  notifications (store w2) = [] /\
  slots (store w2) !! 5 = Some (sunday_slot 5 0 1).
Proof. vm_compute. repeat split. Qed.

(** C2.  Two requests that prefer slot 5, which has one place left, both
    obtain it as user_selected when both read the slot row before either
    writes it: two increments are issued, both orders reference slot 5, and
    the counter ends at 1. *)
Theorem concurrent_requests_both_user_selected :
  let '(pool, w') :=
    sched (demo_env no_fault) race_schedule race_pool demo_world in
  slots (store demo_world) !! 5 = Some (sunday_slot 5 0 1) /\
  map (fun t => match finished t with
                | Some (Ok co) => order_deliverySlotId (co_order co)
                | _ => None
                end) pool = [Some 5; Some 5] /\
  map notif_content (notifications (store w'))
  = ["Your order #1 has been received and is being processed. Your selected delivery time: Sunday 2:00 PM - 5:00 PM";
     "Your order #2 has been received and is being processed. Your selected delivery time: Sunday 2:00 PM - 5:00 PM"] /\
  slot_writes (writes w') = [sunday_slot 5 1 1; sunday_slot 5 1 1] /\
  slots (store w') !! 5 = Some (sunday_slot 5 1 1).
Proof. vm_compute. repeat split. Qed.

(** The schedule switches requests only while a request awaits the store:
    after eight operations a request has read the slot row and has not yet
    written it. *)
Lemma race_schedule_switch_point :
  match fst (sched (demo_env no_fault) (repeat 0%nat 7) race_pool demo_world) !! 0%nat with
  | Some t => match th_prog t with
              | Act op _ => op_tag op = Some TFindSlot
              | _ => False
              end
  | None => False
  end.
Proof. vm_compute. reflexivity. Qed.

(** C9.  The placeholder loop does not insert every scalar literally:
    [replace] expands the dollar patterns of the replacement text, so the
    reason "Too expensive $$$" reaches the content with two dollar signs. *)
Theorem notifyUser_expands_dollar_patterns :
  exists n w',
    run (demo_env no_fault)
      (notifyUser 0 1 "order_cancelled" 7
         [("reason", Js.JStr "Too expensive $$$")])
      demo_world None
    = (Ok n, w', None) /\
    notif_content n = "Your order #1 has been cancelled. Too expensive $$" /\
    Js.includes (notif_content n) "Too expensive $$$" = false.
Proof. do 2 eexists. vm_compute. repeat split. Qed.

(** What does hold of the placeholder loop: a value that is neither a string
    nor a number leaves the content as it is, *)
Lemma interpolate_entry_skips_non_scalars content key v :
  Js.scalar_string v = None -> interpolate_entry content (key, v) = content.
Proof. intros H. unfold interpolate_entry. cbn [snd]. rewrite H. reflexivity. Qed.

(** and a replacement text without a dollar sign is inserted as it is, for
    the first occurrence of the placeholder. *)
Lemma get_substitution_literal matched before after s :
  no_dollar s -> Js.get_substitution matched before after s = s.
Proof.
  induction s as [|c s IH]; cbn; [reflexivity|].
  intros [Hc Hs]. apply Ascii.eqb_neq in Hc. rewrite Hc, (IH Hs). reflexivity.
Qed.

Lemma replace_literal content pat s before after :
  Js.split_first pat content = Some (before, after) ->
  no_dollar s ->
  Js.replace content pat s = before +:+ s +:+ after.
Proof.
  intros Hsplit Hs. unfold Js.replace. rewrite Hsplit.
  rewrite get_substitution_literal by exact Hs. reflexivity.
Qed.

(** The claim C3 as first stated fails for the identifier 0: the checker
    reports slot 0 available, yet step 4 treats the request as one without
    a preference, assigns the default slot 9 with method auto_assigned, and
    the counter of slot 0 stays at 0. *)
Lemma zero_identifier_is_not_user_selected :
  reports (demo_env no_fault) zero_world 0
  = Ok (mkSlotValidation true (Some (sunday_slot 0 0 1)) None) /\
  run (demo_env no_fault) (assignDeliverySlot (demo_request (Some 0)))
    zero_world (Some ∅)
  = (Ok (Some (monday_slot 9 0 3), auto_assigned), zero_world, Some ∅) /\
  exists co w',
    run_createOrder (demo_env no_fault) 0 (demo_request (Some 0)) zero_world
    = (Ok co, w') /\
    order_deliverySlotId (co_order co) = Some 9 /\
    slots (store w') !! 0 = Some (sunday_slot 0 0 1).
Proof.
  split; [vm_compute; reflexivity|]. split; [vm_compute; reflexivity|].
  do 2 eexists. vm_compute. repeat split.
Qed.

(** The claim C4 as first stated fails for the identifier 0: the checker
    reports it unavailable (no such slot), yet the method of the default
    assignment is auto_assigned, not fallback. *)
Lemma zero_identifier_is_not_fallback :
  reports (demo_env no_fault) busy_world 0
  = Ok (mkSlotValidation false None (Some "Delivery slot with ID 0 not found")) /\
  run (demo_env no_fault) (assignDeliverySlot (demo_request (Some 0)))
    busy_world (Some ∅)
  = (Ok (Some (monday_slot 9 0 3), auto_assigned), busy_world, Some ∅).
Proof. split; vm_compute; reflexivity. Qed.

(** Scenario A: slot 5 with maxCapacity 1 and currentUsage 0, active,
    starting in one hour, is preferred; the order is created on it and its
    currentUsage becomes 1. *)
Lemma scenario_A_user_selected :
  preferredSlotId (demo_request (Some 5)) = Some 5 /\
  reports (demo_env no_fault) demo_world 5
  = Ok (mkSlotValidation true (Some (sunday_slot 5 0 1)) None) /\
  exists co w',
    run_createOrder (demo_env no_fault) 0 (demo_request (Some 5)) demo_world
    = (Ok co, w') /\
    order_deliverySlotId (co_order co) = Some 5 /\
    slots (store w') !! 5 = Some (sunday_slot 5 1 1).
Proof.
  assert (Hrep : reports (demo_env no_fault) demo_world 5
                 = Ok (mkSlotValidation true (Some (sunday_slot 5 0 1)) None))
    by (vm_compute; reflexivity).
  split; [reflexivity|]. split; [exact Hrep|].
  destruct (createOrder_user_selected_reservation (demo_env no_fault) 0
              (demo_request (Some 5)) demo_world 5 _ eq_refl ltac:(lia) Hrep
              eq_refl eq_refl)
    as (s & Hs & _ & _ & Hall).
  assert (s = sunday_slot 5 0 1) as ->
    by (vm_compute in Hs; injection Hs as <-; reflexivity).
  destruct Hall as (co & w' & Hrun & Hid & _ & Hsl).
  - reflexivity.
  - exists alice. reflexivity.
  - intros t _. reflexivity.
  - exists co, w'. split; [exact Hrun|]. split; [exact Hid|].
    rewrite Hsl. apply lookup_insert_eq.
Defined.

(** Scenario B: slot 5 is full, so the preference falls back to the default
    slot 9; and without any default slot the creation fails. *)
Lemma scenario_B_fallback :
  env_fault (demo_env no_fault) TAssignDefaultSlot = None /\
  (exists w1,
     run (demo_env no_fault) (assignDeliverySlot (demo_request (Some 5)))
       busy_world (Some ∅)
     = (Ok (Some (monday_slot 9 0 3), fallback), w1, Some ∅) /\
     console w1
     = ["User selected unavailable slot: Selected delivery slot is full (1/1)"]) /\
  (exists w',
     run_createOrder (demo_env no_fault) 0 (demo_request None) demo_world
     = (Err (new_Error "No delivery slots available"), w') /\
     store w' = store demo_world).
Proof.
  split; [reflexivity|]. split.
  - destruct (createOrder_default_assignment (demo_env no_fault) 0
                (demo_request (Some 5)) busy_world eq_refl) as (_ & Hfb & _).
    destruct (Hfb 5 (mkSlotValidation false (Some (sunday_slot 5 1 1))
                       (Some "Selected delivery slot is full (1/1)"))
                eq_refl ltac:(lia) ltac:(vm_compute; reflexivity) eq_refl (Some ∅))
      as (w1 & Hrun & _ & _ & Hc).
    exists w1. split; [exact Hrun|exact Hc].
  - destruct (createOrder_default_assignment (demo_env no_fault) 0
                (demo_request None) demo_world eq_refl) as (_ & _ & Hnone).
    apply (Hnone auto_assigned demo_world (Some ∅)).
    + vm_compute. reflexivity.
    + reflexivity.
    + exists alice. reflexivity.
    + intros t _. reflexivity.
Defined.

(** The checker on the open slot 5 and on the full slot 5. *)
Lemma checker_on_slot_5 :
  env_fault (demo_env no_fault) TInitialize = None /\
  env_fault (demo_env no_fault) TFindSlot = None /\
  run (demo_env no_fault) (validateSlotAvailability 5) demo_world None
  = (Ok (mkSlotValidation true (Some (sunday_slot 5 0 1)) None), demo_world, None) /\
  run (demo_env no_fault) (validateSlotAvailability 5) busy_world None
  = (Ok (mkSlotValidation false (Some (sunday_slot 5 1 1))
           (Some "Selected delivery slot is full (1/1)")), busy_world, None).
Proof.
  split; [reflexivity|]. split; [reflexivity|]. split.
  - destruct (validateSlotAvailability_outcomes (demo_env no_fault) demo_world
                None 5 eq_refl eq_refl) as (r & Hrun & Hcase).
    replace (slots (store demo_world) !! 5) with (Some (sunday_slot 5 0 1))
      in Hcase by (vm_compute; reflexivity).
    destruct Hcase as (_ & _ & _ & Hopen & _).
    rewrite Hrun, Hopen; [reflexivity|reflexivity| |]; vm_compute; reflexivity.
  - destruct (validateSlotAvailability_outcomes (demo_env no_fault) busy_world
                None 5 eq_refl eq_refl) as (r & Hrun & Hcase).
    replace (slots (store busy_world) !! 5) with (Some (sunday_slot 5 1 1))
      in Hcase by (vm_compute; reflexivity).
    destruct Hcase as (_ & Hfull & _).
    rewrite Hrun, Hfull; [reflexivity|reflexivity|]. vm_compute. discriminate.
Defined.

(** The counter of slot 5 stays within its bounds over a creation, and the
    successful reservation takes it from 0 to 1. *)
Lemma capacity_of_slot_5 :
  slots (store demo_world) !! 5 = Some (sunday_slot 5 0 1) /\
  0 <= currentUsage (sunday_slot 5 0 1) <= maxCapacity (sunday_slot 5 0 1) /\
  exists s',
    slots (store (snd (run_createOrder (demo_env no_fault) 0
                         (demo_request (Some 5)) demo_world))) !! 5 = Some s' /\
    0 <= currentUsage s' <= maxCapacity s'.
Proof.
  split; [vm_compute; reflexivity|]. split; [vm_compute; split; discriminate|].
  destruct (createOrder_capacity_invariant (demo_env no_fault) 0
              (demo_request (Some 5)) demo_world 5 (sunday_slot 5 0 1))
    as [(s' & Hs' & Hb & _) _].
  - intros k x Hk. unfold demo_world, demo_store in Hk. cbn [store slots] in Hk.
    apply lookup_singleton_Some in Hk as [<- <-]. reflexivity.
  - vm_compute. reflexivity.
  - vm_compute. split; discriminate.
  - exists s'. split; [exact Hs'|exact Hb].
Defined.



(** Scenario D: a fallback assignment for Sunday 14:00 to 17:00. *)
Lemma scenario_D_fallback_phrase :
  exists info,
    run (demo_env no_fault)
      (formatDeliveryTime 0 1 (order_payload fallback (sunday_slot 5 0 1)))
      demo_world None
    = (Ok info, demo_world, None) /\
    info = "Your preferred time slot was unavailable, so we assigned the next available slot: Sunday 2:00 PM - 5:00 PM".
Proof.
  destruct (formatDeliveryTime_method_phrase (demo_env no_fault) 0 1
              (order_payload fallback (sunday_slot 5 0 1)) demo_world None
              (Js.JStr "fallback") (Js.mkSlotWindow 5 (86 * hour) (89 * hour))
              eq_refl eq_refl eq_refl eq_refl)
    as (info & day & h1 & m1 & h2 & m2 & Hrun & _).
  exists info. split; [exact Hrun|].
  vm_compute in Hrun. injection Hrun as <-. reflexivity.
Defined.

(** Minutes are dropped: 14:30 and 23:59 read 2:00 PM and 11:00 PM, and
    midnight reads 12:00 AM. *)
Example formatTime_drops_minutes :
  formatTime 0 (Some (86 * hour + 30 * 60000)) = "2:00 PM" /\
  formatTime 0 (Some (95 * hour + 59 * 60000)) = "11:00 PM" /\
  formatTime 0 (Some (72 * hour)) = "12:00 AM" /\
  formatTime 60 (Some (86 * hour)) = "3:00 PM".
Proof. vm_compute. repeat split. Qed.

(** Scenario D, the whole notification: the content names the fallback and
    the window. *)
Example scenario_D_notification :
  exists n w',
    run (demo_env no_fault)
      (notifyUser 0 1 "order_created" 7
         (order_payload fallback (sunday_slot 5 0 1)))
      demo_world None
    = (Ok n, w', None) /\
    Js.includes (notif_content n) "preferred time slot was unavailable" = true /\
    Js.includes (notif_content n) "Sunday 2:00 PM - 5:00 PM" = true.
Proof. do 2 eexists. vm_compute. repeat split. Qed.

(** Scenario E: an invalid inventory fails the creation and nothing is
    written. *)
Example scenario_E_inventory_invalid :
  run_createOrder
    (mkEnv (85 * hour)
       (fun _ => mkInventoryValidation false ["A out of stock"])
       (fun _ => price_A) (fun st => slots st !! 9) no_fault)
    0 (demo_request (Some 5)) demo_world
  = (Err (new_Error "Inventory validation failed: A out of stock"), demo_world).
Proof. vm_compute. reflexivity. Qed.

(** A creation that falls back to slot 9 asks for no slot row to be
    written. *)
Lemma fallback_writes_no_slot :
  run (demo_env no_fault) (assignDeliverySlot (demo_request (Some 5)))
    busy_world (Some ∅)
  = (Ok (Some (monday_slot 9 0 3), fallback),
     mkWorld busy_store []
       ["User selected unavailable slot: Selected delivery slot is full (1/1)"] [],
     Some ∅) /\
  slot_writes (writes (snd (run_createOrder (demo_env no_fault) 0
                              (demo_request (Some 5)) busy_world))) = [] /\
  slots (store (snd (run_createOrder (demo_env no_fault) 0
                       (demo_request (Some 5)) busy_world)))
  = slots busy_store.
Proof.
  assert (Hra : run (demo_env no_fault) (assignDeliverySlot (demo_request (Some 5)))
                  busy_world (Some ∅)
                = (Ok (Some (monday_slot 9 0 3), fallback),
                   mkWorld busy_store []
                     ["User selected unavailable slot: Selected delivery slot is full (1/1)"] [],
                   Some ∅))
    by (vm_compute; reflexivity).
  split; [exact Hra|].
  destruct (createOrder_writes_slot_only_when_user_selected (demo_env no_fault) 0
              (demo_request (Some 5)) busy_world _ _ _ Hra) as [Hno _].
  apply Hno. intros d. discriminate.
Defined.

(** ** Further properties *)

Lemma run_validate_shape env w tx slotId r w' tx' :
  run env (validateSlotAvailability slotId) w tx = (Ok r, w', tx') ->
  slot r = slots (store w) !! slotId /\
  (isAvailable r = true <-> message r = None) /\
  (isAvailable r = true -> is_Some (slot r)).
Proof.
  unfold validateSlotAvailability. exec_op.
  destruct (env_fault env TInitialize); [discriminate|]. cbn [exec_ok].
  rewrite run_try_catch. exec_op.
  destruct (env_fault env TFindSlot); [discriminate|]. cbn [exec_ok].
  destruct (slots (store w) !! slotId) as [s|].
  2:{ intros [= <- _ _]. cbn. intuition congruence. }
  destruct (negb (isActive s)).
  { intros [= <- _ _]. cbn. intuition congruence. }
  destruct (currentUsage s >=? maxCapacity s).
  { intros [= <- _ _]. cbn. intuition congruence. }
  exec_op. cbn [exec_ok].
  destruct (startTime s <=? env_now env); intros [= <- _ _]; cbn; intuition (eauto; congruence).
Qed.

(** X1.  validateSlotAvailability only reads: whatever it returns or
    throws, the world and the transaction are as before.  When it returns,
    the slot of the result is the stored row as it is (none when there is
    no such row), the result is available exactly when it carries no
    message, and an available result always carries a slot. *)
Theorem validateSlotAvailability_result_shape env w tx slotId r w' tx' :
  run env (validateSlotAvailability slotId) w tx = (r, w', tx') ->
  w' = w /\ tx' = tx /\
  forall v, r = Ok v ->
    slot v = slots (store w) !! slotId /\
    (isAvailable v = true <-> message v = None) /\
    (isAvailable v = true -> is_Some (slot v)).
Proof.
  intros Hrun. pose proof Hrun as Hrun'.
  rewrite run_validate_reports in Hrun'. injection Hrun' as _ <- <-.
  split; [reflexivity|]. split; [reflexivity|].
  intros v ->. eapply run_validate_shape. exact Hrun.
Qed.

(** X2.  An error of the store while the preferred slot is read is not
    taken for an unavailable slot: validateSlotAvailability throws it
    wrapped as "Error validating slot availability: ...", and createOrder
    fails with that error, without falling back to the default slot and
    with the world as before. *)
Theorem createOrder_checker_error_is_fatal env tz req w id e :
  preferredSlotId req = Some id -> id <> 0 ->
  env_fault env TFindSlot = Some e ->
  faultless env early_tags ->
  valid (env_validateInventory env (items req)) = true ->
  is_Some (users (store w) !! userId req) ->
  let wrapped :=
    new_Error ("Error validating slot availability: " +:+ error_to_string e) in
  run env (validateSlotAvailability id) w None = (Err wrapped, w, None) /\
  run_createOrder env tz req w = (Err wrapped, w).
Proof.
  intros Hp Hz HF Hf Hvalid [user Huser] wrapped.
  assert (Hv : forall tx, run env (validateSlotAvailability id) w tx = (Err wrapped, w, tx)).
  { intros tx. unfold validateSlotAvailability. exec_op.
    rewrite (Hf TInitialize) by (cbn; tauto). cbn [exec_ok].
    rewrite run_try_catch. exec_op. rewrite HF. reflexivity. }
  split; [apply Hv|].
  assert (Hsteps : run env (createOrderSteps tz req) w (Some ∅) = (Err wrapped, w, Some ∅)).
  { unfold createOrderSteps. exec_op.
    rewrite (Hf TValidateInventory) by (cbn; tauto). cbn [exec_ok]. rewrite Hvalid. cbn [negb].
    exec_op. rewrite (Hf TFindUser) by (cbn; tauto). cbn [exec_ok]. rewrite Huser.
    exec_op. rewrite (Hf TCalculatePrice) by (cbn; tauto). cbn [exec_ok].
    rewrite run_bind. unfold assignDeliverySlot. rewrite Hp.
    cbn [truthy_id from_option Datatypes.id]. apply Z.eqb_neq in Hz. rewrite Hz. cbn [negb].
    rewrite run_bind, Hv. reflexivity. }
  pose proof (run_createOrder_of_steps env tz req w _ _ _
                (fun t Ht => Hf t ltac:(cbn in Ht |- *; tauto)) Hsteps) as Hrun.
  cbn in Hrun. apply Hrun; [apply Hf; cbn; tauto|discriminate].
Qed.

(** X3.  With an invalid inventory createOrder fails with
    "Inventory validation failed: " followed by the validator's errors
    joined by ", "; the user is not looked up and the world is as before. *)
Theorem createOrder_inventory_invalid env tz req w :
  valid (env_validateInventory env (items req)) = false ->
  faultless env [TInitialize; TConnect; TStartTransaction; TRelease;
                 TRollbackTransaction; TValidateInventory] ->
  run_createOrder env tz req w
  = (Err (new_Error ("Inventory validation failed: "
                     +:+ Js.join ", " (errors (env_validateInventory env (items req))))),
     w).
Proof.
  intros Hvalid Hf.
  assert (Hsteps : run env (createOrderSteps tz req) w (Some ∅)
                   = (Err (new_Error ("Inventory validation failed: "
                        +:+ Js.join ", " (errors (env_validateInventory env (items req))))),
                      w, Some ∅)).
  { unfold createOrderSteps. exec_op.
    rewrite (Hf TValidateInventory) by (cbn; tauto). cbn [exec_ok]. rewrite Hvalid. reflexivity. }
  pose proof (run_createOrder_of_steps env tz req w _ _ _
                (fun t Ht => Hf t ltac:(cbn in Ht |- *; tauto)) Hsteps) as Hrun.
  cbn in Hrun. apply Hrun; [apply Hf; cbn; tauto|discriminate].
Qed.

(** X4.  For a user the store does not know createOrder fails with
    "User with ID <id> not found" and the world is as before. *)
Theorem createOrder_user_not_found env tz req w :
  valid (env_validateInventory env (items req)) = true ->
  users (store w) !! userId req = None ->
  faultless env [TInitialize; TConnect; TStartTransaction; TRelease;
                 TRollbackTransaction; TValidateInventory; TFindUser] ->
  run_createOrder env tz req w
  = (Err (new_Error ("User with ID " +:+ Js.num_to_string (userId req) +:+ " not found")),
     w).
Proof.
  intros Hvalid Huser Hf.
  assert (Hsteps : run env (createOrderSteps tz req) w (Some ∅)
                   = (Err (new_Error ("User with ID " +:+ Js.num_to_string (userId req)
                                      +:+ " not found")), w, Some ∅)).
  { unfold createOrderSteps. exec_op.
    rewrite (Hf TValidateInventory) by (cbn; tauto). cbn [exec_ok]. rewrite Hvalid. cbn [negb].
    exec_op. rewrite (Hf TFindUser) by (cbn; tauto). cbn [exec_ok]. rewrite Huser. reflexivity. }
  pose proof (run_createOrder_of_steps env tz req w _ _ _
                (fun t Ht => Hf t ltac:(cbn in Ht |- *; tauto)) Hsteps) as Hrun.
  cbn in Hrun. apply Hrun; [apply Hf; cbn; tauto|discriminate].
Qed.

(** The steps when the order insert fails. *)
Lemma run_createOrderSteps_order_insert_fails env tz req w e :
  env_fault env TSaveOrder = Some e ->
  exists r w' tx', run env (createOrderSteps tz req) w (Some ∅) = (r, w', tx') /\
    is_err r /\ store w' = store w /\ channel w' = channel w.
Proof.
  intros HS. unfold createOrderSteps. exec_op.
  destruct (env_fault env TValidateInventory).
  { do 3 eexists. split; [reflexivity|]. repeat split. eexists; reflexivity. }
  cbn [exec_ok]. destruct (valid _); cbn [negb].
  2:{ do 3 eexists. split; [reflexivity|]. repeat split. eexists; reflexivity. }
  exec_op. destruct (env_fault env TFindUser).
  { do 3 eexists. split; [reflexivity|]. repeat split. eexists; reflexivity. }
  cbn [exec_ok]. destruct (users (store w) !! userId req) as [user|].
  2:{ do 3 eexists. split; [reflexivity|]. repeat split. eexists; reflexivity. }
  exec_op. destruct (env_fault env TCalculatePrice).
  { do 3 eexists. split; [reflexivity|]. repeat split. eexists; reflexivity. }
  cbn [exec_ok]. rewrite run_bind.
  destruct (run_assignDeliverySlot env req w ∅) as (ra & wa & txa & Hra & Hst & Hch & _).
  rewrite Hra. destruct ra as [[od m]|e'].
  2:{ do 3 eexists. split; [reflexivity|]. repeat split; auto; eexists; reflexivity. }
  cbn [fst snd]. destruct od as [d|].
  2:{ do 3 eexists. split; [reflexivity|]. repeat split; auto; eexists; reflexivity. }
  exec_op. rewrite HS.
  do 3 eexists. split; [reflexivity|]. repeat split; auto; eexists; reflexivity.
Qed.

(** X5.  When the store rejects the insert of the order row, createOrder
    fails and every table and the channel are as before the call: the slot
    increment of step 4, written inside the transaction, is rolled back. *)
Theorem createOrder_order_insert_failure_changes_nothing env tz req w e :
  env_fault env TSaveOrder = Some e ->
  is_err (fst (run_createOrder env tz req w)) /\
  store (snd (run_createOrder env tz req w)) = store w /\
  channel (snd (run_createOrder env tz req w)) = channel w.
Proof.
  intros HS.
  destruct (run_createOrder_wrap env tz req w) as (r & w' & Hrun & Hwrap).
  rewrite Hrun. cbn [fst snd].
  destruct Hwrap as [(He & ->)|(r1 & tx1 & Hsteps & Hr & _)]; [auto|].
  destruct (run_createOrderSteps_order_insert_fails env tz req w e HS)
    as (r1' & w1 & tx1' & Hsteps' & He & Hst & Hch).
  rewrite Hsteps in Hsteps'. injection Hsteps' as <- <- <-.
  split; [|auto]. destruct Hr as [|[-> _]]; auto.
Qed.

Lemma lookup_template_None type :
  ~ In type template_types -> lookup_template type = None.
Proof.
  intros Hn. unfold lookup_template, NOTIFICATION_TEMPLATES. cbn [List.find fst snd].
  repeat match goal with
  | |- context [String.eqb ?a type] =>
      let E := fresh "E" in
      destruct (String.eqb a type) eqn:E;
      [apply String.eqb_eq in E; exfalso; apply Hn; rewrite <- E; cbn; tauto|clear E]
  end.
  reflexivity.
Qed.

Lemma lookup_template_Some type :
  In type template_types -> is_Some (lookup_template type).
Proof.
  cbn. intros [<-|[<-|[<-|[<-|[<-|[<-|[]]]]]]]; eexists; reflexivity.
Qed.

(** X11.  For a type that is neither one of the six template types nor a
    property name inherited from Object.prototype, notifyUser throws
    "Notification template for type '<type>' not found": one line is
    logged to the console, and nothing is read, saved or published. *)
Theorem notifyUser_unknown_type env tz orderId type userId data w tx :
  ~ In type template_types ->
  ~ In type inherited_keys ->
  env_fault env TInitialize = None ->
  exists line,
    run env (notifyUser tz orderId type userId data) w tx
    = (Err (new_Error ("Notification template for type '" +:+ type +:+ "' not found")),
       mkWorld (store w) (channel w) (console w ++ [line]) (writes w),
       tx).
Proof.
  intros Hn _ HI. unfold notifyUser. exec_op. rewrite HI. cbn [exec_ok].
  rewrite run_try_catch, (lookup_template_None _ Hn). cbn [run].
  exec_op. cbn [exec_ok run]. eexists. reflexivity.
Qed.

Lemma run_notifyUser_outcome env tz orderId type userId data w tx :
  exists r w',
    run env (notifyUser tz orderId type userId data) w tx = (r, w', tx) /\
    same_tables_but_notifications (store w) (store w') /\
    notify_outcome env orderId type userId w r w'.
Proof.
  unfold notifyUser, notify_outcome. exec_op.
  destruct (env_fault env TInitialize).
  { do 2 eexists. split; [reflexivity|]. repeat split. auto. }
  cbn [exec_ok]. rewrite run_try_catch.
  destruct (lookup_template type) as [tpl|] eqn:Htpl.
  2:{ cbn [run]. exec_op. cbn [exec_ok]. do 2 eexists. split; [reflexivity|].
      repeat split. cbn. auto. }
  rewrite run_bind.
  destruct (run_formatDeliveryTime_frame env tz orderId data w tx) as [r ->].
  destruct r as [info|e].
  2:{ exec_op. cbn [exec_ok]. do 2 eexists. split; [reflexivity|]. repeat split. cbn. auto. }
  exec_op. destruct (env_fault env TSaveNotification).
  { exec_op. cbn [exec_ok]. do 2 eexists. split; [reflexivity|]. repeat split. cbn. auto. }
  cbn [exec_ok]. exec_op. destruct (env_fault env TPublish) eqn:HP.
  { exec_op. cbn [exec_ok]. do 2 eexists. split; [reflexivity|]. repeat split. cbn.
    right. split; eauto. }
  cbn [exec_ok]. do 2 eexists. split; [reflexivity|]. repeat split.
  cbn. do 2 eexists. repeat split.
Qed.

(** X12.  For a type that is not a property name inherited from
    Object.prototype, notifyUser touches no table but the notifications.
    When it returns, exactly one row was added, unread, with a fresh id and
    the title of the template, and exactly one event was published,
    carrying the same content and the id of that row.  When it throws,
    nothing was published; a row was added only if the publication threw. *)
Theorem notifyUser_persists_then_publishes env tz orderId type userId data w tx r w' tx' :
  ~ In type inherited_keys ->
  run env (notifyUser tz orderId type userId data) w tx = (r, w', tx') ->
  users (store w') = users (store w) /\ slots (store w') = slots (store w) /\
  orders (store w') = orders (store w) /\ orderItems (store w') = orderItems (store w) /\
  notify_outcome env orderId type userId w r w'.
Proof.
  intros _ Hrun.
  destruct (run_notifyUser_outcome env tz orderId type userId data w tx)
    as (r0 & w0 & Hrun0 & (Hu & Hs & Ho & Hi) & Hout).
  rewrite Hrun in Hrun0. injection Hrun0 as <- <- _. auto.
Qed.

Lemma length_assign_item_ids next l : length (assign_item_ids next l) = length l.
Proof. revert next. induction l as [|i l IH]; intros next; cbn; [reflexivity|]. rewrite IH. reflexivity. Qed.

Ltac absurd_hyp :=
  match goal with
  | H : exists _, Err _ = Ok _ |- _ => destruct H as [? [=]]
  | H : Some _ = None |- _ => discriminate H
  | H : @eq Tx (Some _) None |- _ => discriminate H
  end.

Ltac rows_none :=
  do 3 eexists; split; [reflexivity|]; split; [auto|];
  exists [], [], []; rewrite ?app_nil_r; cbn [length];
  repeat split; auto; try lia; try congruence; try absurd_hyp.

Lemma run_createOrderSteps_rows env tz req w :
  exists r w' tx',
    run env (createOrderSteps tz req) w (Some ∅) = (r, w', tx') /\
    steps_rows env req w r w' tx'.
Proof.
  unfold steps_rows, createOrderSteps. exec_op.
  destruct (env_fault env TValidateInventory); [rows_none|].
  cbn [exec_ok]. destruct (valid _); cbn [negb]; [|rows_none].
  exec_op. destruct (env_fault env TFindUser); [rows_none|].
  cbn [exec_ok]. destruct (users (store w) !! userId req) as [user|]; [|rows_none].
  exec_op. destruct (env_fault env TCalculatePrice); [rows_none|].
  cbn [exec_ok]. rewrite run_bind.
  destruct (run_assignDeliverySlot env req w ∅) as (ra & wa & txa & Hra & Hst & _ & Htx).
  assert (exists p, txa = Some p) as [p ->].
  { destruct Htx as [(-> & _)|(s & _ & _ & _ & -> & _)]; eauto. }
  clear Htx. rewrite Hra.
  destruct ra as [[od m]|e]; [|rewrite <- Hst; rows_none].
  cbn [fst snd]. destruct od as [d|]; [|rewrite <- Hst; rows_none].
  exec_op. destruct (env_fault env TSaveOrder); [rewrite <- Hst; rows_none|].
  cbn [exec_ok]. exec_op. destruct (env_fault env TSaveOrderItems).
  { do 3 eexists. split; [reflexivity|]. cbn. rewrite Hst. split; [reflexivity|].
    eexists [_], [], []. rewrite ?app_nil_r. cbn [length].
    repeat split; auto; try lia; try discriminate; try absurd_hyp. }
  cbn [exec_ok]. rewrite run_bind.
  match goal with |- context [run env (notifyUser ?a ?b ?c ?d0 ?e) ?w1 ?t] =>
    destruct (run_notifyUser_outcome env a b c d0 e w1 t)
      as (rn & wn & -> & (Hu & Hsl & Ho & Hi) & Hout) end.
  cbn in Hu, Hsl, Ho, Hi. rewrite Hst in Hu, Hsl, Ho, Hi.
  unfold notify_outcome in Hout. cbn in Hout. rewrite Hst in Hout.
  destruct rn as [n|e].
  2:{ destruct Hout as (_ & Hn).
      do 3 eexists. split; [reflexivity|]. split; [exact Hu|].
      destruct Hn as [Hn|(_ & n & Hn)].
      - eexists [_], _, []. split; [exact Ho|]. split; [exact Hi|].
        split; [rewrite app_nil_r; exact Hn|]. cbn [length]. rewrite length_assign_item_ids, length_map.
        repeat split; auto; try lia; try discriminate; try absurd_hyp.
      - eexists [_], _, [n]. split; [exact Ho|]. split; [exact Hi|].
        split; [exact Hn|]. cbn [length]. rewrite length_assign_item_ids, length_map.
        repeat split; auto; try lia; try discriminate; try absurd_hyp. }
  destruct Hout as (tpl & content & _ & _ & Hn & _).
  assert (Hfin : forall (r0 : Result CompleteOrder) (w0 : World) (t0 : Tx),
            store w0 = store wn \/
            store w0 = set_slots (store wn) (p ∪ slots (store wn)) ->
            (t0 = None -> env_fault env TFindOrder = None -> exists co, r0 = Ok co) ->
            exists r w' tx', (r0, w0, t0) = (r, w', tx') /\
              users (store w') = users (store w) /\
              exists lo li ln,
                orders (store w') = orders (store w) ++ lo /\
                orderItems (store w') = orderItems (store w) ++ li /\
                notifications (store w') = notifications (store w) ++ ln /\
                (length lo <= 1)%nat /\ (length li <= length (items req))%nat /\
                (length ln <= 1)%nat /\
                (lo = [] -> li = [] /\ ln = []) /\
                ((exists co, r = Ok co) ->
                 length lo = 1%nat /\ length li = length (items req) /\ length ln = 1%nat) /\
                (tx' = None -> env_fault env TFindOrder = None -> exists co, r = Ok co)).
  { intros r0 w0 t0 Hw0 Hco. do 3 eexists. split; [reflexivity|].
    assert (Hsame : users (store w0) = users (store wn) /\ orders (store w0) = orders (store wn)
                    /\ orderItems (store w0) = orderItems (store wn)
                    /\ notifications (store w0) = notifications (store wn)).
    { destruct Hw0 as [-> | ->]; repeat split. }
    destruct Hsame as (-> & -> & -> & ->).
    split; [exact Hu|]. eexists [_], _, [n].
    split; [exact Ho|]. split; [exact Hi|]. split; [exact Hn|].
    cbn [length]. rewrite length_assign_item_ids, length_map.
    repeat split; auto; try lia; try discriminate. }
  exec_op. destruct (env_fault env TCommitTransaction).
  { apply Hfin; [left; reflexivity|discriminate]. }
  cbn [exec_ok]. exec_op.
  destruct (env_fault env TFindOrder) eqn:HF.
  { apply Hfin; [right; reflexivity|]. intros _ [=]. }
  cbn [exec_ok].
  assert (Hfind : find_order (store (set_store wn (set_slots (store wn) (p ∪ slots (store wn)))))
                    (fresh_id (map order_id (orders (store wa))))
                  = Some (order_row env req w d)).
  { unfold find_order. cbn. rewrite Ho. rewrite Hst.
    apply (find_fresh_order (orders (store w)) (order_row env req w d)). reflexivity. }
  cbn [order_id with_order_id]. rewrite Hfind.
  apply Hfin; [right; reflexivity|]. eauto.
Qed.

(** X7.  Whatever happens, a call of createOrder leaves the user table
    as it is and keeps every existing order, item and notification row; it
    adds at most one order row, at most one item row per line item and at
    most one notification row, no item or notification row without the
    order row, and exactly these numbers when it returns an order. *)
Theorem createOrder_rows_added env tz req w :
  let r := fst (run_createOrder env tz req w) in
  let w' := snd (run_createOrder env tz req w) in
  users (store w') = users (store w) /\
  exists lo li ln,
    orders (store w') = orders (store w) ++ lo /\
    orderItems (store w') = orderItems (store w) ++ li /\
    notifications (store w') = notifications (store w) ++ ln /\
    (length lo <= 1)%nat /\ (length li <= length (items req))%nat /\
    (length ln <= 1)%nat /\
    (lo = [] -> li = [] /\ ln = []) /\
    ((exists co, r = Ok co) ->
     length lo = 1%nat /\ length li = length (items req) /\ length ln = 1%nat).
Proof.
  destruct (run_createOrder_wrap env tz req w) as (r & w' & Hrun & Hwrap).
  rewrite Hrun. cbn [fst snd].
  destruct Hwrap as [([e ->] & ->)|(r1 & tx1 & Hsteps & Hr & _)].
  { split; [reflexivity|]. exists [], [], []. rewrite !app_nil_r. cbn.
    repeat split; auto; try lia; try absurd_hyp. }
  destruct (run_createOrderSteps_rows env tz req w) as (r1' & w1 & tx1' & Hsteps' & Hrows).
  rewrite Hsteps in Hsteps'. injection Hsteps' as <- <- <-.
  destruct Hrows as (Hu & lo & li & ln & Ho & Hi & Hn & H1 & H2 & H3 & H4 & H5 & _).
  split; [exact Hu|]. exists lo, li, ln.
  do 7 (split; [assumption|]).
  intros [co ->]. destruct Hr as [[e [=]]|[<- _]]. apply H5. eauto.
Qed.

(** X6.  A call of createOrder that fails leaves the slot table as it was,
    provided the re-read of the order after the commit and the release of
    the query runner do not fail. *)
Theorem createOrder_failure_restores_slots env tz req w e :
  fst (run_createOrder env tz req w) = Err e ->
  env_fault env TFindOrder = None ->
  env_fault env TRelease = None ->
  slots (store (snd (run_createOrder env tz req w))) = slots (store w).
Proof.
  intros Herr HF HR.
  destruct (run_createOrder_wrap env tz req w) as (r & w' & Hrun & Hwrap).
  rewrite Hrun in *. cbn [fst snd] in *. subst r.
  destruct Hwrap as [(_ & ->)|(r1 & tx1 & Hsteps & Hr & HI & HC & HS)]; [reflexivity|].
  destruct (run_createOrderSteps_frame env tz req w) as (r1' & w1 & tx1' & Hsteps' & Hfr).
  rewrite Hsteps in Hsteps'. injection Hsteps' as <- <- <-.
  destruct Hfr as [(_ & -> & _)|(ra & wa & p & _ & _ & [(_ & _ & Hs)|(-> & _ & _)])];
    [reflexivity|exact Hs|].
  exfalso.
  destruct (run_createOrderSteps_rows env tz req w) as (r1' & w1 & tx1' & Hsteps' & Hrows).
  rewrite Hsteps in Hsteps'. injection Hsteps' as <- <- <-.
  destruct Hrows as (_ & lo & li & ln & _ & _ & _ & _ & _ & _ & _ & _ & Hcommit).
  destruct (Hcommit eq_refl HF) as [co ->].
  pose proof (run_createOrder_of_steps env tz req w _ _ _
                (fun t Ht => ltac:(cbn in Ht; destruct Ht as [<-|[<-|[<-|[<-|[]]]]]; assumption))
                Hsteps) as Hok.
  cbn in Hok. rewrite Hrun in Hok. discriminate.
Qed.

(** Strings without a dollar sign or an opening brace. *)
Lemma append_assoc_r (a b c : string) : (a +:+ b) +:+ c = a +:+ b +:+ c.
Proof.
  induction a as [|x a IH]; [reflexivity|].
  change (String x ((a +:+ b) +:+ c) = String x (a +:+ b +:+ c)). f_equal. exact IH.
Qed.

Lemma append_empty_r (s : string) : s +:+ "" = s.
Proof.
  induction s as [|x s IH]; [reflexivity|].
  change (String x (s +:+ "") = String x s). f_equal. exact IH.
Qed.

Lemma lacks_app c s1 s2 : lacks c s1 -> lacks c s2 -> lacks c (s1 +:+ s2).
Proof.
  induction s1 as [|a s1 IH]; cbn; [auto|]. intros [Ha H1] H2. split; auto.
Qed.

Lemma lacks_no_dollar s : lacks "$" s -> no_dollar s.
Proof. induction s as [|a s IH]; cbn; [auto|]. intros [Ha H]. split; auto. Qed.

Lemma pretty_N_char_plain c x : special c -> pretty_N_char x <> c.
Proof. intros [->| ->]; unfold pretty_N_char; repeat case_match; discriminate. Qed.

Lemma pretty_N_go_plain c x s : special c -> lacks c s -> lacks c (pretty_N_go x s).
Proof.
  intros Hc. revert s. induction (N.lt_wf_0 x) as [x _ IH]; intros s Hs.
  destruct (decide (x = 0)%N) as [->|Hx].
  - rewrite pretty_N_go_0. exact Hs.
  - rewrite pretty_N_go_step by lia. apply IH.
    + apply N.div_lt; lia.
    + cbn. split; [apply pretty_N_char_plain; exact Hc|exact Hs].
Qed.

Lemma num_to_string_plain c n : special c -> lacks c (Js.num_to_string n).
Proof.
  intros Hc. unfold Js.num_to_string, pretty, pretty_Z.
  assert (HN : forall x : N, lacks c (pretty x)).
  { intros x. unfold pretty, pretty_N.
    case_decide; [destruct Hc as [->| ->]; cbn; split; [discriminate|exact I|discriminate|exact I]|].
    apply pretty_N_go_plain; [exact Hc|exact I]. }
  destruct n; [destruct Hc as [->| ->]; cbn; (split; [discriminate|exact I])|apply HN|].
  cbn. split; [destruct Hc as [->| ->]; discriminate|apply HN].
Qed.

Lemma dayName_plain c tz d : special c -> lacks c (dayName tz d).
Proof.
  intros Hc. unfold dayName. destruct (getDay tz d) as [i|].
  2:{ destruct Hc as [->| ->]; cbn; repeat split; discriminate. }
  generalize (Z.to_nat i). intros k. unfold dayNames.
  do 8 (destruct k as [|k]; [destruct Hc as [->| ->]; cbn; repeat split; discriminate|]).
  destruct Hc as [->| ->]; cbn; repeat split; discriminate.
Qed.

Lemma formatTime_plain c tz d : special c -> lacks c (formatTime tz d).
Proof.
  intros Hc. unfold formatTime. destruct (getHours tz d) as [h|].
  2:{ destruct Hc as [->| ->]; cbn; repeat split; discriminate. }
  cbv zeta. apply lacks_app; [apply num_to_string_plain; exact Hc|].
  destruct (h >=? 12); destruct Hc as [->| ->]; cbn; repeat split; discriminate.
Qed.

Lemma timeSlotString_plain c tz d1 d2 : special c -> lacks c (timeSlotString tz d1 d2).
Proof.
  intros Hc. unfold timeSlotString.
  apply lacks_app; [apply dayName_plain; exact Hc|].
  apply (lacks_app c " "); [destruct Hc as [->| ->]; cbn; repeat split; discriminate|].
  apply lacks_app; [apply formatTime_plain; exact Hc|].
  apply (lacks_app c " - "); [destruct Hc as [->| ->]; cbn; repeat split; discriminate|].
  apply formatTime_plain; exact Hc.
Qed.

Lemma methodPhrase_plain c m ts :
  special c -> lacks c ts -> lacks c (methodPhrase (Js.JStr (method_string m)) ts).
Proof.
  intros Hc Hts. destruct m; cbn [methodPhrase method_string];
    match goal with |- context [String.eqb ?a ?b] =>
      let v := eval vm_compute in (String.eqb a b) in
      change (String.eqb a b) with v end; cbv iota.
  all: try match goal with |- context [String.eqb ?a ?b] =>
      let v := eval vm_compute in (String.eqb a b) in
      change (String.eqb a b) with v end; cbv iota.
  all: apply lacks_app; [destruct Hc as [->| ->]; cbn; repeat split; discriminate|exact Hts].
Qed.

(** A placeholder is not found in a text without an opening brace, *)
Lemma strip_prefix_brace pat c s :
  c <> "{"%char -> Js.strip_prefix (String "{" pat) (String c s) = None.
Proof.
  intros Hc. cbn [Js.strip_prefix].
  destruct (Ascii.eqb "{" c) eqn:E; [|reflexivity].
  apply Ascii.eqb_eq in E. congruence.
Qed.

Lemma split_first_plain pat s :
  lacks "{" s -> Js.split_first (String "{" pat) s = None.
Proof.
  induction s as [|c s IH]; [reflexivity|]. intros [Hc Hs].
  cbn [Js.split_first]. rewrite strip_prefix_brace by exact Hc.
  rewrite (IH Hs). reflexivity.
Qed.

(** and the search for it passes over such a text. *)
Lemma split_first_skip pat s1 s2 :
  lacks "{" s1 ->
  Js.split_first (String "{" pat) (s1 +:+ s2)
  = match Js.split_first (String "{" pat) s2 with
    | Some (before, after) => Some (s1 +:+ before, after)
    | None => None
    end.
Proof.
  induction s1 as [|c s1 IH]; intros H1.
  - change ("" +:+ s2) with s2. destruct (Js.split_first _ s2) as [[b a]|]; reflexivity.
  - destruct H1 as [Hc H1]. change (String c s1 +:+ s2) with (String c (s1 +:+ s2)).
    cbn [Js.split_first]. rewrite strip_prefix_brace by exact Hc.
    rewrite (IH H1). destruct (Js.split_first _ s2) as [[b a]|]; reflexivity.
Qed.

(** The content of the order_created notification for a payload of
    createOrder. *)
Lemma interpolate_order_created oid info m slotv :
  lacks "$" info -> lacks "{" info ->
  Js.scalar_string slotv = None ->
  interpolate
    "Your order #{orderId} has been received and is being processed. {deliveryInfo}"
    (Js.spread [("orderId", Js.JNum oid); ("deliveryInfo", Js.JStr info)]
       [("slotAssignmentMethod", Js.JStr m); ("deliverySlot", slotv)])
  = "Your order #" +:+ Js.num_to_string oid
    +:+ " has been received and is being processed. " +:+ info.
Proof.
  intros Hd Hb Hslot.
  change (Js.spread _ _) with
    [("orderId", Js.JNum oid); ("deliveryInfo", Js.JStr info);
     ("slotAssignmentMethod", Js.JStr m); ("deliverySlot", slotv)].
  unfold interpolate. cbn [fold_left].
  set (c1 := interpolate_entry _ ("orderId", _)).
  assert (H1 : c1 = "Your order #" +:+ Js.num_to_string oid
                    +:+ " has been received and is being processed. {deliveryInfo}").
  { subst c1. unfold interpolate_entry. cbn [snd fst Js.scalar_string].
    apply replace_literal; [reflexivity|].
    apply lacks_no_dollar, num_to_string_plain. left; reflexivity. }
  rewrite H1. clear c1 H1.
  set (c2 := interpolate_entry _ ("deliveryInfo", _)).
  assert (H2 : c2 = ("Your order #" +:+ Js.num_to_string oid
                    +:+ " has been received and is being processed. ") +:+ info +:+ "").
  { subst c2. unfold interpolate_entry. cbn [snd fst Js.scalar_string].
    apply replace_literal; [|apply lacks_no_dollar; exact Hd].
    change ("{" +:+ "deliveryInfo" +:+ "}") with (String "{" "deliveryInfo}").
    rewrite (split_first_skip _ "Your order #") by (cbn; repeat split; discriminate).
    rewrite (split_first_skip _ (Js.num_to_string oid))
      by (apply num_to_string_plain; right; reflexivity).
    reflexivity. }
  rewrite H2. clear c2 H2.
  rewrite !append_assoc_r, append_empty_r.
  set (c2 := _ +:+ _).
  assert (H3 : interpolate_entry c2 ("slotAssignmentMethod", Js.JStr m) = c2).
  { unfold interpolate_entry, Js.replace. cbn [snd fst Js.scalar_string].
    change ("{" +:+ "slotAssignmentMethod" +:+ "}") with (String "{" "slotAssignmentMethod}").
    rewrite split_first_plain; [reflexivity|].
    subst c2. apply (lacks_app _ "Your order #"); [cbn; repeat split; discriminate|].
    apply lacks_app; [apply num_to_string_plain; right; reflexivity|].
    apply (lacks_app _ " has been received and is being processed. ");
      [cbn; repeat split; discriminate|exact Hb]. }
  rewrite H3. apply interpolate_entry_skips_non_scalars. exact Hslot.
Qed.

(** The steps, when nothing fails up to the commit. *)
Lemma run_createOrderSteps_forward env tz req w user d m wa p :
  valid (env_validateInventory env (items req)) = true ->
  users (store w) !! userId req = Some user ->
  run env (assignDeliverySlot req) w (Some ∅) = (Ok (Some d, m), wa, Some p) ->
  faultless env before_commit_tags ->
  exists wc n content,
    run env (createOrderSteps tz req) w (Some ∅)
    = (match env_fault env TFindOrder with
       | Some e => Err e
       | None => Ok (complete_order (store wc) (order_row env req w d))
       end, wc, None) /\
    users (store wc) = users (store w) /\
    slots (store wc) = p ∪ slots (store w) /\
    orders (store wc) = orders (store w) ++ [order_row env req w d] /\
    orderItems (store wc) = orderItems (store w) ++ item_rows env req w /\
    n = mkNotification (fresh_id (map notif_id (notifications (store w))))
          (user_id user) (order_id (order_row env req w d)) "order_created"
          "Order Confirmation" content false /\
    notifications (store wc) = notifications (store w) ++ [n] /\
    channel wc = channel w ++
      [mkPublished "user:notification" (user_id user)
         (order_id (order_row env req w d)) "order_created" "Order Confirmation"
         content (notif_id n)] /\
    content
    = "Your order #" +:+ Js.num_to_string (order_id (order_row env req w d))
      +:+ " has been received and is being processed. "
      +:+ methodPhrase (Js.JStr (method_string m))
            (timeSlotString tz (Some (startTime d)) (Some (endTime d))).
Proof.
  intros Hvalid Huser Hra Hf.
  destruct (run_assignDeliverySlot env req w ∅) as (ra & wa' & txa & Hra' & Hst & Hch & _).
  rewrite Hra in Hra'. injection Hra' as <- <- <-.
  unfold createOrderSteps. exec_op.
  rewrite (Hf TValidateInventory) by (cbn; tauto). cbn [exec_ok]. rewrite Hvalid. cbn [negb].
  exec_op. rewrite (Hf TFindUser) by (cbn; tauto). cbn [exec_ok]. rewrite Huser.
  exec_op. rewrite (Hf TCalculatePrice) by (cbn; tauto). cbn [exec_ok].
  rewrite run_bind, Hra. cbn [fst snd].
  exec_op. rewrite (Hf TSaveOrder) by (cbn; tauto). cbn [exec_ok].
  exec_op. rewrite (Hf TSaveOrderItems) by (cbn; tauto). cbn [exec_ok].
  rewrite run_bind.
  match goal with |- context [run env (notifyUser ?a ?b ?c ?d0 ?e) ?w1 ?t] =>
    destruct (run_notifyUser_payload env a b c d0 e
                (mkTemplate "Order Confirmation"
                   "Your order #{orderId} has been received and is being processed. {deliveryInfo}")
                w1 t eq_refl
                (proj1 (order_payload_truthy m d)) (proj2 (order_payload_truthy m d)))
      as (rn & wn & -> & Htot & Hinv) end.
  rewrite Htot in * by (intros t Ht; apply Hf; cbn in Ht |- *; tauto).
  destruct (Hinv _ eq_refl) as (_ & _ & Hstore & Hchan). clear Htot Hinv.
  match type of Hchan with context [interpolate ?t ?o] =>
    remember (interpolate t o) as content eqn:Hcontent end.
  exec_op. rewrite (Hf TCommitTransaction) by (cbn; tauto). cbn [exec_ok].
  exec_op.
  assert (Hfind : find_order (store (set_store wn (set_slots (store wn) (p ∪ slots (store wn)))))
                    (fresh_id (map order_id (orders (store wa))))
                  = Some (order_row env req w d)).
  { unfold find_order. cbn. rewrite Hstore. cbn. rewrite Hst.
    apply (find_fresh_order (orders (store w)) (order_row env req w d)). reflexivity. }
  cbn [order_id with_order_id].
  eexists (set_store wn (set_slots (store wn) (p ∪ slots (store wn)))), _, _.
  split.
  { destruct (env_fault env TFindOrder); [reflexivity|]. cbn [exec_ok]. rewrite Hfind.
    reflexivity. }
  cbn. rewrite Hstore, Hchan. cbn. rewrite Hst, Hch.
  do 7 (split; [reflexivity|]).
  rewrite Hcontent, Hst.
  apply (interpolate_order_created _
           (methodPhrase (Js.JStr (method_string m))
              (timeSlotString tz (Some (startTime d)) (Some (endTime d))))).
  - apply methodPhrase_plain, timeSlotString_plain; left; reflexivity.
  - apply methodPhrase_plain, timeSlotString_plain; right; reflexivity.
  - reflexivity.
Qed.

(** The wrapper when the steps fail after the commit. *)
Lemma run_createOrder_after_commit env tz req w e w1 :
  faultless env wrapper_tags ->
  env_fault env TRollbackTransaction = None ->
  run env (createOrderSteps tz req) w (Some ∅) = (Err e, w1, None) ->
  run_createOrder env tz req w = (Err transaction_not_started, w1).
Proof.
  intros Hf Hrb Hsteps. unfold run_createOrder, createOrder. exec_op.
  rewrite (Hf TInitialize) by (cbn; tauto). cbn [exec_ok].
  rewrite run_try_catch. exec_op.
  rewrite (Hf TConnect) by (cbn; tauto). cbn [exec_ok]. exec_op.
  rewrite (Hf TStartTransaction) by (cbn; tauto). cbn [exec_ok].
  rewrite run_try_finally, run_try_catch, Hsteps.
  exec_op. rewrite Hrb. cbn [exec_ok run].
  rewrite run_call. unfold exec, fault_of, op_tag.
  rewrite (Hf TRelease) by (cbn; tauto). reflexivity.
Qed.

(** X9.  When everything up to the commit succeeds and the re-read of the
    order then fails, the catch block rolls back a transaction that is no
    longer open: the caller receives TransactionNotStartedError instead of
    the error of the re-read, while the order, its items, the notification
    and the slot rows of step 4 are committed. *)
Theorem createOrder_reread_failure_masks_error env tz req w user d m wa p e :
  valid (env_validateInventory env (items req)) = true ->
  users (store w) !! userId req = Some user ->
  run env (assignDeliverySlot req) w (Some ∅) = (Ok (Some d, m), wa, Some p) ->
  env_fault env TFindOrder = Some e ->
  faultless env (TRollbackTransaction :: wrapper_tags ++ before_commit_tags) ->
  exists w',
    run_createOrder env tz req w = (Err transaction_not_started, w') /\
    orders (store w') = orders (store w) ++ [order_row env req w d] /\
    orderItems (store w') = orderItems (store w) ++ item_rows env req w /\
    slots (store w') = p ∪ slots (store w) /\
    length (notifications (store w')) = S (length (notifications (store w))).
Proof.
  intros Hvalid Huser Hra HF Hf.
  destruct (run_createOrderSteps_forward env tz req w user d m wa p Hvalid Huser Hra)
    as (wc & n & content & Hsteps & _ & Hsl & Ho & Hi & _ & Hn & _).
  { intros t Ht. apply Hf. right. apply in_or_app. right. exact Ht. }
  rewrite HF in Hsteps.
  exists wc. split.
  - apply run_createOrder_after_commit with (e := e); [|apply Hf; left; reflexivity|exact Hsteps].
    intros t Ht. apply Hf. right. apply in_or_app. left. exact Ht.
  - rewrite Hn, length_app. cbn. repeat split; auto. lia.
Qed.

(** X8.  When the inventory is valid, the user exists, step 4 yields a
    slot and no operation fails, createOrder returns the order it has just
    inserted: status "pending", the request's user and address, the
    calculator's total, the id of the slot, and an id no earlier order has.
    One item row per line item is added (none for an empty item list), and
    one unread "order_created" notification for the user is saved and
    published. *)
Theorem createOrder_succeeds env tz req w user d m wa p :
  valid (env_validateInventory env (items req)) = true ->
  users (store w) !! userId req = Some user ->
  run env (assignDeliverySlot req) w (Some ∅) = (Ok (Some d, m), wa, Some p) ->
  faultless env (TFindOrder :: wrapper_tags ++ before_commit_tags) ->
  exists co w' n,
    run_createOrder env tz req w = (Ok co, w') /\
    co_order co
    = mkOrder (fresh_id (map order_id (orders (store w)))) (userId req) (addressId req)
        (Some (slot_id d)) (totalAmount (env_calculatePrice env (items req))) "pending" /\
    ~ In (order_id (co_order co)) (map order_id (orders (store w))) /\
    co_user co = Some user /\
    orders (store w') = orders (store w) ++ [co_order co] /\
    length (orderItems (store w')) = (length (orderItems (store w)) + length (items req))%nat /\
    notifications (store w') = notifications (store w) ++ [n] /\
    notif_userId n = user_id user /\ notif_orderId n = order_id (co_order co) /\
    notif_type n = "order_created" /\ notif_title n = "Order Confirmation" /\
    notif_isRead n = false /\
    exists ev, channel w' = channel w ++ [ev] /\
      pub_notificationId ev = notif_id n /\ pub_content ev = notif_content n /\
      pub_orderId ev = order_id (co_order co) /\ pub_userId ev = user_id user.
Proof.
  intros Hvalid Huser Hra Hf.
  destruct (run_createOrderSteps_forward env tz req w user d m wa p Hvalid Huser Hra)
    as (wc & n & content & Hsteps & Hu & Hsl & Ho & Hi & Hn & Hns & Hch & _).
  { intros t Ht. apply Hf. right. apply in_or_app. right. exact Ht. }
  rewrite (Hf TFindOrder) in Hsteps by (left; reflexivity).
  assert (Hw : faultless env wrapper_tags).
  { intros t Ht. apply Hf. right. apply in_or_app. left. exact Ht. }
  pose proof (run_createOrder_of_steps env tz req w _ _ _ Hw Hsteps) as Hrun.
  cbn in Hrun.
  exists (complete_order (store wc) (order_row env req w d)), wc, n.
  split; [exact Hrun|]. split; [reflexivity|]. split.
  { cbn. intros Hin. apply fresh_id_gt in Hin. lia. }
  split; [cbn; rewrite Hu; exact Huser|].
  split; [exact Ho|]. split.
  { rewrite Hi, length_app. unfold item_rows.
    rewrite length_assign_item_ids, length_map. reflexivity. }
  split; [exact Hns|]. subst n. cbn. repeat split.
  eexists. split; [exact Hch|]. cbn. repeat split.
Qed.

(** X13.  After a successful createOrder, a notification about that order
    whose context bag lacks the slot window or the method describes the
    slot the returned order references, as "Scheduled for <window>", or
    says "Delivery details will be provided soon." when the order has no
    such slot row. *)
Theorem formatDeliveryTime_reads_created_order env tz req w co w' data tx :
  run_createOrder env tz req w = (Ok co, w') ->
  Js.truthy (Js.get data "deliverySlot")
  && Js.truthy (Js.get data "slotAssignmentMethod") = false ->
  run env (formatDeliveryTime tz (order_id (co_order co)) data) w' tx
  = (Ok (match co_deliverySlot co with
         | Some s =>
             "Scheduled for "
             +:+ timeSlotString tz (Some (startTime s)) (Some (endTime s))
         | None => "Delivery details will be provided soon."
         end), w', tx).
Proof.
  intros Hrun Hdata. apply run_createOrder_Ok_inv in Hrun as (_ & tx1 & Hsteps).
  destruct (run_createOrderSteps_ok env tz req w) as (r & w1 & tx' & Hsteps' & _ & Hinv).
  rewrite Hsteps in Hsteps'. injection Hsteps' as <- <- <-.
  destruct (Hinv co eq_refl)
    as (_ & _ & Hf & d & m & wa & p & _ & _ & _ & Ho & _ & ->).
  unfold formatDeliveryTime. exec_op.
  rewrite (Hf TInitialize) by (cbn; tauto). cbn [exec_ok]. rewrite Hdata.
  exec_op. rewrite (Hf TFindOrder) by (cbn; tauto). cbn [exec_ok].
  assert (Hfind : find_order (store w') (order_id (order_row env req w d))
                  = Some (order_row env req w d)).
  { unfold find_order. rewrite Ho. apply find_fresh_order. reflexivity. }
  cbn [co_order complete_order co_deliverySlot]. rewrite Hfind.
  destruct (slot_of_order (store w') (order_row env req w d)); reflexivity.
Qed.

(** X10.  Served one after the other, requests respect the capacity: once
    a user-selected creation has taken the last place of a slot, the
    checker reports the slot full (with the message
    "Selected delivery slot is full (max/max)"), and a later request that
    prefers it is given the default slot with method fallback, without any
    slot write. *)
Theorem createOrder_last_place_then_full env tz req w co w' id s :
  (forall k x, slots (store w) !! k = Some x -> slot_id x = k) ->
  run_createOrder env tz req w = (Ok co, w') ->
  preferredSlotId req = Some id -> id <> 0 ->
  slots (store w) !! id = Some s ->
  slot_open (env_now env) s = true ->
  currentUsage s + 1 = maxCapacity s ->
  forall req2, preferredSlotId req2 = Some id ->
    env_fault env TAssignDefaultSlot = None ->
    reports env w' id
    = Ok (mkSlotValidation false (Some (incrementUsage s))
            (Some ("Selected delivery slot is full ("
                   +:+ Js.num_to_string (maxCapacity s) +:+ "/"
                   +:+ Js.num_to_string (maxCapacity s) +:+ ")"))) /\
    exists w2,
      run env (assignDeliverySlot req2) w' (Some ∅)
      = (Ok (env_assignDefaultSlot env (store w'), fallback), w2, Some ∅) /\
      writes w2 = writes w'.
Proof.
  intros Hkey Hrun Hp Hz Hs Hopen Hlast req2 Hp2 HD.
  pose proof Hrun as Hrun0.
  apply run_createOrder_Ok_inv in Hrun as (Hw & tx1 & Hsteps).
  destruct (run_createOrderSteps_ok env tz req w) as (r & w1 & tx' & Hsteps' & _ & Hinv).
  rewrite Hsteps in Hsteps'. injection Hsteps' as <- <- <-.
  destruct (Hinv co eq_refl) as (_ & _ & Hf & d & m & wa & p & Hra & _ & Hsl & _).
  assert (HI : env_fault env TInitialize = None) by (apply Hf; cbn; tauto).
  destruct (run_assignDeliverySlot env req w ∅) as (ra & wa' & txa & Hra' & _ & _ & Hcases).
  rewrite Hra in Hra'. injection Hra' as <- <- <-.
  destruct Hcases as [(_ & _ & _ & Herr)|(s' & Hsel & _ & _ & [= ->] & _)].
  - (* the checker failed or the save failed: impossible on success *)
    assert (HFS : env_fault env TFindSlot = None).
    { destruct (env_fault env TFindSlot) eqn:HFS; [|reflexivity]. exfalso.
      revert Hra. unfold assignDeliverySlot. rewrite Hp.
      cbn [truthy_id from_option Datatypes.id]. apply Z.eqb_neq in Hz. rewrite Hz. cbn [negb].
      rewrite run_bind. unfold validateSlotAvailability. exec_op. rewrite HI. cbn [exec_ok].
      rewrite run_try_catch. exec_op. rewrite HFS. cbn [run]. discriminate. }
    destruct (Herr s) as [e [=]]. exists id. repeat split; auto.
  - destruct (selects_inv _ _ _ _ _ Hp Hsel) as (_ & _ & HFS & Hs' & _).
    rewrite Hs in Hs'. injection Hs' as <-.
    assert (Hid : slot_id s = id) by (apply Hkey; exact Hs).
    assert (Hs2 : slots (store w') !! id = Some (incrementUsage s)).
    { rewrite Hsl, <- Hid. rewrite <- insert_union_l. apply lookup_insert_eq. }
    assert (Hact : isActive s = true).
    { unfold slot_open in Hopen. apply andb_prop in Hopen as [Ho _].
      apply andb_prop in Ho as [Ho _]. exact Ho. }
    assert (Hrep : reports env w' id
                   = Ok (mkSlotValidation false (Some (incrementUsage s))
                           (Some ("Selected delivery slot is full ("
                                  +:+ Js.num_to_string (maxCapacity s) +:+ "/"
                                  +:+ Js.num_to_string (maxCapacity s) +:+ ")")))).
    { unfold reports, validateSlotAvailability. exec_op. rewrite HI. cbn [exec_ok].
      rewrite run_try_catch. exec_op. rewrite HFS. cbn [exec_ok]. rewrite Hs2.
      cbn [isActive incrementUsage currentUsage maxCapacity]. rewrite Hact. cbn [negb].
      rewrite Hlast. replace (maxCapacity s >=? maxCapacity s) with true
        by (symmetry; apply Z.geb_le; lia).
      reflexivity. }
    split; [exact Hrep|].
    unfold assignDeliverySlot. rewrite Hp2.
    cbn [truthy_id from_option Datatypes.id]. apply Z.eqb_neq in Hz. rewrite Hz. cbn [negb].
    rewrite run_bind, (reports_run _ _ _ _ _ Hrep).
    cbn [isAvailable]. exec_op. cbn [exec_ok]. exec_op. rewrite HD. cbn [exec_ok run].
    eexists. split; [reflexivity|]. reflexivity.
Qed.

Lemma hours_of_day L : (L mod 86400000) / 3600000 = (L / 3600000) mod 24.
Proof.
  change 86400000 with (3600000 * 24).
  rewrite Z.rem_mul_r by lia.
  rewrite Z.add_comm, Z.mul_comm, Z.div_add_l by lia.
  rewrite (Z.div_small (L mod 3600000)) by (apply Z.mod_pos_bound; lia).
  lia.
Qed.

(** X14.  The rendering of a time depends on its local hour only: two
    instants within the same hour of local time render alike. *)
Theorem formatTime_same_hour tz t1 t2 :
  local_ms tz t1 / 3600000 = local_ms tz t2 / 3600000 ->
  formatTime tz (Some t1) = formatTime tz (Some t2).
Proof.
  intros H. unfold formatTime, getHours. rewrite !hours_of_day, H. reflexivity.
Qed.

(** X15.  The placeholder loop ignores every entry that is neither a
    string nor a number: the content is the one obtained from the scalar
    entries alone, in their order. *)
Theorem interpolate_ignores_non_scalars template messageData :
  interpolate template messageData
  = interpolate template (List.filter is_scalar messageData).
Proof.
  unfold interpolate. revert template.
  induction messageData as [|kv l IH]; intros template; cbn [fold_left List.filter];
    [reflexivity|].
  destruct (is_scalar kv) eqn:Hk.
  - cbn [fold_left]. apply IH.
  - rewrite <- IH. f_equal. unfold interpolate_entry. unfold is_scalar in Hk.
    destruct (Js.scalar_string (snd kv)); [discriminate|reflexivity].
Qed.

Lemma strip_prefix_sound p s rest :
  Js.strip_prefix p s = Some rest -> s = p +:+ rest.
Proof.
  revert s. induction p as [|a p IH]; intros s; cbn.
  - intros [= ->]. reflexivity.
  - destruct s as [|b s]; [discriminate|].
    destruct (Ascii.eqb a b) eqn:E; [|discriminate].
    apply Ascii.eqb_eq in E. subst b. intros H. rewrite (IH _ H). reflexivity.
Qed.

Lemma split_first_sound pat s before after :
  Js.split_first pat s = Some (before, after) -> s = before +:+ pat +:+ after.
Proof.
  revert before after. induction s as [|c s IH]; intros before after; cbn.
  - destruct (Js.strip_prefix pat "") eqn:Hp; [|discriminate].
    intros [= <- <-]. apply strip_prefix_sound in Hp. exact Hp.
  - destruct (Js.strip_prefix pat (String c s)) eqn:Hp.
    + intros [= <- <-]. apply strip_prefix_sound in Hp. exact Hp.
    + destruct (Js.split_first pat s) as [[b a]|] eqn:Hs; [|discriminate].
      intros [= <- <-].
      change (String c s = String c (b +:+ pat +:+ a)). f_equal. exact (IH b a eq_refl).
Qed.

Lemma num_to_string_no_dollar n : no_dollar (Js.num_to_string n).
Proof. apply lacks_no_dollar, num_to_string_plain. left. reflexivity. Qed.

(** X16.  A safe integer is always substituted literally: where the
    placeholder of the key first occurs in the content, the result is the
    content with that occurrence replaced by the decimal form of the
    number. *)
Theorem interpolate_number_literally content key n before after :
  Js.safe_integer n ->
  Js.split_first ("{" +:+ key +:+ "}") content = Some (before, after) ->
  content = before +:+ ("{" +:+ key +:+ "}") +:+ after /\
  interpolate_entry content (key, Js.JNum n)
  = before +:+ Js.num_to_string n +:+ after.
Proof.
  intros _ Hsplit. split; [apply split_first_sound; exact Hsplit|].
  unfold interpolate_entry. cbn [snd fst Js.scalar_string].
  apply replace_literal; [exact Hsplit|apply num_to_string_no_dollar].
Qed.

Lemma get_cons k' v' o k :
  Js.get ((k', v') :: o) k = if String.eqb k' k then v' else Js.get o k.
Proof. unfold Js.get. cbn [List.find fst snd]. destruct (String.eqb k' k); reflexivity. Qed.

Lemma get_no_key o k : Js.has_key o k = false -> Js.get o k = Js.JUndefined.
Proof.
  induction o as [|[k' v'] o IH]; cbn [Js.has_key]; [reflexivity|].
  intros H. apply orb_false_elim in H as [H1 H2]. rewrite get_cons, H1. apply IH, H2.
Qed.

Lemma get_overwrite o k v k' :
  Js.has_key o k = true ->
  Js.get (Js.overwrite o k v) k' = if String.eqb k k' then v else Js.get o k'.
Proof.
  induction o as [|[k0 v0] o IH]; cbn [Js.has_key Js.overwrite]; [discriminate|].
  intros H. destruct (String.eqb k0 k) eqn:E.
  - apply String.eqb_eq in E. subst k0. rewrite !get_cons.
    destruct (String.eqb k k'); reflexivity.
  - cbn [orb] in H. rewrite !get_cons, (IH H).
    destruct (String.eqb k0 k') eqn:E'; [|reflexivity].
    apply String.eqb_eq in E'. subst k0. rewrite String.eqb_sym, E. reflexivity.
Qed.

Lemma get_insert_index o n k v k' :
  Js.has_key o k = false ->
  Js.get (Js.insert_index o n k v) k' = if String.eqb k k' then v else Js.get o k'.
Proof.
  induction o as [|[k0 v0] o IH]; cbn [Js.has_key Js.insert_index].
  - intros _. rewrite get_cons. reflexivity.
  - intros H. apply orb_false_elim in H as [H1 H2].
    destruct (Js.array_index k0) as [n'|]; [destruct (n' <? n)%N|];
      rewrite ?get_cons, ?(IH H2); try reflexivity.
    destruct (String.eqb k0 k') eqn:E'; [|reflexivity].
    apply String.eqb_eq in E'. subst k0. rewrite String.eqb_sym, H1. reflexivity.
Qed.

Lemma get_app_new o k v k' :
  Js.has_key o k = false ->
  Js.get (o ++ [(k, v)]) k' = if String.eqb k k' then v else Js.get o k'.
Proof.
  induction o as [|[k0 v0] o IH]; cbn [Js.has_key app].
  - intros _. rewrite get_cons. reflexivity.
  - intros H. apply orb_false_elim in H as [H1 H2]. rewrite !get_cons, (IH H2).
    destruct (String.eqb k0 k') eqn:E'; [|reflexivity].
    apply String.eqb_eq in E'. subst k0. rewrite String.eqb_sym, H1. reflexivity.
Qed.

Lemma get_set o k v k' :
  Js.get (Js.set o k v) k' = if String.eqb k k' then v else Js.get o k'.
Proof.
  unfold Js.set. destruct (Js.has_key o k) eqn:H.
  - apply get_overwrite, H.
  - destruct (Js.array_index k); [apply get_insert_index|apply get_app_new]; exact H.
Qed.

Lemma has_key_In o k : Js.has_key o k = true <-> In k (map fst o).
Proof.
  induction o as [|[k0 v0] o IH]; cbn; [split; [discriminate|tauto]|].
  rewrite orb_true_iff, IH, String.eqb_eq. tauto.
Qed.

(** X17.  In [{ ...base, ...extra }] the entries of [extra] take
    precedence: a key of [extra] reads as in [extra], any other key as in
    [base].  So a context entry named orderId or deliveryInfo overrides the
    built-in value in the message data of notifyUser. *)
Theorem spread_lookup base extra k :
  NoDup (map fst extra) ->
  Js.get (Js.spread base extra) k
  = if Js.has_key extra k then Js.get extra k else Js.get base k.
Proof.
  unfold Js.spread. revert base.
  induction extra as [|[k0 v0] extra IH]; intros base Hnd; cbn [fold_left fst snd].
  - reflexivity.
  - cbn [map fst] in Hnd. apply NoDup_cons in Hnd as [Hnin Hnd].
    rewrite (IH _ Hnd), get_set, get_cons. cbn [Js.has_key].
    destruct (String.eqb k0 k) eqn:E.
    + apply String.eqb_eq in E. subst k0.
      destruct (Js.has_key extra k) eqn:Hk; [|reflexivity].
      exfalso. apply Hnin. apply list_elem_of_In, has_key_In. exact Hk.
    + cbn [orb]. reflexivity.
Qed.

(** X18.  formatDeliveryTime does not check the shape of the payload: for
    a truthy deliverySlot that is not a slot window the two dates are
    invalid and the window reads "undefined 12:00 AM - 12:00 AM", under the
    phrase of the method. *)
Theorem formatDeliveryTime_without_window env tz orderId data w tx :
  env_fault env TInitialize = None ->
  Js.truthy (Js.get data "deliverySlot") = true ->
  (forall win, Js.get data "deliverySlot" <> Js.JSlot win) ->
  Js.truthy (Js.get data "slotAssignmentMethod") = true ->
  run env (formatDeliveryTime tz orderId data) w tx
  = (Ok (methodPhrase (Js.get data "slotAssignmentMethod")
           "undefined 12:00 AM - 12:00 AM"), w, tx).
Proof.
  intros HI Hs Hn Hm.
  rewrite run_formatDeliveryTime_payload by assumption.
  destruct (Js.get data "deliverySlot") as [| | | | |win| |];
    try reflexivity. exfalso. apply (Hn win). reflexivity.
Qed.

Lemma swc_weaken {A} (Q Q' : A -> Prop) p :
  (forall a, Q a -> Q' a) -> saves_within_capacity Q p -> saves_within_capacity Q' p.
Proof.
  intros HQ. induction p as [a|e|R op k IH]; cbn; auto.
  intros [Hop Hk]. split; [exact Hop|]. intros r. apply IH, Hk.
Qed.

Lemma swc_bind {A B} (Q : A -> Prop) (Q' : B -> Prop) p (f : A -> Prog B) :
  saves_within_capacity Q p ->
  (forall a, Q a -> saves_within_capacity Q' (f a)) ->
  saves_within_capacity Q' (bind p f).
Proof.
  intros Hp Hf. induction p as [a|e|R op k IH]; cbn in *; auto.
  destruct Hp as [Hop Hk]. split; [exact Hop|]. intros r. apply IH, Hk.
Qed.

Lemma swc_try_catch {A} (Q : A -> Prop) p h :
  saves_within_capacity Q p ->
  (forall e, saves_within_capacity Q (h e)) ->
  saves_within_capacity Q (try_catch p h).
Proof.
  intros Hp Hh. induction p as [a|e|R op k IH]; cbn in *; auto.
  destruct Hp as [Hop Hk]. split; [exact Hop|]. intros r. apply IH, Hk.
Qed.

Lemma swc_try_finally {A} (Q : A -> Prop) p f :
  saves_within_capacity Q p ->
  saves_within_capacity any_result f ->
  saves_within_capacity Q (try_finally p f).
Proof.
  intros Hp Hf. induction p as [a|e|R op k IH]; cbn [try_finally].
  - apply swc_bind with (Q := any_result); [exact Hf|]. intros _ _. exact Hp.
  - apply swc_bind with (Q := any_result); [exact Hf|]. intros _ _. exact I.
  - destruct Hp as [Hop Hk]. split; [exact Hop|]. intros r. apply IH, Hk.
Qed.

Lemma swc_call {R} (op : Op R) :
  saved_slot op = None -> saves_within_capacity any_result (call op).
Proof.
  intros Hop. cbn. split; [intros s Hs; congruence|]. intros [v|e]; exact I.
Qed.

Lemma swc_validateSlotAvailability slotId :
  saves_within_capacity
    (fun v => isAvailable v = true ->
              forall s, slot v = Some s -> currentUsage s < maxCapacity s)
    (validateSlotAvailability slotId).
Proof.
  unfold validateSlotAvailability.
  apply swc_bind with (Q := any_result); [apply swc_call; reflexivity|]. intros _ _.
  apply swc_try_catch; [|intros e; exact I].
  apply swc_bind with (Q := any_result); [apply swc_call; reflexivity|]. intros found _.
  destruct found as [s|]; [|cbn; discriminate].
  destruct (negb (isActive s)); [cbn; discriminate|].
  destruct (currentUsage s >=? maxCapacity s) eqn:Hc; [cbn; discriminate|].
  apply swc_bind with (Q := any_result); [apply swc_call; reflexivity|]. intros now _.
  destruct (startTime s <=? now); [cbn; discriminate|].
  cbn. intros _ s' [= <-]. rewrite Z.geb_leb in Hc. apply Z.leb_gt in Hc. exact Hc.
Qed.

Lemma swc_assignDeliverySlot req :
  saves_within_capacity any_result (assignDeliverySlot req).
Proof.
  unfold assignDeliverySlot. destruct (truthy_id (preferredSlotId req)).
  2:{ apply swc_bind with (Q := any_result); [apply swc_call; reflexivity|]. intros; exact I. }
  eapply swc_bind; [apply swc_validateSlotAvailability|]. intros v Hv. cbn beta in Hv.
  destruct (isAvailable v) eqn:Hav.
  - destruct (slot v) as [s|] eqn:Hs.
    + apply swc_bind with (Q := any_result); [|intros; exact I].
      cbn. split; [|intros [?|?]; exact I].
      intros s' [= <-]. unfold within_capacity. cbn.
      specialize (Hv eq_refl s eq_refl). lia.
    + apply swc_bind with (Q := any_result); [apply swc_call; reflexivity|]. intros _ _.
      apply swc_bind with (Q := any_result); [apply swc_call; reflexivity|]. intros; exact I.
  - apply swc_bind with (Q := any_result); [apply swc_call; reflexivity|]. intros _ _.
    apply swc_bind with (Q := any_result); [apply swc_call; reflexivity|]. intros; exact I.
Qed.

Lemma swc_formatDeliveryTime tz orderId data :
  saves_within_capacity any_result (formatDeliveryTime tz orderId data).
Proof.
  unfold formatDeliveryTime.
  apply swc_bind with (Q := any_result); [apply swc_call; reflexivity|]. intros _ _.
  destruct (_ && _); [exact I|].
  apply swc_bind with (Q := any_result); [apply swc_call; reflexivity|]. intros o _.
  destruct o as [[? [?|]]|]; exact I.
Qed.

Lemma swc_notifyUser tz orderId type userId data :
  saves_within_capacity any_result (notifyUser tz orderId type userId data).
Proof.
  unfold notifyUser.
  apply swc_bind with (Q := any_result); [apply swc_call; reflexivity|]. intros _ _.
  apply swc_try_catch.
  - destruct (lookup_template type); [|exact I].
    apply swc_bind with (Q := any_result); [apply swc_formatDeliveryTime|]. intros info _.
    apply swc_bind with (Q := any_result); [apply swc_call; reflexivity|]. intros n _.
    apply swc_bind with (Q := any_result); [apply swc_call; reflexivity|]. intros; exact I.
  - intros e. apply swc_bind with (Q := any_result); [apply swc_call; reflexivity|]. intros; exact I.
Qed.

Lemma swc_createOrderSteps tz req :
  saves_within_capacity any_result (createOrderSteps tz req).
Proof.
  unfold createOrderSteps.
  apply swc_bind with (Q := any_result); [apply swc_call; reflexivity|]. intros iv _.
  destruct (negb (valid iv)); [exact I|].
  apply swc_bind with (Q := any_result); [apply swc_call; reflexivity|]. intros u _.
  destruct u as [user|]; [|exact I].
  apply swc_bind with (Q := any_result); [apply swc_call; reflexivity|]. intros pd _.
  apply swc_bind with (Q := any_result); [apply swc_assignDeliverySlot|]. intros assigned _.
  destruct (fst assigned) as [d|]; [|exact I].
  apply swc_bind with (Q := any_result); [apply swc_call; reflexivity|]. intros o _.
  apply swc_bind with (Q := any_result); [apply swc_call; reflexivity|]. intros its _.
  apply swc_bind with (Q := any_result); [apply swc_notifyUser|]. intros n _.
  apply swc_bind with (Q := any_result); [apply swc_call; reflexivity|]. intros _ _.
  apply swc_bind with (Q := any_result); [apply swc_call; reflexivity|]. intros co _.
  destruct co; exact I.
Qed.

Lemma swc_createOrder tz req : saves_within_capacity any_result (createOrder tz req).
Proof.
  unfold createOrder.
  apply swc_bind with (Q := any_result); [apply swc_call; reflexivity|]. intros _ _.
  apply swc_try_catch; [|intros e; exact I].
  apply swc_bind with (Q := any_result); [apply swc_call; reflexivity|]. intros _ _.
  apply swc_bind with (Q := any_result); [apply swc_call; reflexivity|]. intros _ _.
  apply swc_try_finally; [|apply swc_call; reflexivity].
  apply swc_try_catch; [apply swc_createOrderSteps|].
  intros e. apply swc_bind with (Q := any_result); [apply swc_call; reflexivity|]. intros; exact I.
Qed.

Lemma exec_within_capacity env {R} (op : Op R) w tx r w' tx' :
  (forall s, saved_slot op = Some s -> within_capacity s) ->
  rows_within_capacity (slots (store w)) -> tx_within_capacity tx ->
  exec env op w tx = (r, w', tx') ->
  rows_within_capacity (slots (store w')) /\ tx_within_capacity tx'.
Proof.
  intros Hop Hw Htx. unfold exec. destruct (fault_of env op).
  { intros [= _ <- <-]. auto. }
  destruct op; cbn [exec_ok]; try (intros [= _ <- <-]; auto; fail).
  - destruct tx; intros [= _ <- <-]; auto. split; [exact Hw|]. cbn. apply map_Forall_empty.
  - destruct tx as [pending|]; intros [= _ <- <-]; auto. split; [|exact I]. cbn.
    intros k x Hk. apply lookup_union_Some_raw in Hk as [Hk|[_ Hk]].
    + exact (Htx k x Hk).
    + exact (Hw k x Hk).
  - destruct tx; intros [= _ <- <-]; cbn; auto.
  - specialize (Hop s eq_refl).
    destruct tx as [pending|]; intros [= _ <- <-]; cbn.
    + split; [exact Hw|]. apply map_Forall_insert_2; assumption.
    + split; [|exact I]. apply map_Forall_insert_2; assumption.
Qed.

Lemma step_thread_within_capacity env {A} (t : Thread A) w t' w' :
  thread_within_capacity t -> rows_within_capacity (slots (store w)) ->
  step_thread env t w = (t', w') ->
  thread_within_capacity t' /\ rows_within_capacity (slots (store w')).
Proof.
  intros [Hp Htx] Hw. unfold step_thread. destruct t as [p tx]. cbn in *.
  destruct p as [a|e|R op k]; try (intros [= <- <-]; split; [split|]; auto; fail).
  destruct Hp as [Hop Hk].
  destruct (exec env op w tx) as [[r w1] tx1] eqn:Hexec. intros [= <- <-].
  destruct (exec_within_capacity env op w tx r w1 tx1 Hop Hw Htx Hexec) as [Hw1 Htx1].
  split; [split; [apply Hk|exact Htx1]|exact Hw1].
Qed.

Lemma sched_within_capacity env {A} schedule (pool : list (Thread A)) w :
  Forall thread_within_capacity pool -> rows_within_capacity (slots (store w)) ->
  Forall thread_within_capacity (fst (sched env schedule pool w)) /\
  rows_within_capacity (slots (store (snd (sched env schedule pool w)))).
Proof.
  revert pool w. induction schedule as [|i rest IH]; intros pool w Hpool Hw; cbn [sched].
  - auto.
  - destruct (pool !! i) as [t|] eqn:Ht; [|apply IH; assumption].
    destruct (step_thread env t w) as [t' w'] eqn:Hstep.
    destruct (step_thread_within_capacity env t w t' w') as [Ht' Hw']; auto.
    { eapply Forall_lookup_1; eauto. }
    apply IH; [|exact Hw'].
    apply Forall_insert; assumption.
Qed.

(** X19.  Under every interleaving of any number of concurrent createOrder
    calls, whatever fails, no committed slot row ever has its currentUsage
    above its maxCapacity, if none had before. *)
Theorem concurrent_createOrder_within_capacity env tz (reqs : list IOrderInput)
    (schedule : list nat) w :
  rows_within_capacity (slots (store w)) ->
  rows_within_capacity
    (slots (store (snd (sched env schedule
                          (map (fun req => mkThread (createOrder tz req) None) reqs) w)))).
Proof.
  intros Hw. apply sched_within_capacity; [|exact Hw].
  apply Forall_map. apply Forall_forall. intros req _.
  split; [apply swc_createOrder|exact I].
Qed.

(** X20.  The confirmation a successful createOrder leaves behind reads
    "Your order #<id> has been received and is being processed. " followed
    by the phrase of the assignment method of step 4 around the window of
    the assigned slot; the id is the one of the returned order, and the
    published event carries the same text. *)
Theorem createOrder_confirmation_message env tz req w co w' :
  run_createOrder env tz req w = (Ok co, w') ->
  exists n d m,
    fst (fst (run env (assignDeliverySlot req) w (Some ∅))) = Ok (Some d, m) /\
    order_deliverySlotId (co_order co) = Some (slot_id d) /\
    notifications (store w') = notifications (store w) ++ [n] /\
    notif_content n
    = "Your order #" +:+ Js.num_to_string (order_id (co_order co))
      +:+ " has been received and is being processed. "
      +:+ methodPhrase (Js.JStr (method_string m))
            (timeSlotString tz (Some (startTime d)) (Some (endTime d))) /\
    exists ev, channel w' = channel w ++ [ev] /\ pub_content ev = notif_content n.
Proof.
  intros Hrun.
  destruct (run_createOrder_Ok_inv _ _ _ _ _ _ Hrun) as [_ (tx1 & Hsteps)].
  destruct (run_createOrderSteps_ok env tz req w) as (r & w1 & tx1' & Hrun1 & _ & Hinv).
  rewrite Hsteps in Hrun1. injection Hrun1 as <- <- <-.
  destruct (Hinv co eq_refl)
    as (Hvalid & [user Huser] & Hf & d & m & wa & p & Hra & _).
  destruct (run_createOrderSteps_forward env tz req w user d m wa p Hvalid Huser Hra)
    as (wc & n & content & Hsteps2 & _ & _ & _ & _ & Hn & Hns & Hch & Hcontent).
  { intros t Ht. apply Hf. cbn in Ht |- *. tauto. }
  rewrite (Hf TFindOrder) in Hsteps2 by (cbn; tauto).
  rewrite Hsteps in Hsteps2. injection Hsteps2 as -> -> _.
  exists n, d, m. rewrite Hra. split; [reflexivity|]. split; [reflexivity|].
  split; [exact Hns|]. split; [rewrite Hn; exact Hcontent|].
  eexists. split; [exact Hch|]. rewrite Hn. reflexivity.
Qed.

(** ** Further scenarios, run *)

(** The checker on slot 5: the row as stored, no message. *)
Lemma checker_result_on_slot_5 :
  exists v,
    run (demo_env no_fault) (validateSlotAvailability 5) demo_world None
    = (Ok v, demo_world, None) /\
    slot v = Some (sunday_slot 5 0 1) /\ message v = None.
Proof.
  destruct (run (demo_env no_fault) (validateSlotAvailability 5) demo_world None)
    as [[r w'] tx'] eqn:Hrun.
  destruct (validateSlotAvailability_result_shape _ _ _ _ _ _ _ Hrun)
    as (-> & -> & Hshape).
  assert (Hr : r = Ok (mkSlotValidation true (Some (sunday_slot 5 0 1)) None))
    by (vm_compute in Hrun; injection Hrun as <-; reflexivity).
  destruct (Hshape _ Hr) as (Hs & Hm & _).
  eexists. split; [rewrite Hr; reflexivity|]. split; [reflexivity|].
  apply Hm. reflexivity.
Defined.

(** The read of slot 5 fails with an error without a message, which
    prints as its name alone. *)
Lemma checker_error_scenario :
  run_createOrder (demo_env slot_read_fails) 0 (demo_request (Some 5)) demo_world
  = (Err (new_Error "Error validating slot availability: AggregateError"),
     demo_world).
Proof.
  destruct (createOrder_checker_error_is_fatal (demo_env slot_read_fails) 0
              (demo_request (Some 5)) demo_world 5 connection_refused) as [_ Hrun].
  - reflexivity.
  - lia.
  - reflexivity.
  - intros t Ht. cbn in Ht. destruct Ht as [<-|[<-|[<-|[<-|[<-|[<-|[<-|[<-|[]]]]]]]]];
      reflexivity.
  - reflexivity.
  - exists alice. reflexivity.
  - exact Hrun.
Defined.

(** Scenario E through the general statement. *)
Lemma out_of_stock_scenario :
  run_createOrder out_of_stock_env 0 (demo_request (Some 5)) demo_world
  = (Err (new_Error "Inventory validation failed: A out of stock"), demo_world).
Proof.
  apply (createOrder_inventory_invalid out_of_stock_env 0 (demo_request (Some 5))
           demo_world).
  - reflexivity.
  - intros t _. reflexivity.
Defined.

Lemma stranger_scenario :
  run_createOrder (demo_env no_fault) 0 stranger_request demo_world
  = (Err (new_Error "User with ID 8 not found"), demo_world).
Proof.
  apply (createOrder_user_not_found (demo_env no_fault) 0 stranger_request demo_world).
  - reflexivity.
  - vm_compute. reflexivity.
  - intros t _. reflexivity.
Defined.

Lemma order_insert_failure_scenario :
  store (snd (run_createOrder (demo_env order_insert_fails) 0
                (demo_request (Some 5)) demo_world))
  = demo_store.
Proof.
  apply (createOrder_order_insert_failure_changes_nothing
           (demo_env order_insert_fails) 0 (demo_request (Some 5)) demo_world db_error).
  reflexivity.
Defined.

(** The item insert fails: the order row stays, the slot row is restored. *)
Lemma item_failure_restores_slot :
  slots (store (snd (run_createOrder (demo_env items_fail) 0
                       (demo_request (Some 5)) demo_world)))
  = slots demo_store.
Proof.
  apply (createOrder_failure_restores_slots (demo_env items_fail) 0
           (demo_request (Some 5)) demo_world db_error).
  - vm_compute. reflexivity.
  - reflexivity.
  - reflexivity.
Defined.

(** The re-read fails after the commit. *)
Lemma reread_failure_scenario :
  exists w',
    run_createOrder (demo_env reread_fails) 0 (demo_request (Some 5)) demo_world
    = (Err transaction_not_started, w') /\
    orders (store w') = [mkOrder 1 7 1 (Some 5) 20 "pending"].
Proof.
  destruct (createOrder_reread_failure_masks_error (demo_env reread_fails) 0
              (demo_request (Some 5)) demo_world alice (sunday_slot 5 1 1)
              user_selected
              (mkWorld demo_store [] [] [WSlot true (sunday_slot 5 1 1)])
              {[ 5 := sunday_slot 5 1 1 ]} db_error)
    as (w' & Hrun & Ho & _).
  - reflexivity.
  - vm_compute. reflexivity.
  - vm_compute. reflexivity.
  - reflexivity.
  - intros t Ht. cbn in Ht.
    repeat (destruct Ht as [<-|Ht]; [reflexivity|]). destruct Ht.
  - exists w'. split; [exact Hrun|]. rewrite Ho. vm_compute. reflexivity.
Defined.

(** A creation on the default slot 9, for an empty item list. *)
Lemma empty_order_scenario :
  exists co w',
    run_createOrder (demo_env no_fault) 0 (mkOrderInput 7 1 [] None) busy_world
    = (Ok co, w') /\
    order_status (co_order co) = "pending" /\
    order_deliverySlotId (co_order co) = Some 9 /\
    orderItems (store w') = [] /\
    length (notifications (store w')) = 1%nat.
Proof.
  destruct (createOrder_succeeds (demo_env no_fault) 0 (mkOrderInput 7 1 [] None)
              busy_world alice (monday_slot 9 0 3) auto_assigned busy_world ∅)
    as (co & w' & n & Hrun & Hco & _ & _ & _ & Hitems & Hn & _).
  - reflexivity.
  - vm_compute. reflexivity.
  - vm_compute. reflexivity.
  - intros t _. reflexivity.
  - exists co, w'. split; [exact Hrun|]. rewrite Hco, Hn.
    split; [reflexivity|]. split; [reflexivity|]. split; [|reflexivity].
    cbn in Hitems. destruct (orderItems (store w')); [reflexivity|discriminate].
Defined.

(** The last place of slot 5 is taken; the next request falls back. *)
Lemma last_place_scenario :
  exists co w',
    run_createOrder (demo_env no_fault) 0 (demo_request (Some 5)) demo_world
    = (Ok co, w') /\
    reports (demo_env no_fault) w' 5
    = Ok (mkSlotValidation false (Some (sunday_slot 5 1 1))
            (Some "Selected delivery slot is full (1/1)")).
Proof.
  destruct (run_createOrder (demo_env no_fault) 0 (demo_request (Some 5)) demo_world)
    as [r w'] eqn:Hrun.
  assert (exists co, r = Ok co) as [co ->]
    by (vm_compute in Hrun; injection Hrun as <- _; eexists; reflexivity).
  destruct (createOrder_last_place_then_full (demo_env no_fault) 0
              (demo_request (Some 5)) demo_world co w' 5 (sunday_slot 5 0 1))
    with (req2 := demo_request (Some 5)) as [Hrep _].
  - intros k x Hk. unfold demo_world, demo_store in Hk. cbn [store slots] in Hk.
    apply lookup_singleton_Some in Hk as [<- <-]. reflexivity.
  - exact Hrun.
  - reflexivity.
  - lia.
  - vm_compute. reflexivity.
  - vm_compute. reflexivity.
  - reflexivity.
  - reflexivity.
  - reflexivity.
  - exists co, w'. split; [reflexivity|]. rewrite Hrep. reflexivity.
Defined.

Lemma unknown_type_scenario :
  fst (fst (run (demo_env no_fault) (notifyUser 0 1 "order_paid" 7 []) demo_world None))
  = Err (new_Error "Notification template for type 'order_paid' not found").
Proof.
  destruct (notifyUser_unknown_type (demo_env no_fault) 0 1 "order_paid" 7 []
              demo_world None) as [line ->].
  - cbn. intros [H|[H|[H|[H|[H|[H|[]]]]]]]; discriminate H.
  - cbn. intros H. repeat (destruct H as [H|H]; [discriminate H|]). destruct H.
  - reflexivity.
  - reflexivity.
Defined.

(** A notification about a shipped order: one row, one event. *)
Lemma shipped_notification_scenario :
  exists n w',
    run (demo_env no_fault) (notifyUser 0 1 "order_shipped" 7 []) demo_world None
    = (Ok n, w', None) /\
    notifications (store w') = [n] /\ notif_isRead n = false /\
    length (channel w') = 1%nat.
Proof.
  destruct (run (demo_env no_fault) (notifyUser 0 1 "order_shipped" 7 []) demo_world
              None) as [[r w'] tx'] eqn:Hrun.
  assert (Hown : ~ In "order_shipped" inherited_keys).
  { cbn. intros H. repeat (destruct H as [H|H]; [discriminate H|]). destruct H. }
  destruct (notifyUser_persists_then_publishes _ _ _ _ _ _ _ _ _ _ _ Hown Hrun)
    as (_ & _ & _ & _ & Hout).
  assert (exists n, r = Ok n /\ tx' = None) as (n & -> & ->).
  { vm_compute in Hrun. injection Hrun as <- _ <-. eexists. split; reflexivity. }
  destruct Hout as (tpl & content & _ & -> & Hn & Hc).
  do 2 eexists. split; [reflexivity|]. split; [exact Hn|]. split; [reflexivity|].
  rewrite Hc. reflexivity.
Defined.

(** After the creation on slot 5, a later notification without context
    names the window of slot 5. *)
Lemma later_notification_scenario :
  exists co w',
    run_createOrder (demo_env no_fault) 0 (demo_request (Some 5)) demo_world
    = (Ok co, w') /\
    run (demo_env no_fault) (formatDeliveryTime 0 (order_id (co_order co)) []) w' None
    = (Ok "Scheduled for Sunday 2:00 PM - 5:00 PM", w', None).
Proof.
  destruct (run_createOrder (demo_env no_fault) 0 (demo_request (Some 5)) demo_world)
    as [r w'] eqn:Hrun.
  assert (Hr : exists co, r = Ok co /\ co_deliverySlot co = Some (sunday_slot 5 1 1)).
  { vm_compute in Hrun. injection Hrun as <- _. eexists. split; reflexivity. }
  destruct Hr as (co & -> & Hslot).
  exists co, w'. split; [reflexivity|].
  rewrite (formatDeliveryTime_reads_created_order _ _ _ _ _ _ [] None Hrun eq_refl).
  rewrite Hslot. reflexivity.
Defined.

(** 14:00 and 14:59 render alike. *)
Lemma same_hour_scenario :
  formatTime 0 (Some (86 * hour)) = formatTime 0 (Some (86 * hour + 59 * 60000)).
Proof. apply formatTime_same_hour. reflexivity. Defined.

(** The order number is put in place of its placeholder. *)
Lemma order_number_scenario :
  interpolate_entry "Your order #{orderId} has been delivered. Enjoy!"
    ("orderId", Js.JNum 42)
  = "Your order #42 has been delivered. Enjoy!".
Proof.
  destruct (interpolate_number_literally
              "Your order #{orderId} has been delivered. Enjoy!" "orderId" 42
              "Your order #" " has been delivered. Enjoy!") as [_ H].
  - unfold Js.safe_integer. lia.
  - reflexivity.
  - rewrite H. reflexivity.
Defined.

(** A context entry named orderId overrides the built-in one. *)
Lemma override_scenario :
  Js.get (Js.spread [("orderId", Js.JNum 1); ("deliveryInfo", Js.JStr "soon")]
            [("reason", Js.JStr "late"); ("orderId", Js.JStr "A-1")]) "orderId"
  = Js.JStr "A-1".
Proof.
  rewrite spread_lookup; [reflexivity|].
  cbn [map fst]. apply (bool_decide_unpack _). vm_compute. exact I.
Defined.

Lemma windowless_scenario :
  run (demo_env no_fault) (formatDeliveryTime 0 1 windowless_data) demo_world None
  = (Ok "Your preferred time slot was unavailable, so we assigned the next available slot: undefined 12:00 AM - 12:00 AM",
     demo_world, None).
Proof.
  rewrite (formatDeliveryTime_without_window (demo_env no_fault) 0 1 windowless_data
             demo_world None); try reflexivity.
  intros win. discriminate.
Defined.

(** The race for slot 5 overbooks it, and still the counter stays within
    the capacity. *)
Lemma race_within_capacity :
  rows_within_capacity
    (slots (store (snd (sched (demo_env no_fault) race_schedule
                          (map (fun req => mkThread (createOrder 0 req) None)
                             [demo_request (Some 5); demo_request (Some 5)])
                          demo_world)))).
Proof.
  apply concurrent_createOrder_within_capacity.
  unfold rows_within_capacity, demo_world, demo_store. cbn [store slots].
  apply map_Forall_singleton. unfold within_capacity. cbn. lia.
Defined.

(** The confirmation of scenario A. *)
Lemma confirmation_message_scenario :
  exists co w' n,
    run_createOrder (demo_env no_fault) 0 (demo_request (Some 5)) demo_world = (Ok co, w') /\
    notifications (store w') = [n] /\
    notif_content n
    = "Your order #1 has been received and is being processed. Your selected delivery time: Sunday 2:00 PM - 5:00 PM".
Proof.
  destruct (run_createOrder (demo_env no_fault) 0 (demo_request (Some 5)) demo_world)
    as [r w'] eqn:Hrun.
  assert (Hr : exists co, r = Ok co /\ order_id (co_order co) = 1).
  { vm_compute in Hrun. injection Hrun as <- _. eexists. split; reflexivity. }
  destruct Hr as (co & -> & Hid).
  destruct (createOrder_confirmation_message _ _ _ _ _ _ Hrun)
    as (n & d & m & Hra & _ & Hns & Hc & _).
  exists co, w', n. split; [reflexivity|]. split; [exact Hns|].
  rewrite Hc, Hid. vm_compute in Hra. injection Hra as <- <-. reflexivity.
Defined.
